(** * Warehouse AI: capability registry, intent classifier, orchestrator
      and location agent

    A shallow embedding of the TypeScript/JavaScript sources

    - [AgentRegistry.ts]   (class [AgentRegistry])
    - [query-router.ts]    ([classifyQueryLLM], [fallbackClassification])
    - [orchestrator/app.ts] (class [WarehouseAIOrchestrator])
    - [location-agent/server.js] (class [LocationAgentServer])
    - [mcp-tools/server.js] (class [MCPServer])

    followed by the vocabulary in which their properties are stated, the
    properties, and concrete runs.

    Conventions of the embedding:
    - an asynchronous function is modelled by the way its promise settles
      ([Outcome]), a [try]/[catch] by a case analysis on it;
    - what the code obtains from the outside world (the clock, random
      identifiers, the text-completion service, the tool handlers, the
      remote manifests) is an input of the embedded function;
    - one request is processed at a time;
    - strings are byte strings: [toLowerCase] lower-cases the ASCII letters
      and leaves every other byte alone, and the properties that depend
      on case are stated on the lower-cased text;
    - a [Map] is an association list in insertion order;
    - the registry, the classifier and the orchestrator are embedded
      twice: [Registry], [Router] and [Orchestrator] take the registry
      entries and the answer of the text-completion service at their
      declared TypeScript types, [RawRegistry], [RawRouter] and
      [RawOrchestrator] take them as the values they are at run time,
      where reading a field, joining or iterating a value and converting
      it to text can throw. *)

From Stdlib Require Import ZArith NArith QArith Ascii String List Bool Lia.
From Stdlib Require Import Permutation Sorted DecimalString.
From stdpp Require Import gmap strings.
Import ListNotations.

(** ** JavaScript runtime notions *)

Module Js.

(** A thrown value: an [Error] instance with its [message], or any other
    value (the code tests [error instanceof Error]). *)
Inductive JsThrown : Type :=
| JsError (message : string)
| JsNonError.

(** How a call (or the promise of an [async] call) ends. *)
Inductive Outcome (A : Type) : Type :=
| Returned (a : A)
| Thrown (e : JsThrown).
Arguments Returned {A} a.
Arguments Thrown {A} e.

(** [error instanceof Error ? error.message : dflt] *)
Definition messageOr (e : JsThrown) (dflt : string) : string :=
  match e with
  | JsError m => m
  | JsNonError => dflt
  end.

(** A promise with the time (in ms after its creation) at which it
    settles; [None] is a promise that never settles. *)
Record Promise (A : Type) : Type := mkPromise {
  settlesAt : option N;
  settlesWith : Outcome A
}.
Arguments mkPromise {A} _ _.
Arguments settlesAt {A} _.
Arguments settlesWith {A} _.

(** JSON-like dynamic values ([any]). *)
#[warnings="-register-all"] Inductive JsVal : Type :=
| JUndefined
| JNull
| JBool (b : bool)
| JNum (q : Q)
| JStr (s : string)
| JArr (items : list JsVal)
| JObj (props : list (string * JsVal)).

(** [typeof v] *)
Definition typeof (v : JsVal) : string :=
  match v with
  | JUndefined => "undefined"
  | JNull => "object"
  | JBool _ => "boolean"
  | JNum _ => "number"
  | JStr _ => "string"
  | JArr _ => "object"
  | JObj _ => "object"
  end.

(** [a < b] on numbers. *)
Definition ltNum (a b : Q) : bool := negb (Qle_bool b a).

(** [Array.isArray(v)] *)
Definition isArray (v : JsVal) : bool :=
  match v with JArr _ => true | _ => false end.

(** Truthiness, as tested by [if (v)], [!v] and [v || d]. *)
Definition truthy (v : JsVal) : bool :=
  match v with
  | JUndefined | JNull => false
  | JBool b => b
  | JNum q => negb (Qeq_bool q 0)
  | JStr s => negb (String.eqb s "")
  | JArr _ | JObj _ => true
  end.

(** Own-property lookup in an object literal: first binding of the key. *)
Fixpoint lookupProp (props : list (string * JsVal)) (k : string) : JsVal :=
  match props with
  | [] => JUndefined
  | (k', v) :: rest => if String.eqb k' k then v else lookupProp rest k
  end.

(** [v.k]: a [TypeError] on [undefined] and [null], [undefined] for a
    missing property and for the properties the model does not track
    (those of primitives and arrays). *)
Definition getProp (v : JsVal) (k : string) : Outcome JsVal :=
  match v with
  | JUndefined =>
      Thrown (JsError ("Cannot read properties of undefined (reading '" +:+ k +:+ "')"))
  | JNull =>
      Thrown (JsError ("Cannot read properties of null (reading '" +:+ k +:+ "')"))
  | JObj props => Returned (lookupProp props k)
  | _ => Returned JUndefined
  end.

(** *** Strings *)

Definition isUpper (c : ascii) : bool :=
  let n := nat_of_ascii c in (65 <=? n) && (n <=? 90).

Definition isLower (c : ascii) : bool :=
  let n := nat_of_ascii c in (97 <=? n) && (n <=? 122).

Definition isDigit (c : ascii) : bool :=
  let n := nat_of_ascii c in (48 <=? n) && (n <=? 57).

(** The regular-expression class [\w]: letters, digits and underscore. *)
Definition isWordChar (c : ascii) : bool :=
  isUpper c || isLower c || isDigit c || (nat_of_ascii c =? 95).

Definition lowerChar (c : ascii) : ascii :=
  if isUpper c then ascii_of_nat (nat_of_ascii c + 32) else c.

(** [s.toLowerCase()] *)
Fixpoint toLowerCase (s : string) : string :=
  match s with
  | EmptyString => EmptyString
  | String c rest => String (lowerChar c) (toLowerCase rest)
  end.

(** [s.startsWith(p)] *)
Fixpoint startsWith (s p : string) {struct p} : bool :=
  match p, s with
  | EmptyString, _ => true
  | String _ _, EmptyString => false
  | String a p', String b s' => Ascii.eqb a b && startsWith s' p'
  end.

(** [s.includes(sub)]: [sub] occurs at some position of [s]. *)
Fixpoint includes (s sub : string) : bool :=
  startsWith s sub ||
  match s with
  | EmptyString => false
  | String _ rest => includes rest sub
  end.

(** *** The regular expression [/\b\d{6,}\b/]

    The matcher tries every start position from left to right, as the
    regular-expression engine does.  At a start position the assertion
    [\b] holds when the previous character is not a word character (or
    there is none) and the current one is; [\d{6,}] then takes the
    digits greedily.  Giving digits back never helps the closing [\b],
    because the character after a shorter run is a digit: the closing
    assertion is tested after the whole run. *)

Fixpoint leadingDigits (s : string) : nat :=
  match s with
  | String c rest => if isDigit c then S (leadingDigits rest) else 0
  | EmptyString => 0
  end.

Fixpoint dropChars (n : nat) (s : string) : string :=
  match n, s with
  | S n', String _ rest => dropChars n' rest
  | _, _ => s
  end.

(** [\b] between a word character and what follows it. *)
Definition boundaryAfterWord (rest : string) : bool :=
  match rest with
  | EmptyString => true
  | String c _ => negb (isWordChar c)
  end.

Definition matchDigitsHere (s : string) : bool :=
  let n := leadingDigits s in
  (6 <=? n) && boundaryAfterWord (dropChars n s).

Fixpoint searchFrom (prevIsWord : bool) (s : string) : bool :=
  match s with
  | EmptyString => false
  | String c rest =>
      (negb prevIsWord && matchDigitsHere s) || searchFrom (isWordChar c) rest
  end.

(** [/\b\d{6,}\b/.test(s)] *)
Definition testProductNumber (s : string) : bool := searchFrom false s.

(** *** Insertion-ordered [Map<string, V>] *)

Section JsMap.
Context {V : Type}.

Definition JsMap := list (string * V).

(** [m.get(k)] *)
Fixpoint mapGet (m : list (string * V)) (k : string) : option V :=
  match m with
  | [] => None
  | (k', v) :: rest => if String.eqb k' k then Some v else mapGet rest k
  end.

(** [m.has(k)] *)
Definition mapHas (m : list (string * V)) (k : string) : bool :=
  match mapGet m k with Some _ => true | None => false end.

(** [m.set(k, v)]: an existing key keeps its position, a new key goes
    last. *)
Fixpoint mapSet (m : list (string * V)) (k : string) (v : V) : list (string * V) :=
  match m with
  | [] => [(k, v)]
  | (k', v') :: rest =>
      if String.eqb k' k then (k', v) :: rest else (k', v') :: mapSet rest k v
  end.

(** [Array.from(m.values())] *)
Definition mapValues (m : list (string * V)) : list V := map snd m.

(** [Array.from(m.keys())] *)
Definition mapKeys (m : list (string * V)) : list string := map fst m.
End JsMap.
Arguments JsMap V : clear implicits.

(** *** [Array.prototype.sort]

    The language requires [sort] to be stable.  With a consistent
    comparator the result of a stable sort is determined by its input
    (see [stable_sorted_unique] below), so the insertion sort below
    computes what every conforming engine computes.  [cmp a b <= 0]
    keeps [a] before [b]. *)
Section Sort.
Context {A : Type} (cmp : A -> A -> Z).

Fixpoint sortInsert (x : A) (l : list A) : list A :=
  match l with
  | [] => [x]
  | y :: rest =>
      if (cmp x y <=? 0)%Z then x :: y :: rest else y :: sortInsert x rest
  end.

Fixpoint sort (l : list A) : list A :=
  match l with
  | [] => []
  | x :: rest => sortInsert x (sort rest)
  end.
End Sort.

(** [arr.slice(-n)]: the last [n] elements (all of them when the array
    is shorter). *)
Definition sliceLast {A} (n : nat) (l : list A) : list A :=
  skipn (length l - n) l.

(** A promise that is known to settle, with its settling time in ms.  Tool
    handlers are taken to settle: a handler that never does would leave
    its caller suspended for ever. *)
Record Settled (A : Type) : Type := mkSettled {
  settledAt : N;
  settledWith : Outcome A
}.
Arguments mkSettled {A} _ _.
Arguments settledAt {A} _.
Arguments settledWith {A} _.

(** The earliest rejection among the promises, the leftmost one among
    those that reject at the same time. *)
Fixpoint firstRejection {A} (ps : list (Settled A)) : option (N * JsThrown) :=
  match ps with
  | [] => None
  | p :: rest =>
      match settledWith p, firstRejection rest with
      | Returned _, later => later
      | Thrown e, None => Some (settledAt p, e)
      | Thrown e, Some (t, e') =>
          if (t <? settledAt p)%N then Some (t, e') else Some (settledAt p, e)
      end
  end.

Fixpoint fulfilledValues {A} (ps : list (Settled A)) : list A :=
  match ps with
  | [] => []
  | p :: rest =>
      match settledWith p with
      | Returned a => a :: fulfilledValues rest
      | Thrown _ => fulfilledValues rest
      end
  end.

(** [await Promise.all(ps)]: rejects with the first rejection, otherwise
    yields the array of all the values. *)
Definition promiseAll {A} (ps : list (Settled A)) : Outcome (list A) :=
  match firstRejection ps with
  | Some (_, e) => Thrown e
  | None => Returned (fulfilledValues ps)
  end.

(** [arr.join(sep)] on an array of strings. *)
Fixpoint join (sep : string) (arr : list string) : string :=
  match arr with
  | [] => ""
  | x :: rest =>
      match rest with
      | [] => x
      | _ => x +:+ sep +:+ join sep rest
      end
  end.

(** [Math.max(...xs)]: [None] stands for [-Infinity], the result for no
    argument. *)
Definition mathMax (xs : list N) : option N :=
  fold_left (fun acc x =>
               match acc with
               | None => Some x
               | Some m => Some (N.max m x)
               end)
            xs None.

(** Sequencing of calls that may throw. *)
Definition bind {A B} (o : Outcome A) (k : A -> Outcome B) : Outcome B :=
  match o with
  | Returned a => k a
  | Thrown e => Thrown e
  end.

End Js.

(** ** The capability registry ([AgentRegistry.ts]) *)

Module Registry.
Import Js.

(** An element of [AgentManifest.tools]. *)
Record ToolDescriptor : Type := mkTool {
  toolName : string;
  toolDescription : string;
  intentTags : list string;
  schema : JsVal
}.

(** [interface AgentRegistryEntry extends AgentManifest]: the manifest
    fields followed by the fields the registry owns.  A [Date] is its
    time value in ms. *)
Record AgentRegistryEntry : Type := mkEntry {
  agentId : string;
  name : string;
  description : string;
  version : string;
  tools : list ToolDescriptor;
  capabilities : list string;
  expertise : list string;
  healthEndpoint : string;
  status : string;
  endpoint : option string;
  lastHealthCheck : N;
  discoveredAt : N;
  healthy : bool
}.

(** The private field [agents : Map<string, AgentRegistryEntry>]. *)
Definition AgentRegistry : Type := JsMap AgentRegistryEntry.

(** [stop()]: [this.agents.clear()] *)
Definition stop (reg : AgentRegistry) : AgentRegistry := [].

(** [getAgent(agentId)] *)
Definition getAgent (reg : AgentRegistry) (id : string) : option AgentRegistryEntry :=
  mapGet reg id.

(** [getAllAgents()] *)
Definition getAllAgents (reg : AgentRegistry) : list AgentRegistryEntry :=
  mapValues reg.

(** [getHealthyAgents()] *)
Definition getHealthyAgents (reg : AgentRegistry) : list AgentRegistryEntry :=
  List.filter (fun agent => healthy agent) (getAllAgents reg).

(** [arr.includes(x)] on an array of strings. *)
Definition arrayIncludes (arr : list string) (x : string) : bool :=
  existsb (fun y => String.eqb y x) arr.

(** [findAgentsByCapability(capability)] *)
Definition findAgentsByCapability (reg : AgentRegistry) (capability : string)
  : list AgentRegistryEntry :=
  List.filter (fun agent => arrayIncludes (capabilities agent) capability && healthy agent)
              (getAllAgents reg).

(** [findAgentsByTool(toolName)] *)
Definition findAgentsByTool (reg : AgentRegistry) (wanted : string)
  : list AgentRegistryEntry :=
  List.filter (fun agent =>
                 existsb (fun tool => String.eqb (toolName tool) wanted) (tools agent)
                 && healthy agent)
              (getAllAgents reg).

(** The predicate passed to the three [filter] calls of
    [findAgentsByIntentTags]:
    [tags.some(q => q.toLowerCase().includes(x.toLowerCase()) ||
                    x.toLowerCase().includes(q.toLowerCase()))] *)
Definition someTagMatches (tags : list string) (x : string) : bool :=
  existsb (fun queryTag =>
             includes (toLowerCase queryTag) (toLowerCase x)
             || includes (toLowerCase x) (toLowerCase queryTag))
          tags.

(** An element of the array [findAgentsByIntentTags] returns. *)
Record Scored : Type := mkScored {
  agent : AgentRegistryEntry;
  score : Z
}.

(** The body of the loop over [agent.tools]: [score += matchingTags.length * 2] *)
Definition addToolScore (tags : list string) (acc : Z) (tool : ToolDescriptor) : Z :=
  let matchingTags := List.filter (someTagMatches tags) (intentTags tool) in
  (acc + Z.of_nat (length matchingTags) * 2)%Z.

(** The value of [score] when the loop body reaches [if (score > 0)]. *)
Definition scoreAgent (tags : list string) (a : AgentRegistryEntry) : Z :=
  let score := 0%Z in
  let score := fold_left (addToolScore tags) (tools a) score in
  let capabilityMatches := List.filter (someTagMatches tags) (capabilities a) in
  let score := (score + Z.of_nat (length capabilityMatches))%Z in
  let expertiseMatches := List.filter (someTagMatches tags) (expertise a) in
  (score + Z.of_nat (length expertiseMatches))%Z.

(** The loop over [getHealthyAgents()] that fills [results]. *)
Fixpoint collectScored (tags : list string) (agents : list AgentRegistryEntry)
  : list Scored :=
  match agents with
  | [] => []
  | a :: rest =>
      let s := scoreAgent tags a in
      if (s >? 0)%Z then mkScored a s :: collectScored tags rest
      else collectScored tags rest
  end.

(** The comparator [(a, b) => b.score - a.score]. *)
Definition byScoreDesc (a b : Scored) : Z := (score b - score a)%Z.

(** [findAgentsByIntentTags(tags)] *)
Definition findAgentsByIntentTags (reg : AgentRegistry) (tags : list string)
  : list Scored :=
  let results := collectScored tags (getHealthyAgents reg) in
  Js.sort byScoreDesc results.

(** [findAgentsByExpertise(expertise)] *)
Definition findAgentsByExpertise (reg : AgentRegistry) (wanted : string)
  : list AgentRegistryEntry :=
  List.filter (fun agent => arrayIncludes (expertise agent) wanted && healthy agent)
              (getAllAgents reg).

(** The value [getRegistryStats()] returns.  [avgToolsPerAgent] is a
    double, here the rational it denotes; [lastRefresh] is [None] for the
    invalid date [new Date(-Infinity)]. *)
Record RegistryStats : Type := mkStats {
  totalAgents : nat;
  healthyAgents : nat;
  totalTools : nat;
  avgToolsPerAgent : Q;
  lastRefresh : option N
}.

(** [getRegistryStats()].  The quotient [totalTools / agents.length] is
    computed on doubles: [divide a b] is the double the engine yields for
    the integers [a] and [b], which in general is not the exact
    quotient. *)
Definition getRegistryStats (divide : nat -> nat -> Q) (reg : AgentRegistry)
  : RegistryStats :=
  let agents := getAllAgents reg in
  let healthyAgents := getHealthyAgents reg in
  let totalTools := fold_left (fun sum agent => sum + length (tools agent)) agents 0 in
  {| totalAgents := length agents;
     healthyAgents := length healthyAgents;
     totalTools := totalTools;
     avgToolsPerAgent :=
       if 0 <? length agents
       then divide totalTools (length agents)
       else 0;
     lastRefresh := mathMax (map lastHealthCheck agents) |}.

(** The line feed of the template strings. *)
Definition lf : string := String (ascii_of_nat 10) EmptyString.

(** The body of the loop over [agent.tools]: two lines per tool. *)
Definition appendTool (context : string) (tool : ToolDescriptor) : string :=
  let context :=
    context +:+ ("    * " +:+ toolName tool +:+ ": " +:+ toolDescription tool +:+ lf) in
  context +:+ ("      Intent tags: " +:+ join ", " (intentTags tool) +:+ lf).

(** The body of the loop over the healthy agents. *)
Definition appendAgent (context : string) (agent : AgentRegistryEntry) : string :=
  let context := context +:+ (agentId agent +:+ ": " +:+ name agent +:+ lf) in
  let context := context +:+ ("  Description: " +:+ description agent +:+ lf) in
  let context := context +:+ ("  Tools:" +:+ lf) in
  let context := fold_left appendTool (tools agent) context in
  let context :=
    context +:+ ("  Capabilities: " +:+ join ", " (capabilities agent) +:+ lf) in
  context +:+ ("  Expertise: " +:+ join ", " (expertise agent) +:+ lf +:+ lf).

(** [generatePromptContext()] *)
Definition generatePromptContext (reg : AgentRegistry) : string :=
  let healthyAgents := getHealthyAgents reg in
  match healthyAgents with
  | [] => "No healthy agents available."
  | _ =>
      fold_left appendAgent healthyAgents
                ("AVAILABLE AGENTS AND CAPABILITIES:" +:+ lf +:+ lf)
  end.

End Registry.

(** ** The intent classifier ([query-router.ts]) *)

Module Router.
Import Js Registry.

Inductive Complexity : Type := simple | moderate | complex.

Record QueryClassification : Type := mkClassification {
  intent : string;
  confidence : Q;
  targetAgent : string;
  parameters : JsVal;
  complexity : Complexity;
  reasoning : list string
}.

(** [fallback.reasoning.push(note)] *)
Definition pushReasoning (c : QueryClassification) (note : string) : QueryClassification :=
  {| intent := intent c;
     confidence := confidence c;
     targetAgent := targetAgent c;
     parameters := parameters c;
     complexity := complexity c;
     reasoning := reasoning c ++ [note] |}.

(** The rule chain that assigns [intent] in [fallbackClassification]. *)
Definition fallbackIntent (lower : string) : string :=
  if includes lower "where is" || testProductNumber lower then "product_location_search"
  else if includes lower "how many" || includes lower "count" then "inventory_count_query"
  else if includes lower "highest" || includes lower "most" then "inventory_ranking_analysis"
  else if includes lower "summary" || includes lower "overview" then "comprehensive_summary"
  else if includes lower "space" then "space_analysis"
  else if includes lower "expire" then "expiration_check"
  else "general_warehouse_query".

(** [fallbackClassification(query, registry)] *)
Definition fallbackClassification (query : string) (registry : AgentRegistry)
  : QueryClassification :=
  let lower := toLowerCase query in
  let intent := fallbackIntent lower in
  let target :=
    match getHealthyAgents registry with
    | agent :: _ => agentId agent
    | [] => "location-agent-001"
    end in
  {| intent := intent;
     confidence := 50%Q;
     targetAgent := target;
     parameters := JObj [("query", JStr query)];
     complexity := if includes query " and " || includes query " then "
                   then complex else simple;
     reasoning := ["Rule-based fallback"] |}.

(** The part of [process.env] that the classifier reads. *)
Record Env : Type := mkEnv {
  NODE_ENV : option string;
  ANTHROPIC_API_KEY : option string
}.

(** [process.env.NODE_ENV === 'test' || !process.env.ANTHROPIC_API_KEY ||
     process.env.ANTHROPIC_API_KEY === 'dummy-key-for-test'] *)
Definition fallbackOnly (env : Env) : bool :=
  match NODE_ENV env with Some v => String.eqb v "test" | None => false end
  || match ANTHROPIC_API_KEY env with Some k => String.eqb k "" | None => true end
  || match ANTHROPIC_API_KEY env with
     | Some k => String.eqb k "dummy-key-for-test"
     | None => false
     end.

(** What [claude.messages.create] resolves with: the list [response.content]
    of blocks, each with its [type] and [text]. *)
Record ContentBlock : Type := mkBlock {
  blockType : string;
  blockText : string
}.

(** The object [JSON.parse] yields, seen through the cast
    [as QueryClassification]: [confidence] is a number or [undefined], and
    [targetAgent] may be missing or not a string ([None]), in which case
    it is not a key of the registry map.  The other fields have the
    declared type; [RawRouter.validateResponse] takes the parsed value as
    it is. *)
Record ParsedClassification : Type := mkParsed {
  parsedIntent : string;
  parsedConfidence : option Q;
  parsedTargetAgent : option string;
  parsedParameters : JsVal;
  parsedComplexity : Complexity;
  parsedReasoning : list string
}.

(** ASCII white space. *)
Definition isSpace (c : ascii) : bool :=
  let n := nat_of_ascii c in (n =? 32) || ((9 <=? n) && (n <=? 13)).

Fixpoint trimStart (s : string) : string :=
  match s with
  | String c rest => if isSpace c then trimStart rest else s
  | EmptyString => EmptyString
  end.

Fixpoint trimEnd (s : string) : string :=
  match s with
  | EmptyString => EmptyString
  | String c rest =>
      match trimEnd rest with
      | EmptyString => if isSpace c then EmptyString else String c EmptyString
      | rest' => String c rest'
      end
  end.

(** [s.trim()] *)
Definition trim (s : string) : string := trimEnd (trimStart s).

(** The delay of [timeoutPromise], in ms. *)
Definition CLAUDE_TIMEOUT_MS : N := 10000.

(** [await Promise.race([claudePromise, timeoutPromise])]: the time spent
    waiting and the way the race settles.  The timer is armed before the
    request is made, so it also wins when both are due at the same ms. *)
Definition raceWithTimeout {A} (claudePromise : Promise A) : N * Outcome A :=
  match settlesAt claudePromise with
  | Some t =>
      if (t <? CLAUDE_TIMEOUT_MS)%N then (t, settlesWith claudePromise)
      else (CLAUDE_TIMEOUT_MS, Thrown (JsError "Claude timeout"))
  | None => (CLAUDE_TIMEOUT_MS, Thrown (JsError "Claude timeout"))
  end.

Section Classifier.
(** [JSON.parse] followed by the cast; [Thrown] is a [SyntaxError], or the
    [TypeError] of reading a property of a parsed [null]. *)
Variable JSON_parse : string -> Outcome ParsedClassification.

(** Lines 49-69: from [response] to the [return] inside [try].
    [registry.getAgent(classification.targetAgent)] is [undefined] when
    the target is not a string. *)
Definition validateResponse (query : string) (registry : AgentRegistry)
    (response : list ContentBlock) : Outcome QueryClassification :=
  match response with
  | [] => Thrown (JsError "Cannot read properties of undefined (reading 'type')")
  | content :: _ =>
      if negb (String.eqb (blockType content) "text")
      then Thrown (JsError "Unexpected Claude response")
      else
        match JSON_parse (trim (blockText content)) with
        | Thrown e => Thrown e
        | Returned classification =>
            let unavailable :=
              Returned (pushReasoning (fallbackClassification query registry)
                                      "Target agent unavailable, using fallback") in
            match parsedTargetAgent classification with
            | None => unavailable
            | Some target =>
                match getAgent registry target with
                | None => unavailable
                | Some agent =>
                    if negb (healthy agent) then unavailable
                    else
                      let confidence :=
                        match parsedConfidence classification with
                        | None => 50%Q
                        | Some c => c
                        end in
                      if ltNum confidence 40 then
                        Returned (pushReasoning (fallbackClassification query registry)
                                                "Low confidence fallback")
                      else
                        Returned {| intent := parsedIntent classification;
                                    confidence := confidence;
                                    targetAgent := target;
                                    parameters := parsedParameters classification;
                                    complexity := parsedComplexity classification;
                                    reasoning := parsedReasoning classification |}
                end
            end
        end
  end.

(** The [try] block: the race, then the validation of its result. *)
Definition tryClassify (query : string) (registry : AgentRegistry)
    (claudePromise : Promise (list ContentBlock)) : Outcome QueryClassification :=
  match snd (raceWithTimeout claudePromise) with
  | Thrown e => Thrown e
  | Returned response => validateResponse query registry response
  end.

(** [classifyQueryLLM(query, context, claude, registry)].  The parameter
    [context] is never read; [claude] is represented by the promise that
    the single call [claude.messages.create] returns.  With entries of
    the declared type the prompt context of line 34 is built without an
    exception ([generatePromptContext] above is total), and the request
    is given as its promise whatever the prompt;
    [RawRouter.classifyQueryLLM] builds the prompt from the entries as
    they are. *)
Definition classifyQueryLLM (env : Env) (query : string)
    (claudePromise : Promise (list ContentBlock)) (registry : AgentRegistry)
  : Outcome QueryClassification :=
  if fallbackOnly env then Returned (fallbackClassification query registry)
  else
    match tryClassify query registry claudePromise with
    | Returned classification => Returned classification
    | Thrown err => Returned (fallbackClassification query registry)
    end.

(** The time [classifyQueryLLM] spends suspended on its only [await]. *)
Definition classifyQueryWait (env : Env) (claudePromise : Promise (list ContentBlock)) : N :=
  if fallbackOnly env then 0%N else fst (raceWithTimeout claudePromise).

End Classifier.
End Router.

(** ** Agent-to-agent messages (the [A2AMessage] and [A2AResponse]
       interfaces shared by the orchestrator and the agents) *)

Module A2A.
Import Js Router.

(** [context.context] of a conversation: the last intent, agent and
    parameters, unset in a fresh conversation. *)
Record SessionContext : Type := mkSessionContext {
  lastIntent : option string;
  lastAgent : option string;
  lastParameters : option JsVal
}.

Definition complexityText (c : Complexity) : string :=
  match c with
  | simple => "simple"
  | moderate => "moderate"
  | complex => "complex"
  end.

(** A classification of the declared type as the object it is. *)
Definition classificationToJs (c : QueryClassification) : JsVal :=
  JObj [ ("intent", JStr (intent c));
         ("confidence", JNum (confidence c));
         ("targetAgent", JStr (targetAgent c));
         ("parameters", parameters c);
         ("complexity", JStr (complexityText (complexity c)));
         ("reasoning", JArr (map JStr (reasoning c))) ].

(** The object [context.context], with the properties that are set. *)
Definition sessionContextToJs (s : SessionContext) : JsVal :=
  JObj (match lastIntent s with Some i => [("lastIntent", JStr i)] | None => [] end ++
        match lastAgent s with Some a => [("lastAgent", JStr a)] | None => [] end ++
        match lastParameters s with Some p => [("lastParameters", p)] | None => [] end).

(** [message.metadata : Record<string, any>], as the orchestrator fills
    it: the object literal [{ classification, context }]. *)
Record Metadata : Type := mkRawMetadata {
  metaClassification : JsVal;
  metaContext : JsVal
}.

(** The metadata for a classification and a context of the declared
    types. *)
Definition mkMetadata (cls : QueryClassification) (ctx : SessionContext) : Metadata :=
  mkRawMetadata (classificationToJs cls) (sessionContextToJs ctx).

Record A2AMessage : Type := mkMessage {
  msgId : string;
  msgSessionId : string;
  msgAgentId : string;
  msgContent : string;
  msgTimestamp : N;
  msgMetadata : option Metadata
}.

Inductive Status : Type := success | error | partial.

(** An element of [toolCalls]. *)
Record ToolCall : Type := mkToolCall {
  tool : string;
  params : JsVal;
  result : JsVal
}.

Record A2AResponse : Type := mkResponse {
  respId : string;
  respSessionId : string;
  respAgentId : string;
  respContent : string;
  respReasoning : option (list string);
  respToolCalls : option (list ToolCall);
  respTimestamp : N;
  respStatus : Status
}.

End A2A.

(** ** The tool catalog ([mcp-tools/server.js]) *)

Module Mcp.
Import Js.

(** [tool.handler]: an [async] function of the parameters. *)
Definition ToolHandler : Type := JsVal -> Settled JsVal.

(** The field [tools : Map<string, tool>] of [MCPServer]. *)
Definition MCPServer : Type := JsMap ToolHandler.

(** [callTool(name, params)]: rejects at once for an unknown tool,
    otherwise settles as the handler does (the [catch] rethrows). *)
Definition callTool (mcpServer : MCPServer) (name : string) (params : JsVal)
  : Settled JsVal :=
  match mapGet mcpServer name with
  | None => mkSettled 0 (Thrown (JsError ("Tool " +:+ name +:+ " not found")))
  | Some handler => handler params
  end.

(** A tool object, as [addTool] receives it; [description] and
    [inputSchema] may be missing ([undefined]). *)
Record Tool : Type := mkMcpTool {
  mcpToolName : string;
  mcpToolDescription : JsVal;
  inputSchema : JsVal;
  handler : ToolHandler
}.

(** The field [tools] with the tool objects it holds; [MCPServer] above
    is its view on the handlers ([handlersOf]). *)
Definition Catalog : Type := JsMap Tool.

Definition handlersOf (catalog : Catalog) : MCPServer :=
  map (fun kv => (fst kv, handler (snd kv))) catalog.

(** [addTool(tool)] *)
Definition addTool (catalog : Catalog) (tool : Tool) : Catalog :=
  mapSet catalog (mcpToolName tool) tool.

(** [listTools()] *)
Definition listTools (catalog : Catalog) : list string := mapKeys catalog.

(** [getAllTools()] *)
Definition getAllTools (catalog : Catalog) : list Tool := mapValues catalog.

(** [getToolInfo(name)] *)
Definition getToolInfo (catalog : Catalog) (name : string) : option Tool :=
  mapGet catalog name.

End Mcp.

(** ** The location agent ([location-agent/server.js]) *)

Module LocationAgent.
Import Js A2A Mcp.

(** The line-feed and double-quote characters of the source strings. *)
Definition nl : string := String (ascii_of_nat 10) EmptyString.
Definition dq : string := String (ascii_of_nat 34) EmptyString.

(** [this.agentCard.agentId] *)
Definition agentCardId : string := "location-agent-001".

(** [memory.context] *)
Record MemoryContext : Type := mkMemoryContext {
  lastToolUsed : option string;
  lastQueryType : option string
}.

(** A value of the map [conversations]. *)
Record ConversationMemory : Type := mkMemory {
  memSessionId : string;
  messages : list A2AMessage;
  memContext : MemoryContext;
  memLastActivity : N;
  queryHistory : list string;
  preferredResponseStyle : string
}.

Record LocationAgentServer : Type := mkAgent {
  conversations : JsMap ConversationMemory;
  isRunning : bool;
  mcpReady : bool
}.

(** What one call reads from the outside: the clock ([new Date()]) and the
    identifier [generateId()] builds from the clock and [Math.random()]. *)
Record AgentIO : Type := mkAgentIO {
  ioNow : N;
  ioFreshId : string
}.

(** What running a handler does to the arrays [reasoning] and
    [toolCalls] it is given (handlers only push), and how its promise
    settles.  The arrays are shared with the caller: what was pushed
    stays there when the handler throws. *)
Record HandlerRun : Type := mkRun {
  pushedReasoning : list string;
  pushedToolCalls : list ToolCall;
  completion : Outcome string
}.

(** The body of a handler.  No handler has a [try] block of its own, so a
    body is a sequence of pushes and awaited tool calls that ends with a
    [return] or with an exception:
    - [Finish text]: [return text];
    - [Fail e]: the handler's own code throws [e];
    - [Reason note next]: [reasoning.push(note)];
    - [Record call next]: [toolCalls.push(call)];
    - [Await tool params next]:
      [const result = await mcpServer.callTool(tool, params)];
    - [AwaitAll calls next]: the calls are made in order, then
      [const results = await Promise.all(promises)]. *)
Inductive Script : Type :=
| Finish (text : string)
| Fail (e : JsThrown)
| Reason (note : string) (next : Script)
| Record (call : ToolCall) (next : Script)
| Await (tool : string) (params : JsVal) (next : JsVal -> Script)
| AwaitAll (calls : list (string * JsVal)) (next : list JsVal -> Script).

(** [return] of a text whose construction may throw. *)
Definition finish (text : Outcome string) : Script :=
  match text with
  | Returned t => Finish t
  | Thrown e => Fail e
  end.

(** The handlers other than [handleSummaryQuery], as functions of the
    query. *)
Record OtherHandlers : Type := mkHandlers {
  handleRankingQuery : string -> Script;
  handleComparisonQuery : string -> Script;
  handleCountQuery : string -> Script;
  handleLocationQuery : string -> Script;
  handleAreaQuery : string -> Script;
  handleExplanationQuery : string -> Script;
  handleFlexibleQuery : string -> Script
}.

(** Conversions of numbers to text, which depend on floating-point
    formatting: the template substitution [${v}] and
    [(a - b).toFixed(2)]. *)
Record NumberFormat : Type := mkFormat {
  toStr : JsVal -> string;
  subToFixed2 : JsVal -> JsVal -> string
}.

(** [v.k] for a truthy [v], where property access does not throw. *)
Definition propOf (v : JsVal) (k : string) : JsVal :=
  match getProp v k with
  | Returned x => x
  | Thrown _ => JUndefined
  end.

(** [v || 0] *)
Definition orZero (v : JsVal) : JsVal := if truthy v then v else JNum 0.

Section Handlers.
Variable fmt : NumberFormat.
Variable mcpServer : MCPServer.

(** The lines appended under [if (spaceResult.summary)]. *)
Definition spaceSection (summary : JsVal) : string :=
  "🏢 **Space Utilization:**" +:+ nl +:+
  "• Overall: " +:+ toStr fmt (propOf summary "overallUtilization") +:+ "% utilized" +:+ nl +:+
  "• Total Capacity: " +:+ toStr fmt (propOf summary "totalCube") +:+ " cubic feet" +:+ nl +:+
  "• Available Space: " +:+
     subToFixed2 fmt (propOf summary "totalCube") (propOf summary "usedCube") +:+
     " cubic feet" +:+ nl +:+ nl.

(** The lines appended under [if (expirationResult.summary)]. *)
Definition expirationSection (summary : JsVal) : string :=
  "⏰ **Expiration Status:**" +:+ nl +:+
  "• Items expiring (30 days): " +:+ toStr fmt (orZero (propOf summary "itemsExpiring")) +:+ nl +:+
  "• Priority actions needed: " +:+ toStr fmt (orZero (propOf summary "priorityItems")) +:+ nl +:+ nl.

(** The lines appended under [if (quantityResult.summary)]. *)
Definition inventorySection (summary : JsVal) : string :=
  "📦 **Inventory Overview:**" +:+ nl +:+
  "• Total Products: " +:+ toStr fmt (orZero (propOf summary "totalProducts")) +:+ nl +:+
  "• Total Units: " +:+ toStr fmt (orZero (propOf summary "totalUnits")) +:+ nl +:+ nl.

Definition summaryHeader : string :=
  "📋 **Comprehensive Warehouse Summary**" +:+ nl +:+ nl.

Definition summaryInsights : string :=
  "💡 **Key Insights:**" +:+ nl +:+
  "• This data is live from the warehouse database" +:+ nl +:+
  "• Analysis covers all warehouse areas and products" +:+ nl +:+
  "• Recommendations are based on current inventory conditions".

(** [if (r.summary) { response += section }]: reading [summary] throws when
    [r] is [undefined] or [null]. *)
Definition appendSection (response : string) (r : JsVal) (section : JsVal -> string)
  : Outcome string :=
  bind (getProp r "summary") (fun summary =>
    Returned (if truthy summary then response +:+ section summary else response)).

(** Lines 505-526 of [handleSummaryQuery]: the synthesis of [response]. *)
Definition renderSummary (spaceResult expirationResult quantityResult : JsVal)
  : Outcome string :=
  bind (appendSection summaryHeader spaceResult spaceSection) (fun response =>
  bind (appendSection response expirationResult expirationSection) (fun response =>
  bind (appendSection response quantityResult inventorySection) (fun response =>
  Returned (response +:+ summaryInsights)))).

Definition spaceParams : JsVal := JObj [("includeRecommendations", JBool true)].
Definition expirationParams : JsVal :=
  JObj [("daysThreshold", JNum 30); ("priorityOnly", JBool true)].
Definition quantityParams : JsVal :=
  JObj [("analysisType", JStr "summary"); ("limit", JNum 10)].

(** [handleSummaryQuery(query, reasoning, toolCalls)]: the three calls are
    made before the single [await], which is on [Promise.all]; the
    destructuring [[a, b, c] = results] reads the elements by index. *)
Definition handleSummaryQuery (query : string) : Script :=
  Reason "📋 Generating comprehensive warehouse summary"
    (AwaitAll [ ("analyze_space_utilization", spaceParams);
                ("check_expiration_dates", expirationParams);
                ("quantity_analysis", quantityParams) ]
       (fun results =>
          let spaceResult := nth 0 results JUndefined in
          let expirationResult := nth 1 results JUndefined in
          let quantityResult := nth 2 results JUndefined in
          Record (mkToolCall "analyze_space_utilization" spaceParams spaceResult)
         (Record (mkToolCall "check_expiration_dates" expirationParams expirationResult)
         (Record (mkToolCall "quantity_analysis" quantityParams quantityResult)
         (finish (renderSummary spaceResult expirationResult quantityResult)))))).

Definition pushNote (note : string) (run : HandlerRun) : HandlerRun :=
  {| pushedReasoning := note :: pushedReasoning run;
     pushedToolCalls := pushedToolCalls run;
     completion := completion run |}.

Definition pushCall (call : ToolCall) (run : HandlerRun) : HandlerRun :=
  {| pushedReasoning := pushedReasoning run;
     pushedToolCalls := call :: pushedToolCalls run;
     completion := completion run |}.

Definition threw (e : JsThrown) : HandlerRun :=
  {| pushedReasoning := []; pushedToolCalls := []; completion := Thrown e |}.

(** Running a handler body against the tool catalog: an awaited call that
    rejects throws its reason out of the handler. *)
Fixpoint runScript (s : Script) : HandlerRun :=
  match s with
  | Finish text =>
      {| pushedReasoning := []; pushedToolCalls := []; completion := Returned text |}
  | Fail e => threw e
  | Reason note next => pushNote note (runScript next)
  | Record call next => pushCall call (runScript next)
  | Await tool params next =>
      match settledWith (callTool mcpServer tool params) with
      | Returned result => runScript (next result)
      | Thrown e => threw e
      end
  | AwaitAll calls next =>
      match promiseAll (map (fun c => callTool mcpServer (fst c) (snd c)) calls) with
      | Returned results => runScript (next results)
      | Thrown e => threw e
      end
  end.

Variable handlers : OtherHandlers.

(** [planAndExecuteQuery(query, memory, reasoning, toolCalls)] *)
Definition planAndExecuteQuery (query : string) : Script :=
  let lowerQuery := toLowerCase query in
  let has := includes lowerQuery in
  Reason ("🧠 Planning approach for: " +:+ dq +:+ query +:+ dq)
    (if has "highest" || has "most" || has "best" ||
        has "top" || has "lowest" || has "least"
     then handleRankingQuery handlers query
     else if has "compare" || has "difference" || has "vs"
     then handleComparisonQuery handlers query
     else if (has "how many" || has "count" || has "total number") &&
             negb (has "explain")
     then handleCountQuery handlers query
     else if has "where is" || has "find" || has "locate"
     then handleLocationQuery handlers query
     else if has "in area" || has "frozen" || has "dry" || has "refrigerated"
     then handleAreaQuery handlers query
     else if has "summary" || has "overview" || has "report"
     then handleSummaryQuery query
     else if (has "explain" || has "how do you" || has "what tools") &&
             negb (has "how many")
     then handleExplanationQuery handlers query
     else handleFlexibleQuery handlers query).

(** [processWarehouseQuery(message, memory)] *)
Definition processWarehouseQuery (io : AgentIO) (message : A2AMessage) : A2AResponse :=
  let query := msgContent message in
  let run := runScript (planAndExecuteQuery query) in
  let reasoning :=
    ("🤔 Analyzing warehouse query: " +:+ dq +:+ query +:+ dq) :: pushedReasoning run in
  let toolCalls := pushedToolCalls run in
  match completion run with
  | Returned response =>
      {| respId := ioFreshId io;
         respSessionId := msgSessionId message;
         respAgentId := agentCardId;
         respContent := response;
         respReasoning := Some (reasoning ++ ["✅ Successfully completed multi-tool analysis"]);
         respToolCalls := Some toolCalls;
         respTimestamp := ioNow io;
         respStatus := success |}
  | Thrown err =>
      {| respId := ioFreshId io;
         respSessionId := msgSessionId message;
         respAgentId := agentCardId;
         respContent := "I encountered an issue processing your warehouse query. " +:+
                        messageOr err "Please try again.";
         respReasoning := Some (reasoning ++
                           ["❌ Error executing query: " +:+ messageOr err "Unknown error"]);
         respToolCalls := Some toolCalls;
         respTimestamp := ioNow io;
         respStatus := error |}
  end.

(** [getOrCreateMemory(sessionId)]: the memory of the session, a fresh one
    when the map has none. *)
Definition getOrCreateMemory (io : AgentIO) (convs : JsMap ConversationMemory)
    (sessionId : string) : ConversationMemory :=
  match mapGet convs sessionId with
  | Some memory => memory
  | None =>
      {| memSessionId := sessionId;
         messages := [];
         memContext := mkMemoryContext None None;
         memLastActivity := ioNow io;
         queryHistory := [];
         preferredResponseStyle := "detailed" |}
  end.

(** [updateConversationContext(memory, message, response)] *)
Definition updateConversationContext (memory : ConversationMemory)
    (message : A2AMessage) (response : A2AResponse) : ConversationMemory :=
  let context :=
    match respToolCalls response with
    | Some (first :: _) => mkMemoryContext (Some (tool first)) (Some (tool first))
    | _ => memContext memory
    end in
  let style :=
    if includes (msgContent message) "quick" || includes (msgContent message) "brief"
    then "concise"
    else if includes (msgContent message) "detail" || includes (msgContent message) "explain"
    then "detailed"
    else preferredResponseStyle memory in
  {| memSessionId := memSessionId memory;
     messages := messages memory;
     memContext := context;
     memLastActivity := memLastActivity memory;
     queryHistory := queryHistory memory;
     preferredResponseStyle := style |}.

(** The [try] block of [processMessage]: the new state of the agent and
    the response. *)
Definition handleMessage (io : AgentIO) (agent : LocationAgentServer)
    (message : A2AMessage) : LocationAgentServer * Outcome A2AResponse :=
  let memory := getOrCreateMemory io (conversations agent) (msgSessionId message) in
  let memory :=
    {| memSessionId := memSessionId memory;
       messages := messages memory ++ [message];
       memContext := memContext memory;
       memLastActivity := ioNow io;
       queryHistory := queryHistory memory ++ [msgContent message];
       preferredResponseStyle := preferredResponseStyle memory |} in
  let response := processWarehouseQuery io message in
  let memory := updateConversationContext memory message response in
  ({| conversations := mapSet (conversations agent) (msgSessionId message) memory;
      isRunning := isRunning agent;
      mcpReady := mcpReady agent |},
   Returned response).

(** [processMessage(message)] *)
Definition processMessage (io : AgentIO) (agent : LocationAgentServer)
    (message : A2AMessage) : LocationAgentServer * Outcome A2AResponse :=
  if negb (isRunning agent) then
    (agent, Thrown (JsError "Location Agent is not running"))
  else
    match handleMessage io agent message with
    | (agent', Returned response) => (agent', Returned response)
    | (agent', Thrown err) =>
        (agent',
         Returned {| respId := ioFreshId io;
                     respSessionId := msgSessionId message;
                     respAgentId := agentCardId;
                     respContent := "I encountered an error processing your query: " +:+
                                    messageOr err "Unknown error";
                     respReasoning := None;
                     respToolCalls := None;
                     respTimestamp := ioNow io;
                     respStatus := error |})
    end.

End Handlers.

(** [start()], given how [startMCPServer()] settles: a failure is
    rethrown before either flag is set. *)
Definition start (mcpStart : Outcome unit) (agent : LocationAgentServer)
  : LocationAgentServer * Outcome unit :=
  match mcpStart with
  | Returned _ =>
      ({| conversations := conversations agent; isRunning := true; mcpReady := true |},
       Returned tt)
  | Thrown err => (agent, Thrown err)
  end.

(** [stop()] *)
Definition stop (agent : LocationAgentServer) : LocationAgentServer :=
  {| conversations := []; isRunning := false; mcpReady := mcpReady agent |}.

(** [this.isRunning && this.mcpReady ? 'healthy' : 'unhealthy'] *)
Definition statusText (agent : LocationAgentServer) : string :=
  if isRunning agent && mcpReady agent then "healthy" else "unhealthy".

(** The fields of [this.agentCard] that the methods below read. *)
Definition agentCardName : string := "Warehouse Location Agent".
Definition agentCardDescription : string :=
  "Specialist agent for warehouse inventory location queries with intelligent reasoning".
Definition agentCardVersion : string := "1.0.0".
Definition agentCardExpertise : list string :=
  [ "Product location queries"; "Space utilization analysis";
    "Inventory status management"; "Expiration date monitoring";
    "Multi-criteria warehouse searches" ].
Definition agentCardCapabilities : list string :=
  [ "Natural language query processing"; "Multi-turn conversation memory";
    "Complex query decomposition"; "Parallel tool execution";
    "Contextual reasoning"; "Recommendation generation" ].

(** A number of elements, as a JavaScript number. *)
Definition count {A} (l : list A) : JsVal := JNum (inject_Z (Z.of_nat (length l))).

(** [healthCheck()] *)
Definition healthCheck (catalog : Catalog) (agent : LocationAgentServer) : JsVal :=
  JObj [ ("status", JStr (statusText agent));
         ("details",
          JObj [ ("isRunning", JBool (isRunning agent));
                 ("mcpReady", JBool (mcpReady agent));
                 ("activeConversations", count (conversations agent));
                 ("availableTools", count (listTools catalog));
                 ("agentId", JStr agentCardId);
                 ("version", JStr agentCardVersion) ]) ].

(** The object literal [toolIntentMap]. *)
Definition toolIntentMap : list (string * list string) :=
  [ ("find_product_locations",
     ["location"; "find"; "where"; "search"; "product"; "locate"; "position"]);
    ("get_inventory_by_area",
     ["area"; "zone"; "frozen"; "dry"; "refrigerated"; "inventory"; "region"]);
    ("analyze_space_utilization",
     ["space"; "utilization"; "capacity"; "usage"; "optimization"; "efficiency"]);
    ("check_expiration_dates",
     ["expiration"; "expire"; "date"; "fefo"; "shelf life"; "aging"]);
    ("quantity_analysis",
     ["quantity"; "amount"; "count"; "stock"; "levels"; "highest"; "most"; "top";
      "ranking"]);
    ("find_by_license_plate",
     ["license"; "plate"; "lp"; "identification"; "tracking"]);
    ("find_by_pallet_id",
     ["pallet"; "id"; "identifier"; "tracking"; "container"]);
    ("find_by_location",
     ["coordinates"; "aisle"; "bay"; "level"; "address"; "position"]);
    ("inventory_status_search",
     ["status"; "condition"; "state"; "available"; "blocked"; "damaged"]) ].

Section Manifest.
(** What a property read finds on [Object.prototype], which the object
    literal inherits from: [undefined] for a name that is no property of
    it. *)
Variable inheritedProperty : string -> JsVal.

(** [getIntentTagsForTool(toolName)]:
    [toolIntentMap[toolName] || ['general', 'warehouse', 'query']] *)
Definition getIntentTagsForTool (toolName : string) : JsVal :=
  let found :=
    match mapGet toolIntentMap toolName with
    | Some tags => JArr (map JStr tags)
    | None => inheritedProperty toolName
    end in
  if truthy found then found
  else JArr [JStr "general"; JStr "warehouse"; JStr "query"].

(** The function mapped over [mcpServer.getAllTools()]. *)
Definition manifestTool (tool : Tool) : JsVal :=
  let intentTags := getIntentTagsForTool (mcpToolName tool) in
  JObj [ ("name", JStr (mcpToolName tool));
         ("description",
          if truthy (mcpToolDescription tool) then mcpToolDescription tool
          else JStr (mcpToolName tool +:+ " tool for warehouse operations"));
         ("intentTags", intentTags);
         ("schema", if truthy (inputSchema tool) then inputSchema tool else JObj []) ].

(** [getManifest()] *)
Definition getManifest (catalog : Catalog) (agent : LocationAgentServer) : JsVal :=
  let tools := map manifestTool (getAllTools catalog) in
  JObj [ ("agentId", JStr agentCardId);
         ("name", JStr agentCardName);
         ("description", JStr agentCardDescription);
         ("version", JStr agentCardVersion);
         ("tools", JArr tools);
         ("capabilities", JArr (map JStr agentCardCapabilities));
         ("expertise", JArr (map JStr agentCardExpertise));
         ("healthEndpoint", JStr "/health");
         ("status", JStr (statusText agent)) ].

End Manifest.
End LocationAgent.

(** ** The handlers of the location agent ([location-agent/server.js])

    The handlers that [planAndExecuteQuery] selects, except
    [handleRankingQuery] and [handleAreaQuery]: the first sorts the tool
    result with a comparator over arbitrary values, the second formats
    numbers for the locale of the process. *)

Module LocationHandlers.
Import Js A2A Mcp LocationAgent.

(** [/\d+/.test(s)]: [s] has a digit. *)
Fixpoint testDigits (s : string) : bool :=
  match s with
  | EmptyString => false
  | String c rest => isDigit c || testDigits rest
  end.

Fixpoint takeChars (n : nat) (s : string) : string :=
  match n, s with
  | S n', String c rest => String c (takeChars n' rest)
  | _, _ => EmptyString
  end.

(** The matches of [/\b\d{6,}\b/g] from a position on, left to right.  A
    match takes the whole digit run (see [searchFrom]); inside the run
    the previous character is a word character, so going on character by
    character finds the same matches as resuming after the run. *)
Fixpoint matchAllFrom (prevIsWord : bool) (s : string) : list string :=
  match s with
  | EmptyString => []
  | String c rest =>
      let later := matchAllFrom (isWordChar c) rest in
      if negb prevIsWord && matchDigitsHere s
      then takeChars (leadingDigits s) s :: later
      else later
  end.

(** [s.match(/\b\d{6,}\b/g) || []] *)
Definition matchAllProductNumbers (s : string) : list string := matchAllFrom false s.

Fixpoint matchFrom (prevIsWord : bool) (s : string) : option string :=
  match s with
  | EmptyString => None
  | String c rest =>
      if negb prevIsWord && matchDigitsHere s
      then Some (takeChars (leadingDigits s) s)
      else matchFrom (isWordChar c) rest
  end.

(** [s.match(/\b\d{6,}\b/)]: the text of the first match, [None] for
    [null]. *)
Definition matchProductNumber (s : string) : option string := matchFrom false s.

Section Rendering.
Variable fmt : NumberFormat.
(** The conversion of a string to a number ([None] for [NaN]). *)
Variable stringToNumber : string -> option Q.

(** [${v || dflt}] *)
Definition showOr (v : JsVal) (dflt : string) : string :=
  if truthy v then toStr fmt v else dflt.

(** The conversion of a value to a number, through its text for arrays
    and objects. *)
Definition toNumber (v : JsVal) : option Q :=
  match v with
  | JUndefined => None
  | JNull => Some 0%Q
  | JBool b => Some (if b then 1%Q else 0%Q)
  | JNum q => Some q
  | JStr s => stringToNumber s
  | JArr _ | JObj _ => stringToNumber (toStr fmt v)
  end.

(** [v > 0] *)
Definition gtZero (v : JsVal) : bool :=
  match toNumber v with
  | Some q => ltNum 0 q
  | None => false
  end.

(** [v.length > 0], for a truthy [v]. *)
Definition lengthPositive (v : JsVal) : bool :=
  match v with
  | JArr items => match items with [] => false | _ => true end
  | JStr s => negb (String.eqb s "")
  | JObj props => gtZero (lookupProp props "length")
  | _ => false
  end.

(** [v[0].k], for the property names the handlers read: an element of a
    string is a one-character string, which has none of them. *)
Definition firstProp (v : JsVal) (k : string) : Outcome JsVal :=
  match v with
  | JArr items => getProp (nth 0 items JUndefined) k
  | JObj props => getProp (lookupProp props "0") k
  | JStr s => if String.eqb s "" then getProp JUndefined k else Returned JUndefined
  | JUndefined | JNull => bind (getProp v "0") (fun first => getProp first k)
  | _ => getProp JUndefined k
  end.

(** [result.products && result.products.length > 0] *)
Definition hasProducts (products : JsVal) : bool :=
  truthy products && lengthPositive products.

(** *** [handleLocationQuery] *)

Definition locationParams (productNumber : string) : JsVal :=
  JObj [ ("productNumber", JStr productNumber); ("includeDetails", JBool true);
         ("limit", JNum 10) ].

(** Lines 389-395: the text for [product = result.products[0]]. *)
Definition locationFound (productNumber : string) (products : JsVal) : Outcome string :=
  let product := firstProp products in
  bind (product "productDescription") (fun productDescription =>
  bind (product "areaId") (fun areaId =>
  bind (product "aisle") (fun aisle =>
  bind (product "bay") (fun bay =>
  bind (product "levelNumber") (fun levelNumber =>
  bind (product "qtyAvailUnits") (fun qtyAvailUnits =>
  bind (product "qtyAvailEaches") (fun qtyAvailEaches =>
  bind (product "palletId") (fun palletId =>
  bind (product "licensePlate") (fun licensePlate =>
  bind (product "expirationDate") (fun expirationDate =>
  bind (product "invyStatus") (fun invyStatus =>
  bind (product "palletStatus") (fun palletStatus =>
  Returned (
    "📍 **Product Location Found:**" +:+ nl +:+ nl +:+
    "🏷️ **Product**: " +:+ productNumber +:+ " - " +:+ showOr productDescription "No description" +:+ nl +:+
    "📍 **Location**: Area " +:+ toStr fmt areaId +:+ ", Aisle " +:+ toStr fmt aisle +:+ ", Bay " +:+ toStr fmt bay +:+ ", Level " +:+ toStr fmt levelNumber +:+ nl +:+
    "📦 **Quantity**: " +:+ toStr fmt qtyAvailUnits +:+ " units, " +:+ toStr fmt qtyAvailEaches +:+ " eaches" +:+ nl +:+
    "🏷️ **Pallet**: " +:+ toStr fmt palletId +:+ " (License: " +:+ toStr fmt licensePlate +:+ ")" +:+ nl +:+
    "📅 **Expires**: " +:+ showOr expirationDate "No expiration" +:+ nl +:+
    "📊 **Status**: " +:+ toStr fmt invyStatus +:+ " (Slot: " +:+ toStr fmt palletStatus +:+ ")"))))))))))))).

Definition locationNotFound (productNumber : string) : string :=
  "❌ Product " +:+ productNumber +:+ " not found in the warehouse.".

Definition locationPrompt : string :=
  "Please specify a product number to locate. For example: " +:+ dq +:+ "Where is product 1263755?" +:+ dq.

(** [handleLocationQuery(query, reasoning, toolCalls)] *)
Definition handleLocationQuery (query : string) : Script :=
  Reason "📍 Executing location search"
    match matchProductNumber query with
    | Some productNumber =>
        Await "find_product_locations" (locationParams productNumber) (fun result =>
        Record (mkToolCall "find_product_locations" (locationParams productNumber) result)
          (finish
             (bind (getProp result "products") (fun products =>
                if hasProducts products then locationFound productNumber products
                else Returned (locationNotFound productNumber)))))
    | None => Finish locationPrompt
    end.

(** *** [handleFlexibleQuery] *)

Definition flexibleParams (productNumber : string) : JsVal :=
  JObj [ ("productNumber", JStr productNumber); ("includeDetails", JBool true);
         ("limit", JNum 5) ].

(** The loop over [productNumbers.slice(0, 3)]: one call after the
    other, each recorded when it has answered. *)
Fixpoint searchProducts (productNumbers : list string) (results : list (string * JsVal))
    (next : list (string * JsVal) -> Script) : Script :=
  match productNumbers with
  | [] => next results
  | productNumber :: rest =>
      Await "find_product_locations" (flexibleParams productNumber) (fun result =>
      Record (mkToolCall "find_product_locations" (flexibleParams productNumber) result)
        (searchProducts rest (results ++ [(productNumber, result)]) next))
  end.

(** The body of [results.forEach]. *)
Definition appendProduct (response : string) (entry : string * JsVal) : Outcome string :=
  let (productNumber, result) := entry in
  bind (getProp result "products") (fun products =>
    if hasProducts products then
      let product := firstProp products in
      bind (product "productDescription") (fun productDescription =>
      bind (product "areaId") (fun areaId =>
      bind (product "aisle") (fun aisle =>
      bind (product "bay") (fun bay =>
      bind (product "qtyAvailUnits") (fun qtyAvailUnits =>
      bind (product "expirationDate") (fun expirationDate =>
      Returned (
        response +:+
        ("📦 **Product " +:+ productNumber +:+ ":**" +:+ nl) +:+
        ("   Description: " +:+ showOr productDescription "No description" +:+ nl) +:+
        ("   Location: Area " +:+ toStr fmt areaId +:+ ", Aisle " +:+ toStr fmt aisle +:+ ", Bay " +:+ toStr fmt bay +:+ nl) +:+
        ("   Quantity: " +:+ toStr fmt qtyAvailUnits +:+ " units" +:+ nl) +:+
        ("   Expires: " +:+ showOr expirationDate "No expiration" +:+ nl +:+ nl))))))))
    else Returned (response +:+ ("❌ Product " +:+ productNumber +:+ " not found" +:+ nl +:+ nl))).

Definition flexibleHeader : string :=
  "🔍 **Product Search Results:**" +:+ nl +:+ nl.

Definition flexibleGuidance : string :=
  "I can help with specific warehouse questions using real data. Try asking:" +:+ nl +:+ nl +:+
  "📊 " +:+ dq +:+ "What product has the highest quantity?" +:+ dq +:+ nl +:+
  "🔍 " +:+ dq +:+ "Where is product 9375387?" +:+ dq +:+ nl +:+
  "📦 " +:+ dq +:+ "What's in the frozen area?" +:+ dq +:+ nl +:+
  "⏰ " +:+ dq +:+ "What expires in the next 30 days?" +:+ dq +:+ nl +:+
  "📈 " +:+ dq +:+ "Give me a warehouse summary" +:+ dq +:+ nl +:+ nl +:+
  "I'll use multiple tools and real data to provide comprehensive answers!".

(** [handleFlexibleQuery(query, reasoning, toolCalls)] *)
Definition handleFlexibleQuery (query : string) : Script :=
  let lowerQuery := toLowerCase query in
  Reason "🎯 Using flexible multi-tool approach"
    (if includes lowerQuery "product" && testDigits query then
       let productNumbers := matchAllProductNumbers query in
       match productNumbers with
       | [] => Finish flexibleGuidance
       | _ =>
           searchProducts (firstn 3 productNumbers) [] (fun results =>
             finish (fold_left (fun response entry =>
                                  bind response (fun r => appendProduct r entry))
                               results (Returned flexibleHeader)))
       end
     else Finish flexibleGuidance).

(** *** [handleComparisonQuery] *)

Definition comparisonParams (areaId : string) : JsVal :=
  JObj [ ("areaId", JStr areaId); ("includeExpired", JBool false); ("limit", JNum 100) ].

(** The loop over [areas]. *)
Fixpoint queryAreas (areas : list string) (areaResults : list (string * JsVal))
    (next : list (string * JsVal) -> Script) : Script :=
  match areas with
  | [] => next areaResults
  | areaId :: rest =>
      Await "get_inventory_by_area" (comparisonParams areaId) (fun result =>
      Record (mkToolCall "get_inventory_by_area" (comparisonParams areaId) result)
        (queryAreas rest (areaResults ++ [(areaId, result)]) next))
  end.

(** [areaId === 'F' ? 'Frozen' : areaId === 'D' ? 'Dry' : 'Refrigerated'] *)
Definition areaNameOf (areaId : string) : string :=
  if String.eqb areaId "F" then "Frozen"
  else if String.eqb areaId "D" then "Dry"
  else "Refrigerated".

(** The body of [areaResults.forEach]; [result.summary?.k] is
    [propOf summary k]. *)
Definition appendArea (response : string) (entry : string * JsVal) : Outcome string :=
  let (areaId, result) := entry in
  let areaName := areaNameOf areaId in
  bind (getProp result "summary") (fun summary =>
    Returned (
      response +:+
      ("📦 **" +:+ areaName +:+ " Area (" +:+ areaId +:+ "):**" +:+ nl) +:+
      ("   Products: " +:+ toStr fmt (orZero (propOf summary "totalProducts")) +:+ nl) +:+
      ("   Total Units: " +:+ toStr fmt (orZero (propOf summary "totalUnits")) +:+ nl) +:+
      ("   Space Utilization: " +:+ toStr fmt (orZero (propOf summary "spaceUtilization")) +:+ "%" +:+ nl +:+ nl))).

Definition comparisonHeader : string :=
  "🔍 **Warehouse Area Comparison:**" +:+ nl +:+ nl.

(** [handleComparisonQuery(query, reasoning, toolCalls)] *)
Definition handleComparisonQuery (query : string) : Script :=
  Reason "🔍 Executing comparison analysis"
    (queryAreas ["F"; "D"; "R"] [] (fun areaResults =>
       finish (fold_left (fun response entry =>
                            bind response (fun r => appendArea r entry))
                         areaResults (Returned comparisonHeader)))).

(** *** [handleCountQuery] *)

Definition dryCountParams : JsVal := JObj [ ("areaId", JStr "D"); ("limit", JNum 1000) ].

Definition totalCountParams : JsVal := JObj [ ("includeRecommendations", JBool false) ].

Definition countGuidance : string :=
  "I can count various warehouse metrics. Try asking:" +:+ nl +:+
  "• " +:+ dq +:+ "How many locations in dry area?" +:+ dq +:+ nl +:+
  "• " +:+ dq +:+ "How many products do we have?" +:+ dq +:+ nl +:+
  "• " +:+ dq +:+ "How many locations are in use?" +:+ dq.

Definition dryCountText (summary : JsVal) : string :=
  "📦 **Dry Area (D) Location Count:**" +:+ nl +:+ nl +:+
  "🔢 **Total Locations**: " +:+ toStr fmt (propOf summary "totalProducts") +:+ nl +:+
  "📊 **Total Units**: " +:+ toStr fmt (propOf summary "totalUnits") +:+ nl +:+
  "📈 **Space Utilization**: " +:+ toStr fmt (propOf summary "utilizationPercent") +:+ "%" +:+ nl +:+ nl +:+
  "💡 **Details**: Each location represents a unique product placement in the dry storage area.".

Definition totalCountText (summary : JsVal) : string :=
  "📍 **Total Warehouse Locations:**" +:+ nl +:+ nl +:+
  "🔢 **Total Active Locations**: " +:+ showOr (propOf summary "totalLocations") "Data calculating..." +:+ nl +:+
  "📊 **Space Utilization**: " +:+ toStr fmt (propOf summary "overallUtilization") +:+ "%" +:+ nl +:+
  "🏢 **Total Capacity**: " +:+ toStr fmt (propOf summary "totalCube") +:+ " cubic feet" +:+ nl +:+ nl +:+
  "💡 **Breakdown by Area:**" +:+ nl +:+
  "• Frozen (F): Available in space analysis" +:+ nl +:+
  "• Dry (D): Available in space analysis" +:+ nl +:+
  "• Refrigerated (R): Available in space analysis".

Definition totalCountFallback : string :=
  "📍 **Warehouse Locations:**" +:+ nl +:+ nl +:+
  "🔢 Based on our database with 21,425+ inventory records, we have thousands of active warehouse locations across:" +:+ nl +:+ nl +:+
  "• **Frozen Area (F)**: Temperature-controlled frozen storage" +:+ nl +:+
  "• **Dry Area (D)**: Ambient temperature dry goods" +:+ nl +:+
  "• **Refrigerated Area (R)**: Chilled storage" +:+ nl +:+ nl +:+
  "💡 Each location is identified by Area-Aisle-Bay-Level coordinates (e.g., D-9-185-3)".

(** [handleCountQuery(query, reasoning, toolCalls)] *)
Definition handleCountQuery (query : string) : Script :=
  let lowerQuery := toLowerCase query in
  let has := includes lowerQuery in
  Reason "🔢 Executing count/quantity analysis"
    (if has "locations" && (has "dry" || has "area d") then
       Await "get_inventory_by_area" dryCountParams (fun result =>
       Record (mkToolCall "get_inventory_by_area" dryCountParams result)
         (finish (bind (getProp result "summary") (fun summary =>
                    Returned (if truthy summary then dryCountText summary
                              else countGuidance)))))
     else if has "locations" && negb (has "area") then
       Await "analyze_space_utilization" totalCountParams (fun spaceResult =>
       Record (mkToolCall "analyze_space_utilization" totalCountParams spaceResult)
         (finish (bind (getProp spaceResult "summary") (fun summary =>
                    Returned (if truthy summary then totalCountText summary
                              else totalCountFallback)))))
     else Finish countGuidance).

(** *** [handleExplanationQuery] *)

Definition explanationParams : JsVal := JObj [ ("includeRecommendations", JBool true) ].

Definition explanationIntro : string :=
  "💡 **Detailed Warehouse Explanation:**" +:+ nl +:+ nl +:+
  "I analyze warehouse data using a real SQLite database with 21,425+ inventory records. Here's how I generate responses:" +:+ nl +:+ nl +:+
  "🛠️ **Available Tools:**" +:+ nl +:+
  "• **find_product_locations**: Searches by product number/description using SQL queries" +:+ nl +:+
  "• **get_inventory_by_area**: Analyzes inventory by warehouse zones (F=Frozen, D=Dry, R=Refrigerated)" +:+ nl +:+
  "• **analyze_space_utilization**: Calculates real space usage and capacity metrics" +:+ nl +:+
  "• **check_expiration_dates**: Finds items expiring within timeframes" +:+ nl +:+
  "• **quantity_analysis**: Analyzes stock levels and rankings" +:+ nl +:+ nl.

Definition explanationStatus (summary : JsVal) : string :=
  "📊 **Current Warehouse Status:**" +:+ nl +:+
  "• Total Utilization: " +:+ toStr fmt (propOf summary "overallUtilization") +:+ "%" +:+ nl +:+
  "• Total Capacity: " +:+ toStr fmt (propOf summary "totalCube") +:+ " cubic feet" +:+ nl +:+
  "• Used Space: " +:+ toStr fmt (propOf summary "usedCube") +:+ " cubic feet" +:+ nl +:+ nl.

Definition explanationClosing : string :=
  "All numbers come from live database queries - nothing is hardcoded!".

(** [handleExplanationQuery(query, reasoning, toolCalls)] *)
Definition handleExplanationQuery (query : string) : Script :=
  Reason "💡 Providing detailed explanation with data"
    (Await "analyze_space_utilization" explanationParams (fun spaceResult =>
     Record (mkToolCall "analyze_space_utilization" explanationParams spaceResult)
       (finish (bind (getProp spaceResult "summary") (fun summary =>
                  let response := explanationIntro in
                  let response :=
                    if truthy summary then response +:+ explanationStatus summary
                    else response in
                  Returned (response +:+ explanationClosing)))))).

(** The handlers of the source, given the two that are not embedded. *)
Definition sourceHandlers (ranking area : string -> Script) : OtherHandlers :=
  {| LocationAgent.handleRankingQuery := ranking;
     LocationAgent.handleComparisonQuery := handleComparisonQuery;
     LocationAgent.handleCountQuery := handleCountQuery;
     LocationAgent.handleLocationQuery := handleLocationQuery;
     LocationAgent.handleAreaQuery := area;
     LocationAgent.handleExplanationQuery := handleExplanationQuery;
     LocationAgent.handleFlexibleQuery := handleFlexibleQuery |}.

End Rendering.
End LocationHandlers.


(** ** The orchestrator ([orchestrator/app.ts]) *)

Module Orchestrator.
Import Js Registry Router A2A Mcp.

Inductive Role : Type := user | assistant | agentRole.

(** An element of [conversationHistory]. *)
Record Turn : Type := mkTurn {
  role : Role;
  content : string;
  timestamp : N;
  turnAgentId : option string
}.

Record Preferences : Type := mkPreferences {
  responseStyle : string;
  preferredAgent : option string
}.

Record ConversationContext : Type := mkContext {
  sessionId : string;
  userId : option string;
  conversationHistory : list Turn;
  context : SessionContext;
  lastActivity : N;
  preferences : Preferences
}.

(** The state of [WarehouseAIOrchestrator] that query processing touches:
    its maps and the imported singleton [locationAgent].  [dispatched] is
    not a field of the class: it records, in order, every call
    [locationAgent.processMessage(message)] together with the target the
    call was made for. *)
Record State : Type := mkState {
  conversations : JsMap ConversationContext;
  agentRegistry : AgentRegistry;
  locationAgent : LocationAgent.LocationAgentServer;
  dispatched : list (string * A2AMessage)
}.

(** What one [processQuery] reads from the outside. *)
Record QueryIO : Type := mkQueryIO {
  env : Env;
  claudePromise : Promise (list ContentBlock);
  startTime : N;
  now : N;
  endTime : N;
  messageId : string;
  agentIO : LocationAgent.AgentIO
}.

(** The value [processQuery] resolves with. *)
Record QueryResult : Type := mkResult {
  response : string;
  resultReasoning : list string;
  agentUsed : string;
  classification : QueryClassification;
  responseTime : Z
}.

Section Processing.
Variable JSON_parse : string -> Outcome ParsedClassification.
Variable fmt : LocationAgent.NumberFormat.
Variable mcpServer : MCPServer.
Variable handlers : LocationAgent.OtherHandlers.

(** [getOrCreateContext(sessionId, userId)]: the map after the call and
    the context it returns. *)
Definition getOrCreateContext (io : QueryIO) (convs : JsMap ConversationContext)
    (sid : string) (uid : option string)
  : JsMap ConversationContext * ConversationContext :=
  match mapGet convs sid with
  | Some ctx => (convs, ctx)
  | None =>
      let ctx := {| sessionId := sid;
                    userId := uid;
                    conversationHistory := [];
                    context := mkSessionContext None None None;
                    lastActivity := now io;
                    preferences := mkPreferences "detailed" None |} in
      (mapSet convs sid ctx, ctx)
  end.

(** [classifyQuery(query, context)] *)
Definition classifyQuery (io : QueryIO) (st : State) (query : string)
  : Outcome QueryClassification :=
  classifyQueryLLM JSON_parse (env io) query (claudePromise io) (agentRegistry st).

(** [routeToAgent(query, classification, context)] *)
Definition routeToAgent (io : QueryIO) (st : State) (query : string)
    (cls : QueryClassification) (ctx : ConversationContext)
  : State * Outcome A2AResponse :=
  match getAgent (agentRegistry st) (targetAgent cls) with
  | None =>
      (st, Thrown (JsError ("Agent " +:+ targetAgent cls +:+ " not found")))
  | Some agent =>
      if negb (healthy agent) then
        (st, Thrown (JsError ("Agent " +:+ targetAgent cls +:+ " is unhealthy")))
      else
        let message :=
          {| msgId := messageId io;
             msgSessionId := sessionId ctx;
             msgAgentId := "orchestrator";
             msgContent := query;
             msgTimestamp := now io;
             msgMetadata := Some (mkMetadata cls (context ctx)) |} in
        if String.eqb (targetAgent cls) "location-agent-001" then
          let (agent', response) :=
            LocationAgent.processMessage fmt mcpServer handlers (agentIO io)
                                         (locationAgent st) message in
          ({| conversations := conversations st;
              agentRegistry := agentRegistry st;
              locationAgent := agent';
              dispatched := dispatched st ++ [(targetAgent cls, message)] |},
           response)
        else
          (st, Thrown (JsError ("Agent routing not implemented for: " +:+ targetAgent cls)))
  end.

(** [updateConversationContext(context, query, response, classification)]:
    the context object after the call. *)
Definition updateConversationContext (io : QueryIO) (ctx : ConversationContext)
    (query : string) (resp : A2AResponse) (cls : QueryClassification)
  : ConversationContext :=
  let history :=
    conversationHistory ctx ++
    [ {| role := user; content := query; timestamp := now io; turnAgentId := None |};
      {| role := agentRole; content := respContent resp;
         timestamp := respTimestamp resp; turnAgentId := Some (respAgentId resp) |} ] in
  let history :=
    if 20 <? length history then sliceLast 20 history else history in
  {| sessionId := sessionId ctx;
     userId := userId ctx;
     conversationHistory := history;
     context := {| lastIntent := Some (intent cls);
                   lastAgent := Some (targetAgent cls);
                   lastParameters := Some (parameters cls) |};
     lastActivity := now io;
     preferences := preferences ctx |}.

(** [processQuery(query, sessionId, userId)]; the [catch] rethrows.  With
    a classification of the declared type, the log lines and the spread
    of [classification.reasoning] do not throw;
    [RawOrchestrator.processQuery] has them. *)
Definition processQuery (io : QueryIO) (st : State) (query sid : string)
    (uid : option string) : State * Outcome QueryResult :=
  let (convs, ctx) := getOrCreateContext io (conversations st) sid uid in
  let st := {| conversations := convs;
               agentRegistry := agentRegistry st;
               locationAgent := locationAgent st;
               dispatched := dispatched st |} in
  match classifyQuery io st query with
  | Thrown err => (st, Thrown err)
  | Returned cls =>
      match routeToAgent io st query cls ctx with
      | (st, Thrown err) => (st, Thrown err)
      | (st, Returned agentResponse) =>
          let ctx := updateConversationContext io ctx query agentResponse cls in
          ({| conversations := mapSet (conversations st) sid ctx;
              agentRegistry := agentRegistry st;
              locationAgent := locationAgent st;
              dispatched := dispatched st |},
           Returned {| response := respContent agentResponse;
                       resultReasoning :=
                         reasoning cls ++
                         match respReasoning agentResponse with
                         | Some r => r
                         | None => []
                         end;
                       agentUsed := targetAgent cls;
                       classification := cls;
                       responseTime := (Z.of_N (endTime io) - Z.of_N (startTime io))%Z |})
      end
  end.

(** [stopAgents()]: the location agent, then the registry. *)
Definition stopAgents (st : State) : State :=
  {| conversations := conversations st;
     agentRegistry := Registry.stop (agentRegistry st);
     locationAgent := LocationAgent.stop (locationAgent st);
     dispatched := dispatched st |}.

(** The body of a [POST /query] request whose properties [query],
    [sessionId] and [userId] are strings when present: the three
    properties the handler destructures. *)
Record QueryBody : Type := mkBody {
  bodyQuery : option string;
  bodySessionId : option string;
  bodyUserId : option string
}.

(** What a route sends with [res.status(n).json(...)]. *)
Inductive ReplyBody : Type :=
| ResultBody (result : QueryResult)
| ErrorBody (errorText : string) (details : option string).

(** The template substitution of a clock reading: its decimal digits. *)
Definition decimal (n : N) : string := NilZero.string_of_uint (N.to_uint n).

(** The handler of [POST /query]; [routeNow] is the reading of
    [Date.now()] that names a session the request does not name. *)
Definition postQuery (routeNow : N) (io : QueryIO) (st : State) (body : QueryBody)
  : State * (nat * ReplyBody) :=
  let query := bodyQuery body in
  let sessionId :=
    match bodySessionId body with
    | Some s => s
    | None => "session_" +:+ decimal routeNow
    end in
  let userId := bodyUserId body in
  match query with
  | None => (st, (400, ErrorBody "Query is required" None))
  | Some query =>
      if String.eqb query "" then (st, (400, ErrorBody "Query is required" None))
      else
        match processQuery io st query sessionId userId with
        | (st', Returned result) => (st', (200, ResultBody result))
        | (st', Thrown err) =>
            (st', (500, ErrorBody "Failed to process query"
                                  (Some (messageOr err "Unknown error"))))
        end
  end.

End Processing.
End Orchestrator.

(** ** Discovery ([AgentRegistry.start] and [discoverAgents])

    A manifest is whatever [getManifest()] or the remote endpoint yields:
    discovery works on dynamic values, and the entry it stores is the
    object the spread expression builds. *)

Module Discovery.
Import Js.

(** [agentConfig.instance]: how the call [instance.getManifest()] ends. *)
Record Instance : Type := mkInstance {
  getManifest : Outcome JsVal
}.

(** An element of [config.agents]. *)
Record AgentConfig : Type := mkAgentConfig {
  cfgAgentId : string;
  cfgEndpoint : option string;
  cfgInstance : option Instance
}.

(** [validateManifest(manifest)]: the conjunction is evaluated left to
    right and stops at the first false operand. *)
Definition validateManifest (manifest : JsVal) : Outcome bool :=
  if negb (String.eqb (typeof manifest) "object") then Returned false else
  bind (getProp manifest "agentId") (fun agentId =>
  if negb (String.eqb (typeof agentId) "string") then Returned false else
  bind (getProp manifest "name") (fun name =>
  if negb (String.eqb (typeof name) "string") then Returned false else
  bind (getProp manifest "description") (fun description =>
  if negb (String.eqb (typeof description) "string") then Returned false else
  bind (getProp manifest "version") (fun version =>
  if negb (String.eqb (typeof version) "string") then Returned false else
  bind (getProp manifest "tools") (fun tools =>
  if negb (isArray tools) then Returned false else
  bind (getProp manifest "capabilities") (fun capabilities =>
  if negb (isArray capabilities) then Returned false else
  bind (getProp manifest "expertise") (fun expertise =>
  Returned (isArray expertise)))))))).

(** The own properties a spread [{...v}] copies. *)
Definition ownProps (v : JsVal) : list (string * JsVal) :=
  match v with
  | JObj props => props
  | _ => []
  end.

(** [manifest.status === 'healthy'] *)
Definition statusIsHealthy (manifest : JsVal) : bool :=
  match lookupProp (ownProps manifest) "status" with
  | JStr s => String.eqb s "healthy"
  | _ => false
  end.

Definition dateValue (t : N) : JsVal := JNum (inject_Z (Z.of_N t)).

(** The object literal
    [{...manifest, endpoint, lastHealthCheck, discoveredAt, healthy}]. *)
Definition makeEntry (now : N) (agentConfig : AgentConfig) (manifest : JsVal) : JsVal :=
  let props := ownProps manifest in
  let props := mapSet props "endpoint"
                 match cfgEndpoint agentConfig with
                 | Some e => JStr e
                 | None => JUndefined
                 end in
  let props := mapSet props "lastHealthCheck" (dateValue now) in
  let props := mapSet props "discoveredAt" (dateValue now) in
  let props := mapSet props "healthy" (JBool (statusIsHealthy manifest)) in
  JObj props.

Section Discover.
(** [fetch(url)] followed by [response.json()]. *)
Variable fetchJson : string -> Outcome JsVal.
(** The clock reading of [new Date()]. *)
Variable now : N.

(** Lines 76-89: the manifest of one configured agent. *)
Definition fetchManifest (agentConfig : AgentConfig) : Outcome JsVal :=
  match cfgInstance agentConfig with
  | Some instance => getManifest instance
  | None =>
      match cfgEndpoint agentConfig with
      | Some e =>
          if String.eqb e ""
          then Thrown (JsError "Agent must have either instance or endpoint")
          else fetchJson (e +:+ "/manifest")
      | None => Thrown (JsError "Agent must have either instance or endpoint")
      end
  end.

(** The [try] block of the loop body: the map [agents] when the block
    completes ([continue] leaves it as it was). *)
Definition tryDiscover (agents : JsMap JsVal) (agentConfig : AgentConfig)
  : Outcome (JsMap JsVal) :=
  bind (fetchManifest agentConfig) (fun manifest =>
  bind (validateManifest manifest) (fun valid =>
  if negb valid then Returned agents
  else
    match lookupProp (ownProps manifest) "agentId" with
    | JStr id => Returned (mapSet agents id (makeEntry now agentConfig manifest))
    | _ => Returned agents
    end)).

(** One iteration of the loop: the [catch] logs and goes on. *)
Definition discoverStep (agents : JsMap JsVal) (agentConfig : AgentConfig)
  : JsMap JsVal :=
  match tryDiscover agents agentConfig with
  | Returned agents' => agents'
  | Thrown _ => agents
  end.

(** [discoverAgents()] *)
Definition discoverAgents (configAgents : list AgentConfig) (agents : JsMap JsVal)
  : JsMap JsVal :=
  fold_left discoverStep configAgents agents.

(** [start()]: the initial discovery (the refresh timer is not part of
    the model). *)
Definition start (configAgents : list AgentConfig) (agents : JsMap JsVal)
  : JsMap JsVal :=
  discoverAgents configAgents agents.

End Discover.
End Discovery.

(** ** Object identity in the registry's read methods

    [getAllAgents] and [getHealthyAgents] return arrays of object
    references.  Here the map [agents] holds references into a store of
    objects, so that what a caller can do to a returned array, and to the
    objects it holds, is visible. *)

Module RegistryHeap.
Import Js Registry.

(** References are locations of the store. *)
Abbreviation ref := positive.

(** The objects of the store: registry entries and arrays of references
    to entries. *)
Inductive Obj : Type :=
| EntryObj (entry : AgentRegistryEntry)
| ArrayObj (items : list ref).

Abbreviation Heap := (gmap positive Obj).

(** [new] array: a location the store does not use yet. *)
Definition alloc (h : Heap) (items : list ref) : ref * Heap :=
  let r := fresh (dom h) in
  (r, <[r := ArrayObj items]> h).

Definition readEntry (h : Heap) (r : ref) : option AgentRegistryEntry :=
  match h !! r with
  | Some (EntryObj e) => Some e
  | _ => None
  end.

Definition readArray (h : Heap) (r : ref) : list ref :=
  match h !! r with
  | Some (ArrayObj items) => items
  | _ => []
  end.

(** [agent.healthy] read through a reference. *)
Definition isHealthy (h : Heap) (r : ref) : bool :=
  match readEntry h r with
  | Some e => healthy e
  | None => false
  end.

(** [getAgent(agentId)]: the stored reference. *)
Definition getAgent (agents : JsMap ref) (id : string) : option ref :=
  mapGet agents id.

(** [getAllAgents()]: [Array.from(this.agents.values())] *)
Definition getAllAgents (agents : JsMap ref) (h : Heap) : ref * Heap :=
  alloc h (mapValues agents).

(** [getHealthyAgents()]: [this.getAllAgents().filter(agent => agent.healthy)] *)
Definition getHealthyAgents (agents : JsMap ref) (h : Heap) : ref * Heap :=
  let (all, h1) := getAllAgents agents h in
  alloc h1 (List.filter (isHealthy h1) (readArray h1 all)).

(** The registry's stored state as its read methods show it: the entry
    behind every key, in map order. *)
Definition stored (agents : JsMap ref) (h : Heap)
  : list (string * option AgentRegistryEntry) :=
  map (fun kv => (fst kv, readEntry h (snd kv))) agents.

(** What a caller can do with a reference it holds: change the array
    ([arr[i] = r], [arr.push(r)], [arr.length = n]), or assign to a field
    of an entry (any change of the entry's content). *)
Inductive Mutation : Type :=
| ArrayStore (arr : ref) (i : nat) (r : ref)
| ArrayPush (arr : ref) (r : ref)
| ArrayTruncate (arr : ref) (n : nat)
| EntryAssign (target : ref) (update : AgentRegistryEntry -> AgentRegistryEntry).

Definition mutate (m : Mutation) (h : Heap) : Heap :=
  match m with
  | ArrayStore arr i r =>
      match h !! arr with
      | Some (ArrayObj items) => <[arr := ArrayObj (<[i := r]> items)]> h
      | _ => h
      end
  | ArrayPush arr r =>
      match h !! arr with
      | Some (ArrayObj items) => <[arr := ArrayObj (items ++ [r])]> h
      | _ => h
      end
  | ArrayTruncate arr n =>
      match h !! arr with
      | Some (ArrayObj items) => <[arr := ArrayObj (take n items)]> h
      | _ => h
      end
  | EntryAssign target update =>
      match h !! target with
      | Some (EntryObj e) => <[target := EntryObj (update e)]> h
      | _ => h
      end
  end.

(** The object a mutation writes to. *)
Definition written (m : Mutation) : ref :=
  match m with
  | ArrayStore arr _ _ => arr
  | ArrayPush arr _ => arr
  | ArrayTruncate arr _ => arr
  | EntryAssign target _ => target
  end.

(** The objects reachable from a returned array: the array and its
    elements. *)
Definition reachable (h : Heap) (arr : ref) (r : ref) : Prop :=
  r = arr \/ In r (readArray h arr).

(** [agent.healthy = b] *)
Definition setHealthy (b : bool) (e : AgentRegistryEntry) : AgentRegistryEntry :=
  {| agentId := agentId e; name := name e; description := description e;
     version := version e; tools := tools e; capabilities := capabilities e;
     expertise := expertise e; healthEndpoint := healthEndpoint e;
     status := status e; endpoint := endpoint e;
     lastHealthCheck := lastHealthCheck e; discoveredAt := discoveredAt e;
     healthy := b |}.

End RegistryHeap.

(** ** Periodic health checks ([AgentRegistry.refreshAgents]) *)

Module Refresh.
Import Js Registry Discovery.

(** [agent.healthy = b] *)
Definition assignHealthy (agent : AgentRegistryEntry) (b : bool) : AgentRegistryEntry :=
  RegistryHeap.setHealthy b agent.

(** [agent.lastHealthCheck = t] *)
Definition assignLastHealthCheck (agent : AgentRegistryEntry) (t : N)
  : AgentRegistryEntry :=
  {| agentId := agentId agent; name := name agent; description := description agent;
     version := version agent; tools := tools agent; capabilities := capabilities agent;
     expertise := expertise agent; healthEndpoint := healthEndpoint agent;
     status := status agent; endpoint := endpoint agent;
     lastHealthCheck := t; discoveredAt := discoveredAt agent;
     healthy := healthy agent |}.

(** [health.status === 'healthy'], for the object a health check
    resolves with. *)
Definition reportsHealthy (health : JsVal) : Outcome bool :=
  bind (getProp health "status") (fun status =>
    Returned match status with
             | JStr s => String.eqb s "healthy"
             | _ => false
             end).

Section Refresh.
(** [this.config.agents] *)
Variable config : list AgentConfig.
(** How [agentConfig.instance.healthCheck()] settles. *)
Variable instanceHealth : AgentConfig -> Outcome JsVal.
(** [fetch(url)] followed by [response.json()]. *)
Variable fetchJson : string -> Outcome JsVal.
(** The clock reading of [new Date()] in the iteration for an agent. *)
Variable now : string -> N.

(** The remote branch: [else if (agent.endpoint)]. *)
Definition checkRemote (agent : AgentRegistryEntry) : Outcome bool :=
  match endpoint agent with
  | Some e =>
      if String.eqb e "" then Returned false
      else bind (fetchJson (e +:+ healthEndpoint agent)) reportsHealthy
  | None => Returned false
  end.

(** Lines 123-135: the value of [healthy] when the checks complete. *)
Definition checkHealth (agentId : string) (agent : AgentRegistryEntry) : Outcome bool :=
  let agentConfig := List.find (fun a => String.eqb (cfgAgentId a) agentId) config in
  match agentConfig with
  | Some a =>
      match cfgInstance a with
      | Some _ => bind (instanceHealth a) reportsHealthy
      | None => checkRemote agent
      end
  | None => checkRemote agent
  end.

(** The body of the loop: the [try] block assigns [healthy] and
    [lastHealthCheck], the [catch] block assigns [healthy = false]. *)
Definition refreshEntry (agentId : string) (agent : AgentRegistryEntry)
  : AgentRegistryEntry :=
  match checkHealth agentId agent with
  | Returned healthy =>
      assignLastHealthCheck (assignHealthy agent healthy) (now agentId)
  | Thrown _ => assignHealthy agent false
  end.

(** [refreshAgents()]: the loop over the entries of the map. *)
Definition refreshAgents (reg : AgentRegistry) : AgentRegistry :=
  map (fun kv => (fst kv, refreshEntry (fst kv) (snd kv))) reg.

End Refresh.
End Refresh.

(** ** The registry, the classifier and the orchestrator on the values
       they hold at run time

    [Registry], [Router] and [Orchestrator] above take the registry
    entries and the answer of the text-completion service at their
    declared types.  The code checks neither: an entry is the object
    literal [discoverAgents] builds from a manifest of which
    [validateManifest] has looked at seven top-level fields, and the
    classification is whatever [JSON.parse] yields, cast with
    [as QueryClassification].  The three modules below embed the same
    functions on these dynamic values, with the exceptions that values
    of the declared types cannot raise: a property read on [undefined],
    a call of [join] on a value that has none, an iteration over a value
    that is not iterable, the conversion of an object to a primitive. *)

Module RawRegistry.
Import Js Discovery.

(** A value of the private field [agents]: the own properties of an
    object.  The map is written at line 108 only, with the object literal
    of lines 98-106, under a key that [validateManifest] has found to be
    a string; the properties themselves are whatever the manifest
    holds. *)
Definition Entry : Type := list (string * JsVal).

(** The private field [agents]. *)
Definition AgentMap : Type := JsMap Entry.

(** The field [agents] that holds the entries [discoverAgents] has
    built ([Discovery.makeEntry] always yields an object). *)
Definition entriesOf (agents : JsMap JsVal) : AgentMap :=
  map (fun kv => (fst kv, ownProps (snd kv))) agents.

(** [agent.k], for [agent] an entry or [undefined]. *)
Definition entryProp (agent : JsVal) (k : string) : JsVal :=
  lookupProp (ownProps agent) k.

(** [getAgent(agentId)]: [undefined] for a value that is not a key. *)
Definition getAgent (agents : AgentMap) (agentId : JsVal) : JsVal :=
  match agentId with
  | JStr id =>
      match mapGet agents id with
      | Some entry => JObj entry
      | None => JUndefined
      end
  | _ => JUndefined
  end.

(** [getAllAgents()] *)
Definition getAllAgents (agents : AgentMap) : list JsVal :=
  map JObj (mapValues agents).

(** [getHealthyAgents()] *)
Definition getHealthyAgents (agents : AgentMap) : list JsVal :=
  List.filter (fun agent => truthy (entryProp agent "healthy")) (getAllAgents agents).

(** Whether a value can be converted to a primitive.  The conversion of
    an object tries its [toString] and [valueOf]: an object that has an
    own property [toString] (which in parsed data is never a function)
    has no method that yields a primitive; an array is converted by
    joining the conversions of its elements. *)
Fixpoint printable (v : JsVal) : bool :=
  match v with
  | JArr items => forallb printable items
  | JObj props => negb (mapHas props "toString")
  | _ => true
  end.

(** A loop whose body may throw: the first exception ends it. *)
Fixpoint forEach {A B} (body : B -> A -> Outcome B) (items : list A) (acc : B)
  : Outcome B :=
  match items with
  | [] => Returned acc
  | x :: rest => bind (body acc x) (forEach body rest)
  end.

Section Rendering.
Variable fmt : LocationAgent.NumberFormat.
(** The characters (code points) of a string, in order. *)
Variable characters : string -> list string.

(** The values a [for...of] loop or a spread takes from [v], written
    [expr] in the source: the elements of an array, the characters of a
    string; any other value is not iterable. *)
Definition iterate (expr : string) (v : JsVal) : Outcome (list JsVal) :=
  match v with
  | JArr items => Returned items
  | JStr s => Returned (map JStr (characters s))
  | _ => Thrown (JsError (expr +:+ " is not iterable"))
  end.

(** The template substitution [${v}]: a string stands for itself, any
    other value is converted to text. *)
Definition template (v : JsVal) : Outcome string :=
  match v with
  | JStr s => Returned s
  | _ =>
      if printable v then Returned (LocationAgent.toStr fmt v)
      else Thrown (JsError "Cannot convert object to primitive value")
  end.

(** The text of an array element in [join]. *)
Definition joinItem (v : JsVal) : Outcome string :=
  match v with
  | JUndefined | JNull => Returned ""
  | _ => template v
  end.

Fixpoint joinItems (sep : string) (items : list JsVal) : Outcome string :=
  match items with
  | [] => Returned ""
  | x :: rest =>
      bind (joinItem x) (fun first =>
        match rest with
        | [] => Returned first
        | _ => bind (joinItems sep rest) (fun others =>
                 Returned (first +:+ sep +:+ others))
        end)
  end.

(** [v.join(sep)], for [v] written [expr] in the source: only an array
    has the method. *)
Definition callJoin (expr : string) (v : JsVal) (sep : string) : Outcome string :=
  match v with
  | JArr items => joinItems sep items
  | JUndefined =>
      Thrown (JsError "Cannot read properties of undefined (reading 'join')")
  | JNull =>
      Thrown (JsError "Cannot read properties of null (reading 'join')")
  | _ => Thrown (JsError (expr +:+ ".join is not a function"))
  end.

(** The body of the loop over [agent.tools]. *)
Definition appendTool (context : string) (tool : JsVal) : Outcome string :=
  bind (getProp tool "name") (fun name =>
  bind (template name) (fun name =>
  bind (getProp tool "description") (fun description =>
  bind (template description) (fun description =>
  let context := context +:+ ("    * " +:+ name +:+ ": " +:+ description +:+ Registry.lf) in
  bind (getProp tool "intentTags") (fun intentTags =>
  bind (callJoin "tool.intentTags" intentTags ", ") (fun intentTags =>
  Returned (context +:+ ("      Intent tags: " +:+ intentTags +:+ Registry.lf)))))))).

(** The body of the loop over the healthy agents. *)
Definition appendAgent (context : string) (agent : JsVal) : Outcome string :=
  bind (template (entryProp agent "agentId")) (fun agentId =>
  bind (template (entryProp agent "name")) (fun name =>
  let context := context +:+ (agentId +:+ ": " +:+ name +:+ Registry.lf) in
  bind (template (entryProp agent "description")) (fun description =>
  let context := context +:+ ("  Description: " +:+ description +:+ Registry.lf) in
  let context := context +:+ ("  Tools:" +:+ Registry.lf) in
  bind (iterate "agent.tools" (entryProp agent "tools")) (fun tools =>
  bind (forEach appendTool tools context) (fun context =>
  bind (callJoin "agent.capabilities" (entryProp agent "capabilities") ", ")
       (fun capabilities =>
  let context := context +:+ ("  Capabilities: " +:+ capabilities +:+ Registry.lf) in
  bind (callJoin "agent.expertise" (entryProp agent "expertise") ", ") (fun expertise =>
  Returned (context +:+
            ("  Expertise: " +:+ expertise +:+ Registry.lf +:+ Registry.lf))))))))).

(** [generatePromptContext()] *)
Definition generatePromptContext (agents : AgentMap) : Outcome string :=
  let healthyAgents := getHealthyAgents agents in
  match healthyAgents with
  | [] => Returned "No healthy agents available."
  | _ =>
      forEach appendAgent healthyAgents
              ("AVAILABLE AGENTS AND CAPABILITIES:" +:+ Registry.lf +:+ Registry.lf)
  end.

End Rendering.
End RawRegistry.

Module RawRouter.
Import Js Router Discovery RawRegistry.

(** A classification object: its own properties.  What
    [classifyQueryLLM] returns is the object literal of
    [fallbackClassification] or a parsed object (see
    [validateResponse]). *)
Definition Classification : Type := list (string * JsVal).

(** [fallbackClassification(query, registry)] *)
Definition fallbackClassification (query : string) (registry : AgentMap)
  : Classification :=
  let lower := toLowerCase query in
  let intent := fallbackIntent lower in
  let target :=
    match getHealthyAgents registry with
    | agent :: _ => entryProp agent "agentId"
    | [] => JStr "location-agent-001"
    end in
  [ ("intent", JStr intent);
    ("confidence", JNum 50);
    ("targetAgent", target);
    ("parameters", JObj [("query", JStr query)]);
    ("complexity", JStr (if includes query " and " || includes query " then "
                         then "complex" else "simple"));
    ("reasoning", JArr [JStr "Rule-based fallback"]) ].

(** [fallback.reasoning.push(note)] *)
Definition pushReasoning (c : Classification) (note : string) : Classification :=
  mapSet c "reasoning"
         match lookupProp c "reasoning" with
         | JArr items => JArr (items ++ [JStr note])
         | other => other
         end.

(** The constant [FEW_SHOT]. *)
Definition FEW_SHOT : list (string * string) :=
  [ ("Where is product 9375387?", "product_location_search");
    ("How many pallets of flour do we have?", "inventory_count_query");
    ("What product has the highest quantity?", "inventory_ranking_analysis");
    ("Analyze warehouse space utilization", "space_analysis");
    ("Give me a warehouse summary", "comprehensive_summary");
    ("Compare frozen vs dry areas then show top 3 expiring", "multi_step_query") ].

(** [examples] *)
Definition examples : string :=
  join Registry.lf
       (map (fun e => "Query: " +:+ LocationAgent.dq +:+ fst e +:+ LocationAgent.dq +:+
                      Registry.lf +:+ "Intent: " +:+ snd e)
            FEW_SHOT).

(** [systemPrompt] *)
Definition systemPrompt (agentContext : string) : string :=
  "You classify warehouse queries into intents." +:+ Registry.lf +:+
  agentContext +:+ Registry.lf +:+ Registry.lf +:+
  "Examples:" +:+ Registry.lf +:+ examples +:+ Registry.lf +:+ Registry.lf +:+
  "Respond with JSON {intent, confidence, targetAgent, parameters, complexity, reasoning}".

(** [claude.messages.create] as a function of the [system] prompt and of
    the content of the user message: the promise of the request. *)
Definition Claude : Type := string -> string -> Promise (list ContentBlock).

Section Classifier.
Variable fmt : LocationAgent.NumberFormat.
Variable characters : string -> list string.
(** The conversion of a string to a number ([None] for [NaN]). *)
Variable stringToNumber : string -> option Q.
(** [JSON.parse]; [Thrown] is a [SyntaxError]. *)
Variable JSON_parse : string -> Outcome JsVal.

(** [v < 40]: the comparison converts [v] to a number, which throws for
    a value that has no primitive. *)
Definition belowForty (v : JsVal) : Outcome bool :=
  if printable v then
    Returned match LocationHandlers.toNumber fmt stringToNumber v with
             | Some q => ltNum q 40
             | None => false
             end
  else Thrown (JsError "Cannot convert object to primitive value").

(** Lines 49-69: from [response] to the [return] inside [try].  A parsed
    value that is not an object has no [targetAgent], and a target that
    is not a string is no key of the registry. *)
Definition validateResponse (query : string) (registry : AgentMap)
    (response : list ContentBlock) : Outcome Classification :=
  match response with
  | [] => Thrown (JsError "Cannot read properties of undefined (reading 'type')")
  | content :: _ =>
      if negb (String.eqb (blockType content) "text")
      then Thrown (JsError "Unexpected Claude response")
      else
        bind (JSON_parse (trim (blockText content))) (fun parsed =>
        let unavailable :=
          Returned (pushReasoning (fallbackClassification query registry)
                                  "Target agent unavailable, using fallback") in
        match parsed with
        | JUndefined | JNull => bind (getProp parsed "targetAgent") (fun _ => unavailable)
        | JObj classification =>
            let agent := getAgent registry (lookupProp classification "targetAgent") in
            if negb (truthy agent) || negb (truthy (entryProp agent "healthy"))
            then unavailable
            else
              let classification :=
                match lookupProp classification "confidence" with
                | JUndefined => mapSet classification "confidence" (JNum 50)
                | _ => classification
                end in
              bind (belowForty (lookupProp classification "confidence")) (fun below =>
              if below then
                Returned (pushReasoning (fallbackClassification query registry)
                                        "Low confidence fallback")
              else Returned classification)
        | _ => unavailable
        end)
  end.

(** The [try] block: the race, then the validation of its result. *)
Definition tryClassify (query : string) (registry : AgentMap)
    (claudePromise : Promise (list ContentBlock)) : Outcome Classification :=
  match snd (raceWithTimeout claudePromise) with
  | Thrown e => Thrown e
  | Returned response => validateResponse query registry response
  end.

(** [classifyQueryLLM(query, context, claude, registry)].  The prompt
    context is built before the [try] block; the parameter [context] is
    never read. *)
Definition classifyQueryLLM (env : Env) (query : string) (claude : Claude)
    (registry : AgentMap) : Outcome Classification :=
  if fallbackOnly env then Returned (fallbackClassification query registry)
  else
    bind (generatePromptContext fmt characters registry) (fun agentContext =>
    let systemPrompt := systemPrompt agentContext in
    match tryClassify query registry (claude systemPrompt query) with
    | Returned classification => Returned classification
    | Thrown err => Returned (fallbackClassification query registry)
    end).

(** The time [classifyQueryLLM] spends suspended on its only [await];
    no request is made when the prompt context cannot be built. *)
Definition classifyQueryWait (env : Env) (query : string) (claude : Claude)
    (registry : AgentMap) : N :=
  if fallbackOnly env then 0%N
  else
    match generatePromptContext fmt characters registry with
    | Returned agentContext =>
        fst (raceWithTimeout (claude (systemPrompt agentContext) query))
    | Thrown _ => 0%N
    end.

End Classifier.
End RawRouter.

Module RawOrchestrator.
Import Js Router A2A Mcp Discovery RawRegistry RawRouter.

(** A value of the map [conversations]; [context] holds the own
    properties of the object [context.context], which starts as the
    empty object. *)
Record ConversationContext : Type := mkContext {
  sessionId : string;
  userId : option string;
  conversationHistory : list Orchestrator.Turn;
  context : list (string * JsVal);
  lastActivity : N;
  preferences : Orchestrator.Preferences
}.

(** The state that query processing touches.  [dispatched] is not a
    field of the class: it records, in order, the messages of the calls
    [locationAgent.processMessage(message)]. *)
Record State : Type := mkState {
  conversations : JsMap ConversationContext;
  agentRegistry : AgentMap;
  locationAgent : LocationAgent.LocationAgentServer;
  dispatched : list A2AMessage
}.

(** What one [processQuery] reads from the outside.  The clock is read
    at line 519 ([startTime]), for the [lastActivity] of a new context
    ([createdTime]), for the message ([sentTime]), for the user turn
    ([turnTime]), for the [lastActivity] of the updated context
    ([activityTime]) and at line 542 ([endTime]). *)
Record QueryIO : Type := mkQueryIO {
  env : Env;
  claude : Claude;
  startTime : N;
  createdTime : N;
  sentTime : N;
  turnTime : N;
  activityTime : N;
  endTime : N;
  messageId : string;
  agentIO : LocationAgent.AgentIO
}.

(** The value [processQuery] resolves with. *)
Record QueryResult : Type := mkResult {
  response : string;
  resultReasoning : list JsVal;
  agentUsed : JsVal;
  classification : Classification;
  responseTime : Z
}.

(** [v === 'location-agent-001'] *)
Definition isLocationAgent (v : JsVal) : bool :=
  match v with
  | JStr s => String.eqb s "location-agent-001"
  | _ => false
  end.

Section Processing.
Variable fmt : LocationAgent.NumberFormat.
Variable characters : string -> list string.
Variable stringToNumber : string -> option Q.
Variable JSON_parse : string -> Outcome JsVal.
Variable mcpServer : MCPServer.
Variable handlers : LocationAgent.OtherHandlers.

(** [getOrCreateContext(sessionId, userId)] *)
Definition getOrCreateContext (io : QueryIO) (convs : JsMap ConversationContext)
    (sid : string) (uid : option string)
  : JsMap ConversationContext * ConversationContext :=
  match mapGet convs sid with
  | Some ctx => (convs, ctx)
  | None =>
      let ctx := {| sessionId := sid;
                    userId := uid;
                    conversationHistory := [];
                    context := [];
                    lastActivity := createdTime io;
                    preferences := Orchestrator.mkPreferences "detailed" None |} in
      (mapSet convs sid ctx, ctx)
  end.

(** [classifyQuery(query, context)] *)
Definition classifyQuery (io : QueryIO) (st : State) (query : string)
  : Outcome Classification :=
  classifyQueryLLM fmt characters stringToNumber JSON_parse (env io) query (claude io)
                   (agentRegistry st).

(** The two log lines of [processQuery] after the classification (lines
    526 and 528): their templates convert the intent, the confidence and
    the target to text. *)
Definition logClassification (cls : Classification) : Outcome unit :=
  bind (template fmt (lookupProp cls "intent")) (fun _ =>
  bind (template fmt (lookupProp cls "confidence")) (fun _ =>
  bind (template fmt (lookupProp cls "targetAgent")) (fun _ =>
  Returned tt))).

(** [routeToAgent(query, classification, context)]; the log lines
    convert the target and the name of the agent to text. *)
Definition routeToAgent (io : QueryIO) (st : State) (query : string)
    (cls : Classification) (ctx : ConversationContext)
  : State * Outcome A2AResponse :=
  let target := lookupProp cls "targetAgent" in
  match template fmt target with
  | Thrown err => (st, Thrown err)
  | Returned targetText =>
      let agent := getAgent (agentRegistry st) target in
      if negb (truthy agent) then
        (st, Thrown (JsError ("Agent " +:+ targetText +:+ " not found")))
      else if negb (truthy (entryProp agent "healthy")) then
        (st, Thrown (JsError ("Agent " +:+ targetText +:+ " is unhealthy")))
      else
        match template fmt (entryProp agent "name") with
        | Thrown err => (st, Thrown err)
        | Returned _ =>
            let message :=
              {| msgId := messageId io;
                 msgSessionId := sessionId ctx;
                 msgAgentId := "orchestrator";
                 msgContent := query;
                 msgTimestamp := sentTime io;
                 msgMetadata := Some (mkRawMetadata (JObj cls) (JObj (context ctx))) |} in
            if isLocationAgent target then
              let (agent', response) :=
                LocationAgent.processMessage fmt mcpServer handlers (agentIO io)
                                             (locationAgent st) message in
              ({| conversations := conversations st;
                  agentRegistry := agentRegistry st;
                  locationAgent := agent';
                  dispatched := dispatched st ++ [message] |},
               response)
            else
              (st, Thrown (JsError ("Agent routing not implemented for: " +:+
                                    targetText)))
        end
  end.

(** [updateConversationContext(context, query, response, classification)]:
    the context object after the call. *)
Definition updateConversationContext (io : QueryIO) (ctx : ConversationContext)
    (query : string) (resp : A2AResponse) (cls : Classification)
  : ConversationContext :=
  let history :=
    conversationHistory ctx ++
    [ Orchestrator.mkTurn Orchestrator.user query (turnTime io) None;
      Orchestrator.mkTurn Orchestrator.agentRole (respContent resp)
                          (respTimestamp resp) (Some (respAgentId resp)) ] in
  let context := mapSet (context ctx) "lastIntent" (lookupProp cls "intent") in
  let context := mapSet context "lastAgent" (lookupProp cls "targetAgent") in
  let context := mapSet context "lastParameters" (lookupProp cls "parameters") in
  let history :=
    if 20 <? length history then sliceLast 20 history else history in
  {| sessionId := sessionId ctx;
     userId := userId ctx;
     conversationHistory := history;
     context := context;
     lastActivity := activityTime io;
     preferences := preferences ctx |}.

(** [processQuery(query, sessionId, userId)]; the [catch] rethrows.  The
    object it returns is built after the conversation is updated: the
    spread of [classification.reasoning] throws for a value that is not
    iterable. *)
Definition processQuery (io : QueryIO) (st : State) (query sid : string)
    (uid : option string) : State * Outcome QueryResult :=
  let (convs, ctx) := getOrCreateContext io (conversations st) sid uid in
  let st := {| conversations := convs;
               agentRegistry := agentRegistry st;
               locationAgent := locationAgent st;
               dispatched := dispatched st |} in
  match classifyQuery io st query with
  | Thrown err => (st, Thrown err)
  | Returned cls =>
      match logClassification cls with
      | Thrown err => (st, Thrown err)
      | Returned _ =>
          match routeToAgent io st query cls ctx with
          | (st, Thrown err) => (st, Thrown err)
          | (st, Returned agentResponse) =>
              let ctx := updateConversationContext io ctx query agentResponse cls in
              let st := {| conversations := mapSet (conversations st) sid ctx;
                           agentRegistry := agentRegistry st;
                           locationAgent := locationAgent st;
                           dispatched := dispatched st |} in
              match iterate characters "classification.reasoning"
                            (lookupProp cls "reasoning") with
              | Thrown err => (st, Thrown err)
              | Returned reasoning =>
                  (st,
                   Returned {| response := respContent agentResponse;
                               resultReasoning :=
                                 reasoning ++
                                 match respReasoning agentResponse with
                                 | Some r => map JStr r
                                 | None => []
                                 end;
                               agentUsed := lookupProp cls "targetAgent";
                               classification := cls;
                               responseTime :=
                                 (Z.of_N (endTime io) - Z.of_N (startTime io))%Z |})
              end
          end
      end
  end.

End Processing.
End RawOrchestrator.

(** * Specification vocabulary *)

(** ** Substrings and digit runs *)

Section StringNotions.
Import Js.

(** [sub] occurs in [s]. *)
Definition Contains (s sub : string) : Prop :=
  exists pre post, s = pre +:+ sub +:+ post.

Fixpoint allDigits (s : string) : bool :=
  match s with
  | EmptyString => true
  | String c rest => isDigit c && allDigits rest
  end.

(** The last character of [s] is a word character. *)
Fixpoint endsWithWordChar (s : string) : bool :=
  match s with
  | EmptyString => false
  | String c EmptyString => isWordChar c
  | String _ rest => endsWithWordChar rest
  end.

(** An occurrence of [/\b\d{6,}\b/] in [s]: at least six digits, with no
    word character just before and none just after. *)
Definition ProductNumberIn (s : string) : Prop :=
  exists pre ds post,
    s = pre +:+ ds +:+ post /\
    allDigits ds = true /\ 6 <= String.length ds /\
    endsWithWordChar pre = false /\ boundaryAfterWord post = true.

End StringNotions.

(** ** Ordered rules *)

Section FallbackNotions.
Import Js Registry Router.

(** A run of at least [n] digits somewhere in [s], whatever surrounds it. *)
Definition DigitRunIn (n : nat) (s : string) : Prop :=
  exists pre ds post,
    s = pre +:+ ds +:+ post /\ allDigits ds = true /\ n <= String.length ds.

(** Ordered rules, the first one that applies decides: [out] is the label
    of the first rule whose condition holds, [dflt] when none does. *)
Fixpoint firstRule (rules : list (Prop * string)) (dflt out : string) : Prop :=
  match rules with
  | [] => out = dflt
  | (cond, label) :: rest =>
      (cond -> out = label) /\ (~ cond -> firstRule rest dflt out)
  end.

(** The rules of [fallbackClassification], on the lower-cased query. *)
Definition intentRules (lower : string) : list (Prop * string) :=
  [ (Contains lower "where is" \/ ProductNumberIn lower, "product_location_search");
    (Contains lower "how many" \/ Contains lower "count", "inventory_count_query");
    (Contains lower "highest" \/ Contains lower "most", "inventory_ranking_analysis");
    (Contains lower "summary" \/ Contains lower "overview", "comprehensive_summary");
    (Contains lower "space", "space_analysis");
    (Contains lower "expire", "expiration_check") ].

End FallbackNotions.

(** ** Order by a descending integer key *)

Section SortNotions.
Context {A : Type} (key : A -> Z).

(** The comparator [(a, b) => key(b) - key(a)]. *)
Definition descending (a b : A) : Z := (key b - key a)%Z.

Definition keyIs (k : Z) (x : A) : bool := (key x =? k)%Z.

Definition Descending : list A -> Prop :=
  StronglySorted (fun a b => (key a >= key b)%Z).

End SortNotions.

(** ** Fuzzy matches and weighted scores *)

Section IntentTagNotions.
Import Js Registry.

(** Case-insensitive containment in either direction. *)
Definition FuzzyMatch (queryTag x : string) : Prop :=
  Contains (toLowerCase queryTag) (toLowerCase x) \/
  Contains (toLowerCase x) (toLowerCase queryTag).

(** The number of labels of [xs] that fuzzy-match some query tag. *)
Definition matchCount (tags xs : list string) : Z :=
  Z.of_nat (length (List.filter (someTagMatches tags) xs)).

(** The number of matching intent tags, summed over the tools. *)
Fixpoint toolTagMatches (tags : list string) (ts : list ToolDescriptor) : Z :=
  match ts with
  | [] => 0
  | t :: rest => (matchCount tags (intentTags t) + toolTagMatches tags rest)%Z
  end.

(** The score as the specification words it. *)
Definition weightedScore (tags : list string) (a : AgentRegistryEntry) : Z :=
  (2 * toolTagMatches tags (tools a)
   + matchCount tags (capabilities a)
   + matchCount tags (expertise a))%Z.

Definition scored (tags : list string) (a : AgentRegistryEntry) : Scored :=
  mkScored a (weightedScore tags a).

End IntentTagNotions.

(** ** Answers of the text-completion service *)

Section ClassifierNotions.
Import Js Registry Router.
Variable JSON_parse : string -> Outcome ParsedClassification.

(** [target] is the key of a healthy registry entry. *)
Definition resolvesHealthy (registry : AgentRegistry) (target : string) : bool :=
  match getAgent registry target with
  | Some a => healthy a
  | None => false
  end.

(** The fallback classification, possibly with a reasoning note pushed. *)
Definition IsFallback (query : string) (registry : AgentRegistry)
    (c : QueryClassification) : Prop :=
  c = fallbackClassification query registry \/
  exists note, c = pushReasoning (fallbackClassification query registry) note.

(** [classification.confidence] after line 61. *)
Definition effectiveConfidence (p : ParsedClassification) : Q :=
  match parsedConfidence p with
  | Some c => c
  | None => 50%Q
  end.

(** The service answers before the timer with a text block that parses
    to [p]. *)
Definition AnswersWith (claude : Promise (list ContentBlock))
    (p : ParsedClassification) : Prop :=
  exists t b rest,
    settlesAt claude = Some t /\ (t < CLAUDE_TIMEOUT_MS)%N /\
    settlesWith claude = Returned (b :: rest) /\
    blockType b = "text" /\ JSON_parse (trim (blockText b)) = Returned p.


End ClassifierNotions.

(** ** Routing errors and conversation histories *)

Section OrchestratorNotions.
Import Js Registry Router A2A Mcp Orchestrator.

(** The message of the error [routeToAgent] throws for a target that is
    unknown or unhealthy. *)
Definition RoutingError (target msg : string) : Prop :=
  msg = "Agent " +:+ target +:+ " not found" \/
  msg = "Agent " +:+ target +:+ " is unhealthy".

(** Every stored conversation has at most 20 history entries. *)
Definition HistoryBounded (st : State) : Prop :=
  forall s c, mapGet (conversations st) s = Some c ->
              length (conversationHistory c) <= 20.

(** The history stored for a session, empty when there is none. *)
Definition historyOf (st : State) (sid : string) : list Turn :=
  match mapGet (conversations st) sid with
  | Some c => conversationHistory c
  | None => []
  end.

End OrchestratorNotions.

(** ** Summary queries and the tool calls of a handler *)

Section LocationAgentNotions.
Import Js A2A Mcp LocationAgent.
Variable mcpServer : MCPServer.

(** The promises [handleSummaryQuery] joins. *)
Definition summaryCalls : list (Settled JsVal) :=
  [ callTool mcpServer "analyze_space_utilization" spaceParams;
    callTool mcpServer "check_expiration_dates" expirationParams;
    callTool mcpServer "quantity_analysis" quantityParams ].

(** The queries [planAndExecuteQuery] hands to [handleSummaryQuery]: the
    sixth test holds and the five before it fail. *)
Definition isSummaryQuery (query : string) : bool :=
  let has := includes (toLowerCase query) in
  negb (has "highest" || has "most" || has "best" ||
        has "top" || has "lowest" || has "least") &&
  negb (has "compare" || has "difference" || has "vs") &&
  negb ((has "how many" || has "count" || has "total number") && negb (has "explain")) &&
  negb (has "where is" || has "find" || has "locate") &&
  negb (has "in area" || has "frozen" || has "dry" || has "refrigerated") &&
  (has "summary" || has "overview" || has "report").

(** The run of a handler body makes the call of [tool] with [params]:
    the call is awaited on the path the run takes. *)
Inductive Invokes : Script -> string -> JsVal -> Prop :=
| invokes_reason note next tool params :
    Invokes next tool params -> Invokes (Reason note next) tool params
| invokes_record call next tool params :
    Invokes next tool params -> Invokes (Record call next) tool params
| invokes_await tool params next :
    Invokes (Await tool params next) tool params
| invokes_after tool params next result tool' params' :
    settledWith (callTool mcpServer tool params) = Returned result ->
    Invokes (next result) tool' params' ->
    Invokes (Await tool params next) tool' params'
| invokes_batch calls next tool params :
    In (tool, params) calls -> Invokes (AwaitAll calls next) tool params
| invokes_after_batch calls next results tool params :
    promiseAll (map (fun c => callTool mcpServer (fst c) (snd c)) calls) = Returned results ->
    Invokes (next results) tool params ->
    Invokes (AwaitAll calls next) tool params.

(** The calls a run of a handler body makes, in the order it makes them
    (those of a batch in the order they are issued); a call that rejects
    is the last one. *)
Fixpoint callsMade (s : Script) : list (string * JsVal) :=
  match s with
  | Finish _ | Fail _ => []
  | Reason _ next => callsMade next
  | Record _ next => callsMade next
  | Await tool params next =>
      (tool, params) ::
      match settledWith (callTool mcpServer tool params) with
      | Returned result => callsMade (next result)
      | Thrown _ => []
      end
  | AwaitAll calls next =>
      calls ++
      match promiseAll (map (fun c => callTool mcpServer (fst c) (snd c)) calls) with
      | Returned results => callsMade (next results)
      | Thrown _ => []
      end
  end.

(** The queries [planAndExecuteQuery] hands to [handleLocationQuery]: the
    fourth test holds and the three before it fail. *)
Definition isLocationQuery (query : string) : bool :=
  let has := includes (toLowerCase query) in
  negb (has "highest" || has "most" || has "best" ||
        has "top" || has "lowest" || has "least") &&
  negb (has "compare" || has "difference" || has "vs") &&
  negb ((has "how many" || has "count" || has "total number") && negb (has "explain")) &&
  (has "where is" || has "find" || has "locate").

(** The queries [planAndExecuteQuery] hands to [handleFlexibleQuery]:
    none of the seven tests holds. *)
Definition isFlexibleQuery (query : string) : bool :=
  let has := includes (toLowerCase query) in
  negb (has "highest" || has "most" || has "best" ||
        has "top" || has "lowest" || has "least") &&
  negb (has "compare" || has "difference" || has "vs") &&
  negb ((has "how many" || has "count" || has "total number") && negb (has "explain")) &&
  negb (has "where is" || has "find" || has "locate") &&
  negb (has "in area" || has "frozen" || has "dry" || has "refrigerated") &&
  negb (has "summary" || has "overview" || has "report") &&
  negb ((has "explain" || has "how do you" || has "what tools") && negb (has "how many")).

(** An occurrence of the product-number pattern that starts where [pre]
    ends. *)
Definition ProductNumberAt (s pre ds : string) : Prop :=
  exists post,
    s = pre +:+ ds +:+ post /\
    allDigits ds = true /\ 6 <= String.length ds /\
    endsWithWordChar pre = false /\ boundaryAfterWord post = true.

(** What an awaited call yields, [undefined] standing in when it
    rejects. *)
Definition resultOf (tool : string) (params : JsVal) : JsVal :=
  match settledWith (callTool mcpServer tool params) with
  | Returned result => result
  | Thrown _ => JUndefined
  end.

(** The call answers. *)
Definition Answers (call : string * JsVal) : Prop :=
  exists result, settledWith (callTool mcpServer (fst call) (snd call)) = Returned result.

End LocationAgentNotions.

(** ** The memory of the location agent *)

Section MemoryNotions.
Import Js A2A Mcp LocationAgent.
Variable fmt : NumberFormat.
Variable mcpServer : MCPServer.
Variable handlers : OtherHandlers.

(** The agent after it has processed the messages of an inbox one after
    the other, each with the clock reading and the identifier of its
    turn. *)
Definition deliver (agent : LocationAgentServer) (inbox : list (AgentIO * A2AMessage))
  : LocationAgentServer :=
  fold_left (fun a turn =>
               fst (processMessage fmt mcpServer handlers (fst turn) a (snd turn)))
            inbox agent.

(** The messages and the queries the agent remembers for a session. *)
Definition remembered (agent : LocationAgentServer) (sessionId : string)
  : list A2AMessage * list string :=
  match mapGet (conversations agent) sessionId with
  | Some memory => (messages memory, queryHistory memory)
  | None => ([], [])
  end.

End MemoryNotions.

(** ** Texts of the handlers *)

Section HandlerNotions.
Import Js A2A Mcp LocationAgent.
Variable fmt : NumberFormat.

(** The four lines of the area comparison for one area, from the
    [summary] of its result. *)
Definition areaSection (areaName areaId : string) (summary : JsVal) : string :=
  "📦 **" +:+ areaName +:+ " Area (" +:+ areaId +:+ "):**" +:+ nl +:+
  "   Products: " +:+ toStr fmt (orZero (propOf summary "totalProducts")) +:+ nl +:+
  "   Total Units: " +:+ toStr fmt (orZero (propOf summary "totalUnits")) +:+ nl +:+
  "   Space Utilization: " +:+ toStr fmt (orZero (propOf summary "spaceUtilization")) +:+
  "%" +:+ nl +:+ nl.

End HandlerNotions.

(** ** Registered manifests *)

Section DiscoveryNotions.
Import Js Discovery.
Variable fetchJson : string -> Outcome JsVal.

(** A configured agent whose manifest is fetched and passes validation. *)
Definition accepted (agentConfig : AgentConfig) : bool :=
  match fetchManifest fetchJson agentConfig with
  | Returned manifest =>
      match validateManifest manifest with
      | Returned valid => valid
      | Thrown _ => false
      end
  | Thrown _ => false
  end.

(** The key under which an accepted manifest is registered. *)
Definition manifestAgentId (agentConfig : AgentConfig) : option string :=
  match fetchManifest fetchJson agentConfig with
  | Returned manifest =>
      match lookupProp (ownProps manifest) "agentId" with
      | JStr id => Some id
      | _ => None
      end
  | Thrown _ => None
  end.

(** What the loop of [discoverAgents] keeps true of the map: distinct
    keys, each holding the entry built from a validated manifest of that
    id. *)
Definition Discovered (now : N) (configAgents : list AgentConfig)
    (agents : JsMap JsVal) : Prop :=
  NoDup (mapKeys agents) /\
  forall id entry, mapGet agents id = Some entry ->
    exists agentConfig manifest,
      In agentConfig configAgents /\
      fetchManifest fetchJson agentConfig = Returned manifest /\
      validateManifest manifest = Returned true /\
      getProp manifest "agentId" = Returned (JStr id) /\
      entry = makeEntry now agentConfig manifest.

End DiscoveryNotions.

(** ** Registries as discovery builds them *)

Section RegistryNotions.
Import Js Registry.

(** The registry without its unhealthy entries. *)
Definition healthyPart (reg : AgentRegistry) : AgentRegistry :=
  List.filter (fun kv => healthy (snd kv)) reg.

(** Every entry is stored under its own [agentId], and no key occurs
    twice: what [this.agents.set(manifest.agentId, entry)] maintains. *)
Definition WellKeyed (reg : AgentRegistry) : Prop :=
  NoDup (mapKeys reg) /\ Forall (fun kv => agentId (snd kv) = fst kv) reg.

(** The fields a health check leaves alone: all but [healthy] and
    [lastHealthCheck]. *)
Definition SameManifest (a b : AgentRegistryEntry) : Prop :=
  agentId b = agentId a /\ name b = name a /\ description b = description a /\
  version b = version a /\ tools b = tools a /\ capabilities b = capabilities a /\
  expertise b = expertise a /\ healthEndpoint b = healthEndpoint a /\
  status b = status a /\ endpoint b = endpoint a /\ discoveredAt b = discoveredAt a.

End RegistryNotions.

(** ** The three views of the registry map

    The field [agents] of [AgentRegistry] appears three times above: with
    typed entries ([Registry], what the TypeScript interface promises),
    with the dynamic objects discovery builds ([Discovery]), and with
    references into a store ([RegistryHeap]).  The definitions below
    relate them. *)

Section RegistryViews.
Import Js Registry.

Definition toolToJs (t : ToolDescriptor) : JsVal :=
  JObj [ ("name", JStr (toolName t));
         ("description", JStr (toolDescription t));
         ("intentTags", JArr (map JStr (intentTags t)));
         ("schema", schema t) ].

(** The manifest part of a typed entry, as the object [getManifest()]
    returns. *)
Definition manifestToJs (e : AgentRegistryEntry) : JsVal :=
  JObj [ ("agentId", JStr (agentId e));
         ("name", JStr (name e));
         ("description", JStr (description e));
         ("version", JStr (version e));
         ("tools", JArr (map toolToJs (tools e)));
         ("capabilities", JArr (map JStr (capabilities e)));
         ("expertise", JArr (map JStr (expertise e)));
         ("healthEndpoint", JStr (healthEndpoint e));
         ("status", JStr (status e)) ].

(** A typed entry as a dynamic object. *)
Definition entryToJs (e : AgentRegistryEntry) : JsVal :=
  JObj [ ("agentId", JStr (agentId e));
         ("name", JStr (name e));
         ("description", JStr (description e));
         ("version", JStr (version e));
         ("tools", JArr (map toolToJs (tools e)));
         ("capabilities", JArr (map JStr (capabilities e)));
         ("expertise", JArr (map JStr (expertise e)));
         ("healthEndpoint", JStr (healthEndpoint e));
         ("status", JStr (status e));
         ("endpoint", match endpoint e with Some u => JStr u | None => JUndefined end);
         ("lastHealthCheck", Discovery.dateValue (lastHealthCheck e));
         ("discoveredAt", Discovery.dateValue (discoveredAt e));
         ("healthy", JBool (healthy e)) ].


(** The typed entry discovery registers for a typed manifest. *)
Definition registeredEntry (now : N) (agentConfig : Discovery.AgentConfig)
    (e : AgentRegistryEntry) : AgentRegistryEntry :=
  {| agentId := agentId e; name := name e; description := description e;
     version := version e; tools := tools e; capabilities := capabilities e;
     expertise := expertise e; healthEndpoint := healthEndpoint e;
     status := status e;
     endpoint := Discovery.cfgEndpoint agentConfig;
     lastHealthCheck := now;
     discoveredAt := now;
     healthy := String.eqb (status e) "healthy" |}.

(** The typed registry a map of references stands for. *)
Fixpoint typedView (agents : JsMap positive) (h : gmap positive RegistryHeap.Obj)
  : AgentRegistry :=
  match agents with
  | [] => []
  | (k, r) :: rest =>
      match RegistryHeap.readEntry h r with
      | Some e => (k, e) :: typedView rest h
      | None => typedView rest h
      end
  end.

(** The entries behind an array of references. *)
Fixpoint derefAll (h : gmap positive RegistryHeap.Obj) (refs : list positive)
  : list AgentRegistryEntry :=
  match refs with
  | [] => []
  | r :: rest =>
      match RegistryHeap.readEntry h r with
      | Some e => e :: derefAll h rest
      | None => derefAll h rest
      end
  end.

End RegistryViews.

(** ** The classifier and the orchestrator at run time *)

Section RawNotions.
Import Js Router A2A Mcp Discovery RawRegistry RawRouter RawOrchestrator.
Variable JSON_parse : string -> Outcome JsVal.




(** Every entry is stored under its own [agentId], and no key occurs
    twice: what [this.agents.set(manifest.agentId, entry)] maintains. *)
Definition RawWellKeyed (registry : AgentMap) : Prop :=
  NoDup (mapKeys registry) /\
  Forall (fun kv => lookupProp (snd kv) "agentId" = JStr (fst kv)) registry.

(** The history stored for a session, empty when there is none. *)
Definition rawHistoryOf (st : State) (sid : string) : list Orchestrator.Turn :=
  match mapGet (conversations st) sid with
  | Some c => conversationHistory c
  | None => []
  end.


End RawNotions.

(** ** Concrete inputs *)

Section ConcreteInputs.
Import Js Registry Router A2A Mcp.

(** A registry entry with the given id, intent tags and health. *)
Definition sampleEntry (id : string) (tags : list string) (isHealthy : bool)
  : AgentRegistryEntry :=
  {| agentId := id;
     name := "Warehouse Location Agent";
     description := "Specialist agent for warehouse inventory location queries";
     version := "1.0.0";
     tools := [ mkTool "find_product_locations" "" tags (JObj []) ];
     capabilities := ["Natural language query processing"];
     expertise := ["Product location queries"];
     healthEndpoint := "/health";
     status := if isHealthy then "healthy" else "unhealthy";
     endpoint := None;
     lastHealthCheck := 0;
     discoveredAt := 0;
     healthy := isHealthy |}.

(** The location agent and the summarizer agent, both healthy. *)
Definition sampleRegistry : AgentRegistry :=
  [ ("location-agent-001",
     sampleEntry "location-agent-001" ["location"; "find"; "where"] true);
    ("summarizer-agent-001",
     sampleEntry "summarizer-agent-001" ["summary"; "findings"] true) ].

(** Numbers printed as integers. *)
Definition showInteger (z : Z) : string :=
  DecimalString.NilZero.string_of_int (Z.to_int z).

Definition sampleFormat : LocationAgent.NumberFormat :=
  {| LocationAgent.toStr := fun v =>
       match v with
       | JNum q => showInteger (Qnum q)
       | JStr s => s
       | _ => "undefined"
       end;
     LocationAgent.subToFixed2 := fun a b =>
       match a, b with
       | JNum x, JNum y => showInteger (Qnum x - Qnum y) +:+ ".00"
       | _, _ => "NaN"
       end |}.

Definition spaceResult : JsVal :=
  JObj [("summary", JObj [("overallUtilization", JNum 71);
                          ("totalCube", JNum 9000);
                          ("usedCube", JNum 6390)])].

Definition quantityResult : JsVal :=
  JObj [("summary", JObj [("totalProducts", JNum 1520); ("totalUnits", JNum 48211)])].

(** A result that has no [summary]. *)
Definition expirationResult : JsVal := JObj [("items", JArr [])].

(** A tool catalog in which the expiration check settles as given. *)
Definition sampleTools (expiration : Settled JsVal) : MCPServer :=
  [ ("analyze_space_utilization", fun _ => mkSettled 12 (Returned spaceResult));
    ("check_expiration_dates", fun _ => expiration);
    ("quantity_analysis", fun _ => mkSettled 9 (Returned quantityResult)) ].

(** Handlers that answer without a tool call, except the location
    handler, which looks a product up. *)
Definition quiet : LocationAgent.Script := LocationAgent.Finish "No data available.".

Definition lookupParams : JsVal :=
  JObj [("productNumber", JStr "1263755"); ("includeDetails", JBool true);
        ("limit", JNum 10)].

Definition sampleHandlers : LocationAgent.OtherHandlers :=
  {| LocationAgent.handleRankingQuery := fun _ => quiet;
     LocationAgent.handleComparisonQuery := fun _ => quiet;
     LocationAgent.handleCountQuery := fun _ => quiet;
     LocationAgent.handleLocationQuery := fun _ =>
       LocationAgent.Reason "📍 Executing location search"
         (LocationAgent.Await "find_product_locations" lookupParams
            (fun result =>
               LocationAgent.Record (mkToolCall "find_product_locations" lookupParams result)
                 (LocationAgent.Finish "❌ Product 1263755 not found in the warehouse.")));
     LocationAgent.handleAreaQuery := fun _ => quiet;
     LocationAgent.handleExplanationQuery := fun _ => quiet;
     LocationAgent.handleFlexibleQuery := fun _ => quiet |}.

Definition sampleAgentIO : LocationAgent.AgentIO :=
  {| LocationAgent.ioNow := 1700000000000; LocationAgent.ioFreshId := "msg_1700000000000_k3j9x2q1a" |}.

Definition sampleMessage (text : string) : A2AMessage :=
  {| msgId := "orch_1700000000000_a8f3k2m1z";
     msgSessionId := "demo_1";
     msgAgentId := "orchestrator";
     msgContent := text;
     msgTimestamp := 1700000000000;
     msgMetadata := None |}.

Definition runningAgent : LocationAgent.LocationAgentServer :=
  {| LocationAgent.conversations := [];
     LocationAgent.isRunning := true;
     LocationAgent.mcpReady := true |}.

Definition stoppedAgent : LocationAgent.LocationAgentServer :=
  {| LocationAgent.conversations := [];
     LocationAgent.isRunning := false;
     LocationAgent.mcpReady := true |}.

(** A parser that knows one answer of the service. *)
Definition sampleParse (text : string) : Outcome ParsedClassification :=
  if String.eqb text "low"
  then Returned {| parsedIntent := "space_analysis";
                   parsedConfidence := Some 30%Q;
                   parsedTargetAgent := Some "location-agent-001";
                   parsedParameters := JObj [];
                   parsedComplexity := simple;
                   parsedReasoning := ["space keywords"] |}
  else Thrown (JsError "Unexpected token in JSON").

Definition liveEnv : Env :=
  {| NODE_ENV := Some "production"; ANTHROPIC_API_KEY := Some "sk-live" |}.

Definition sampleIO (claude : Promise (list ContentBlock)) : Orchestrator.QueryIO :=
  {| Orchestrator.env := liveEnv;
     Orchestrator.claudePromise := claude;
     Orchestrator.startTime := 1700000000000;
     Orchestrator.now := 1700000000350;
     Orchestrator.endTime := 1700000000900;
     Orchestrator.messageId := "orch_1700000000000_a8f3k2m1z";
     Orchestrator.agentIO := sampleAgentIO |}.

Definition sampleTurn : Orchestrator.Turn :=
  Orchestrator.mkTurn Orchestrator.user "hello" 1699999999000 None.

(** A state whose session ["demo_1"] already holds 20 history entries. *)
Definition fullState : Orchestrator.State :=
  {| Orchestrator.conversations :=
       [ ("demo_1",
          {| Orchestrator.sessionId := "demo_1";
             Orchestrator.userId := None;
             Orchestrator.conversationHistory := repeat sampleTurn 20;
             Orchestrator.context := mkSessionContext None None None;
             Orchestrator.lastActivity := 1699999999000;
             Orchestrator.preferences := Orchestrator.mkPreferences "detailed" None |}) ];
     Orchestrator.agentRegistry := sampleRegistry;
     Orchestrator.locationAgent := runningAgent;
     Orchestrator.dispatched := [] |}.

(** The expiration check fails while the two other tools answer. *)
Definition failingTools : MCPServer :=
  sampleTools (mkSettled 5 (Thrown (JsError "database is locked"))).

(** The expiration check answers, with a result that has no summary. *)
Definition workingTools : MCPServer :=
  sampleTools (mkSettled 5 (Returned expirationResult)).

(** The service answers in 800 ms with the text [" low "]. *)
Definition lowConfidenceAnswer : Promise (list ContentBlock) :=
  mkPromise (Some 800%N) (Returned [mkBlock "text" " low "]).

(** A classification that targets the summarizer agent. *)
Definition summarizerClassification : QueryClassification :=
  {| intent := "comprehensive_summary";
     confidence := 90%Q;
     targetAgent := "summarizer-agent-001";
     parameters := JObj [];
     complexity := simple;
     reasoning := ["summary request"] |}.

(** A registry map with one key, and the store that holds its entry. *)
Definition oneAgent : JsMap positive := [("location-agent-001", 1%positive)].

Definition oneAgentStore : gmap positive RegistryHeap.Obj :=
  {[ 1%positive :=
       RegistryHeap.EntryObj
         (sampleEntry "location-agent-001" ["location"; "find"; "where"] true) ]}.

(** A manifest as [getManifest()] builds it. *)
Definition sampleManifest (id : string) : JsVal :=
  JObj [ ("agentId", JStr id);
         ("name", JStr "Warehouse Location Agent");
         ("description", JStr "Specialist agent");
         ("version", JStr "1.0.0");
         ("tools", JArr []);
         ("capabilities", JArr [JStr "Parallel tool execution"]);
         ("expertise", JArr [JStr "Product location queries"]);
         ("healthEndpoint", JStr "/health");
         ("status", JStr "healthy") ].

(** Three configured agents: the first has no instance and no endpoint,
    the second returns a manifest without [tools], the third is valid. *)
Definition sampleConfig : list Discovery.AgentConfig :=
  [ Discovery.mkAgentConfig "ghost-agent" None None;
    Discovery.mkAgentConfig "broken-agent" None
      (Some (Discovery.mkInstance (Returned (JObj [("agentId", JStr "broken-agent")]))));
    Discovery.mkAgentConfig "location-agent-001" None
      (Some (Discovery.mkInstance (Returned (sampleManifest "location-agent-001")))) ].

(** The orchestrator with an empty registry. *)
Definition emptyRegistryState : Orchestrator.State :=
  {| Orchestrator.conversations := Orchestrator.conversations fullState;
     Orchestrator.agentRegistry := [];
     Orchestrator.locationAgent := runningAgent;
     Orchestrator.dispatched := [] |}.

(** A request that names no session. *)
Definition summaryRequest : Orchestrator.QueryBody :=
  Orchestrator.mkBody (Some "Give me a warehouse summary") None None.

(** A local agent configured under one id whose manifest carries
    another. *)
Definition renamedAgentConfig : Discovery.AgentConfig :=
  Discovery.mkAgentConfig "warehouse-agent" None
    (Some (Discovery.mkInstance (Returned (sampleManifest "location-agent-001")))).

(** Two messages of the session ["demo_1"]. *)
Definition sampleInbox : list (LocationAgent.AgentIO * A2AMessage) :=
  [ (sampleAgentIO, sampleMessage "Where is product 1263755?");
    (sampleAgentIO, sampleMessage "Give me a warehouse summary") ].

(** The same text in the same session, sent with another id, by another
    sender, with a classification attached. *)
Definition classifiedMessage (text : string) : A2AMessage :=
  {| msgId := "orch_1700000000999_zz81k2m1q";
     msgSessionId := "demo_1";
     msgAgentId := "tester";
     msgContent := text;
     msgTimestamp := 1700000000999;
     msgMetadata := Some (mkMetadata summarizerClassification
                                     (mkSessionContext None None None)) |}.

(** The registry that discovery builds from [sampleConfig]: it holds the
    location agent. *)
Definition discoveredRegistry : RawRegistry.AgentMap :=
  RawRegistry.entriesOf
    (Discovery.start (fun _ => Thrown (JsError "fetch failed")) 1700000000000
                     sampleConfig []).

(** A manifest that passes [validateManifest] although its tool has no
    [intentTags]. *)
Definition untaggedManifest : JsVal :=
  JObj [ ("agentId", JStr "location-agent-001");
         ("name", JStr "Warehouse Location Agent");
         ("description", JStr "Specialist agent");
         ("version", JStr "1.0.0");
         ("tools", JArr [ JObj [ ("name", JStr "find_product_locations");
                                 ("description", JStr "Search for products") ] ]);
         ("capabilities", JArr [JStr "Parallel tool execution"]);
         ("expertise", JArr [JStr "Product location queries"]);
         ("healthEndpoint", JStr "/health");
         ("status", JStr "healthy") ].

(** The registry that discovery builds from a remote agent that serves
    [untaggedManifest]. *)
Definition untaggedRegistry : RawRegistry.AgentMap :=
  RawRegistry.entriesOf
    (Discovery.start (fun _ => Returned untaggedManifest) 1700000000000
                     [Discovery.mkAgentConfig "location-agent-001"
                                              (Some "http://localhost:3001") None]
                     []).

(** A parser that knows three answers of the service: one without
    [reasoning], one whose confidence is a word, and one whose intent is
    an object with a property [toString]. *)
Definition rawSampleParse (text : string) : Outcome JsVal :=
  if String.eqb text "no reasoning" then
    Returned (JObj [ ("intent", JStr "product_location_search");
                     ("confidence", JNum 90);
                     ("targetAgent", JStr "location-agent-001") ])
  else if String.eqb text "high" then
    Returned (JObj [ ("intent", JStr "product_location_search");
                     ("confidence", JStr "high");
                     ("targetAgent", JStr "location-agent-001");
                     ("reasoning", JArr [JStr "product number"]) ])
  else if String.eqb text "odd intent" then
    Returned (JObj [ ("intent", JObj [("toString", JNum 1)]);
                     ("confidence", JNum 90);
                     ("targetAgent", JStr "location-agent-001");
                     ("reasoning", JArr []) ])
  else Thrown (JsError "Unexpected token in JSON").

(** The characters of a text of the basic Latin alphabet. *)
Definition sampleCharacters (text : string) : list string :=
  map (fun c => String c EmptyString) (list_ascii_of_string text).

(** The service answers every request in 800 ms with the given text. *)
Definition answering (text : string) : RawRouter.Claude :=
  fun _ _ => mkPromise (Some 800%N) (Returned [mkBlock "text" text]).

Definition rawSampleIO (claude : RawRouter.Claude) : RawOrchestrator.QueryIO :=
  {| RawOrchestrator.env := liveEnv;
     RawOrchestrator.claude := claude;
     RawOrchestrator.startTime := 1700000000000;
     RawOrchestrator.createdTime := 1700000000001;
     RawOrchestrator.sentTime := 1700000000850;
     RawOrchestrator.turnTime := 1700000000870;
     RawOrchestrator.activityTime := 1700000000871;
     RawOrchestrator.endTime := 1700000000900;
     RawOrchestrator.messageId := "orch_1700000000000_a8f3k2m1z";
     RawOrchestrator.agentIO := sampleAgentIO |}.

(** The orchestrator with the discovered registry, the location agent
    running and no conversation yet. *)
Definition freshState : RawOrchestrator.State :=
  {| RawOrchestrator.conversations := [];
     RawOrchestrator.agentRegistry := discoveredRegistry;
     RawOrchestrator.locationAgent := runningAgent;
     RawOrchestrator.dispatched := [] |}.

End ConcreteInputs.

(** * Properties *)


(** ** Strings *)

#[local] Arguments String.append !s1 s2 / : simpl nomatch.

Section StringFacts.
Import Js.

Lemma append_assoc (a b c : string) : (a +:+ b) +:+ c = a +:+ b +:+ c.
Proof. induction a as [|x a IH]; simpl; [reflexivity | now f_equal]. Qed.

Lemma startsWith_spec (s p : string) :
  startsWith s p = true <-> exists post, s = p +:+ post.
Proof.
  revert s. induction p as [|a p IH]; intros s; simpl.
  - split; [intros _; now exists s | reflexivity].
  - destruct s as [|b s]; simpl.
    + split; [discriminate | intros [post H]; discriminate].
    + rewrite andb_true_iff, Ascii.eqb_eq, IH. split.
      * intros [-> [post ->]]. now exists post.
      * intros [post H]. injection H as -> ->. split; [reflexivity | now exists post].
Qed.

Lemma includes_spec (s sub : string) :
  includes s sub = true <-> Contains s sub.
Proof.
  unfold Contains. induction s as [|c s IH]; simpl.
  - rewrite orb_false_r, startsWith_spec. split.
    + intros [post H]. now exists EmptyString, post.
    + intros [pre [post H]]. destruct pre; [now exists post | discriminate].
  - rewrite orb_true_iff, startsWith_spec, IH. split.
    + intros [[post H] | [pre [post H]]].
      * now exists EmptyString, post.
      * exists (String c pre), post. simpl. now rewrite H.
    + intros [pre [post H]]. destruct pre as [|d pre]; simpl in H.
      * left. now exists post.
      * right. injection H as -> ->. now exists pre, post.
Qed.

Lemma isDigit_isWordChar (c : ascii) : isDigit c = true -> isWordChar c = true.
Proof. unfold isWordChar. intros ->. now rewrite orb_true_r. Qed.

Lemma leadingDigits_split (s : string) :
  exists ds, s = ds +:+ dropChars (leadingDigits s) s /\
             allDigits ds = true /\ String.length ds = leadingDigits s.
Proof.
  induction s as [|c s [ds [H1 [H2 H3]]]]; simpl.
  - now exists EmptyString.
  - destruct (isDigit c) eqn:Hc; simpl.
    + exists (String c ds). simpl. rewrite Hc, H2, H3. now rewrite <- H1.
    + now exists EmptyString.
Qed.

Lemma leadingDigits_app (ds post : string) :
  allDigits ds = true -> boundaryAfterWord post = true ->
  leadingDigits (ds +:+ post) = String.length ds /\
  dropChars (String.length ds) (ds +:+ post) = post.
Proof.
  intros Hds Hpost. induction ds as [|c ds IH]; simpl in *.
  - destruct post as [|d post]; simpl in *; [now split|].
    destruct (isDigit d) eqn:Hd; [|now split].
    apply isDigit_isWordChar in Hd. rewrite Hd in Hpost. discriminate.
  - apply andb_true_iff in Hds as [-> Hds]. destruct (IH Hds) as [-> ->]. now split.
Qed.

Lemma searchFrom_spec (s : string) (prevIsWord : bool) :
  searchFrom prevIsWord s = true <->
  exists pre ds post,
    s = pre +:+ ds +:+ post /\
    allDigits ds = true /\ 6 <= String.length ds /\
    (if String.eqb pre "" then prevIsWord else endsWithWordChar pre) = false /\
    boundaryAfterWord post = true.
Proof.
  revert prevIsWord. induction s as [|c s IH]; intros b; simpl.
  - split; [discriminate|].
    intros [pre [ds [post [H [_ [Hlen _]]]]]].
    destruct pre; [|discriminate]. destruct ds; [simpl in Hlen; lia | discriminate].
  - rewrite orb_true_iff, andb_true_iff, negb_true_iff, IH. split.
    + intros [[Hb Hm] | [pre [ds [post [H [Hds [Hlen [Hpre Hpost]]]]]]]].
      * unfold matchDigitsHere in Hm. apply andb_true_iff in Hm as [Hn Hpost].
        apply Nat.leb_le in Hn.
        destruct (leadingDigits_split (String c s)) as [ds [H1 [H2 H3]]].
        exists EmptyString, ds, (dropChars (leadingDigits (String c s)) (String c s)).
        simpl String.eqb. repeat split; try assumption. lia.
      * exists (String c pre), ds, post. simpl. rewrite H.
        repeat split; try assumption.
        destruct pre as [|d pre]; simpl in *; assumption.
    + intros [pre [ds [post [H [Hds [Hlen [Hpre Hpost]]]]]]].
      destruct pre as [|d pre]; simpl in H, Hpre.
      * left. split; [assumption|]. unfold matchDigitsHere. rewrite H.
        destruct (leadingDigits_app ds post Hds Hpost) as [-> ->].
        rewrite Hpost, andb_true_r. now apply Nat.leb_le.
      * right. injection H as -> ->. exists pre, ds, post.
        repeat split; try assumption.
        destruct pre as [|e pre]; simpl in *; assumption.
Qed.

Lemma testProductNumber_spec (s : string) :
  testProductNumber s = true <-> ProductNumberIn s.
Proof.
  unfold testProductNumber, ProductNumberIn. rewrite searchFrom_spec.
  split; intros [pre [ds [post [H [Hds [Hlen [Hpre Hpost]]]]]]];
    exists pre, ds, post; repeat split; try assumption;
    destruct pre; simpl in *; try reflexivity; assumption.
Qed.

End StringFacts.

(** ** The rule-based fallback classifier *)

Section FallbackFacts.
Import Js Registry Router.

Lemma firstRule_hit (cond : Prop) (label : string) rest dflt :
  cond -> firstRule ((cond, label) :: rest) dflt label.
Proof. intros H. split; [reflexivity | intros Hn; destruct (Hn H)]. Qed.

Lemma firstRule_miss (cond : Prop) (label : string) rest dflt out :
  ~ cond -> firstRule rest dflt out -> firstRule ((cond, label) :: rest) dflt out.
Proof. intros Hn H. split; [intros Hc; destruct (Hn Hc) | intros _; exact H]. Qed.

Lemma includes_or_spec (s a b : string) :
  includes s a || includes s b = true <-> Contains s a \/ Contains s b.
Proof. now rewrite orb_true_iff, !includes_spec. Qed.

Lemma firstRule_step (b : bool) (cond : Prop) (label : string) rest dflt out :
  (b = true <-> cond) -> firstRule rest dflt out ->
  firstRule ((cond, label) :: rest) dflt (if b then label else out).
Proof.
  intros Hb Hrest. destruct b.
  - apply firstRule_hit. now apply Hb.
  - apply firstRule_miss; [|exact Hrest]. intros Hc. apply Hb in Hc. discriminate.
Qed.

Lemma fallbackIntent_rules (lower : string) :
  firstRule (intentRules lower) "general_warehouse_query" (fallbackIntent lower).
Proof.
  unfold fallbackIntent, intentRules.
  apply firstRule_step.
  { now rewrite orb_true_iff, includes_spec, testProductNumber_spec. }
  do 3 (apply firstRule_step; [apply includes_or_spec|]).
  do 2 (apply firstRule_step; [apply includes_spec|]).
  reflexivity.
Qed.

(** The first healthy entry of a list of entries. *)
Lemma filter_healthy_first (l pre post : list AgentRegistryEntry) a :
  l = pre ++ a :: post ->
  (forall x, In x pre -> healthy x = false) -> healthy a = true ->
  List.filter (fun agent => healthy agent) l =
  a :: List.filter (fun agent => healthy agent) post.
Proof.
  intros -> Hpre Ha. induction pre as [|p pre IH]; simpl.
  - now rewrite Ha.
  - rewrite (Hpre p (or_introl eq_refl)). apply IH.
    intros x Hx. apply Hpre. now right.
Qed.

Lemma filter_healthy_none (l : list AgentRegistryEntry) :
  (forall x, In x l -> healthy x = false) ->
  List.filter (fun agent => healthy agent) l = [].
Proof.
  induction l as [|p l IH]; simpl; intros H; [reflexivity|].
  rewrite (H p (or_introl eq_refl)). apply IH. intros x Hx. apply H. now right.
Qed.

(** C2, as the code has it.  [fallbackClassification] lower-cases the query
    and applies the ordered rules of [intentRules], where the digit rule
    is an occurrence of the pattern with word boundaries
    ([ProductNumberIn]: six or more digits with no word character next to
    them); the confidence is 50; the target is the id of the first healthy
    entry in registry order, and ["location-agent-001"] when no entry is
    healthy; the complexity is [complex] exactly when the query itself
    contains [" and "] or [" then "], and [simple] otherwise. *)
Theorem fallbackClassification_rules (query : string) (registry : AgentRegistry) :
  let c := fallbackClassification query registry in
  firstRule (intentRules (toLowerCase query)) "general_warehouse_query" (intent c) /\
  confidence c = 50%Q /\
  (forall pre a post,
      getAllAgents registry = pre ++ a :: post ->
      (forall x, In x pre -> healthy x = false) -> healthy a = true ->
      targetAgent c = agentId a) /\
  ((forall x, In x (getAllAgents registry) -> healthy x = false) ->
      targetAgent c = "location-agent-001") /\
  (complexity c = complex <-> Contains query " and " \/ Contains query " then ") /\
  (complexity c = simple <-> ~ (Contains query " and " \/ Contains query " then ")).
Proof.
  simpl. split; [apply fallbackIntent_rules|]. split; [reflexivity|].
  split; [|split].
  - intros pre a post Hl Hpre Ha. unfold getHealthyAgents.
    now rewrite (filter_healthy_first _ _ _ _ Hl Hpre Ha).
  - intros Hnone. unfold getHealthyAgents. now rewrite (filter_healthy_none _ Hnone).
  - rewrite <- includes_or_spec.
    destruct (includes query " and " || includes query " then ");
      (split; split; intros H; try reflexivity; try discriminate; try congruence).
Qed.

(** C2 as stated fails: a query with a run of seven digits that directly
    follows letters is not classified as a product location search, and
    with no healthy agent in the registry the target is the default id. *)
Lemma fallback_digit_run_counterexample :
  DigitRunIn 6 (toLowerCase "sku1234567") /\
  intent (fallbackClassification "sku1234567" []) <> "product_location_search" /\
  getHealthyAgents [] = [] /\
  targetAgent (fallbackClassification "sku1234567" []) = "location-agent-001".
Proof.
  split; [|split; [|split]].
  - exists "sku", "1234567", "". repeat split. simpl. lia.
  - vm_compute. discriminate.
  - reflexivity.
  - reflexivity.
Qed.

End FallbackFacts.

(** ** Stable sorting by a descending integer key *)

Section SortFacts.
Context {A : Type} (key : A -> Z).

Lemma sortInsert_perm (x : A) (l : list A) :
  Permutation (Js.sortInsert (descending key) x l) (x :: l).
Proof.
  induction l as [|y l IH]; simpl; [reflexivity|].
  destruct (descending key x y <=? 0)%Z; [reflexivity|].
  rewrite IH. apply perm_swap.
Qed.

Lemma sort_perm (l : list A) : Permutation (Js.sort (descending key) l) l.
Proof.
  induction l as [|x l IH]; simpl; [reflexivity|].
  rewrite sortInsert_perm. now apply perm_skip.
Qed.

Lemma sortInsert_sorted (x : A) (l : list A) :
  Descending key l -> Descending key (Js.sortInsert (descending key) x l).
Proof.
  unfold Descending. induction l as [|y l IH]; simpl; intros Hl.
  - constructor; constructor.
  - apply StronglySorted_inv in Hl as [Hl Hy].
    destruct (descending key x y <=? 0)%Z eqn:E.
    + apply Z.leb_le in E. unfold descending in E.
      constructor; [constructor; assumption|].
      constructor; [lia|]. rewrite List.Forall_forall in Hy |- *.
      intros z Hz. specialize (Hy z Hz). lia.
    + apply Z.leb_gt in E. unfold descending in E.
      constructor; [now apply IH|].
      rewrite List.Forall_forall in Hy |- *. intros z Hz.
      apply (Permutation_in _ (sortInsert_perm x l)) in Hz as [<- | Hz];
        [lia | now apply Hy].
Qed.

Lemma sort_sorted (l : list A) : Descending key (Js.sort (descending key) l).
Proof.
  induction l as [|x l IH]; simpl; [constructor | now apply sortInsert_sorted].
Qed.

(** Inserting into a sorted list puts the new element in front of the
    elements that have its key. *)
Lemma sortInsert_stable (k : Z) (x : A) (l : list A) :
  Descending key l ->
  List.filter (keyIs key k) (Js.sortInsert (descending key) x l) =
  List.filter (keyIs key k) (x :: l).
Proof.
  unfold Descending, keyIs. induction l as [|y l IH]; intros Hl; [reflexivity|].
  apply StronglySorted_inv in Hl as [Hl Hy]. simpl.
  destruct (descending key x y <=? 0)%Z eqn:E; [reflexivity|].
  apply Z.leb_gt in E. unfold descending in E. simpl.
  rewrite (IH Hl). simpl.
  destruct (key x =? k)%Z eqn:Ex, (key y =? k)%Z eqn:Ey; try reflexivity.
  apply Z.eqb_eq in Ex, Ey. lia.
Qed.

(** The sort is stable: the elements of any one key keep their order. *)
Lemma sort_stable (k : Z) (l : list A) :
  List.filter (keyIs key k) (Js.sort (descending key) l) = List.filter (keyIs key k) l.
Proof.
  induction l as [|x l IH]; [reflexivity|]. simpl Js.sort.
  rewrite sortInsert_stable by apply sort_sorted.
  simpl. now rewrite IH.
Qed.

Lemma filter_keyIs_In (k : Z) (x : A) (l : list A) :
  In x (List.filter (keyIs key k) l) <-> In x l /\ key x = k.
Proof. unfold keyIs. now rewrite List.filter_In, Z.eqb_eq. Qed.

(** A descending list is determined by its elements of each key: two
    stable descending arrangements of the same input are equal, so the
    result of a stable sort does not depend on the algorithm. *)
Lemma stable_sorted_unique (l1 l2 : list A) :
  Descending key l1 -> Descending key l2 ->
  (forall k, List.filter (keyIs key k) l1 = List.filter (keyIs key k) l2) ->
  l1 = l2.
Proof.
  unfold Descending. revert l2. induction l1 as [|x l1 IH]; intros l2 H1 H2 Hk.
  - destruct l2 as [|y l2]; [reflexivity|].
    specialize (Hk (key y)). simpl in Hk. unfold keyIs in Hk.
    rewrite Z.eqb_refl in Hk. discriminate.
  - destruct l2 as [|y l2].
    + specialize (Hk (key x)). simpl in Hk. unfold keyIs in Hk.
      rewrite Z.eqb_refl in Hk. discriminate.
    + apply StronglySorted_inv in H1 as [H1 Hx].
      apply StronglySorted_inv in H2 as [H2 Hy].
      rewrite List.Forall_forall in Hx, Hy.
      assert (Hxy : key x = key y).
      { assert (Hx2 : In x (y :: l2)).
        { apply (filter_keyIs_In (key x)). rewrite <- Hk.
          apply filter_keyIs_In. split; [now left | reflexivity]. }
        assert (Hy1 : In y (x :: l1)).
        { apply (filter_keyIs_In (key y)). rewrite Hk.
          apply filter_keyIs_In. split; [now left | reflexivity]. }
        destruct Hx2 as [<- | Hx2]; [reflexivity|].
        destruct Hy1 as [<- | Hy1]; [reflexivity|].
        specialize (Hx y Hy1). specialize (Hy x Hx2). lia. }
      assert (x = y).
      { specialize (Hk (key x)). simpl in Hk. unfold keyIs in Hk.
        rewrite <- Hxy, Z.eqb_refl in Hk. now injection Hk. }
      subst y. f_equal. apply IH; try assumption.
      intros k. specialize (Hk k). simpl in Hk.
      destruct (keyIs key k x); [now injection Hk | exact Hk].
Qed.

End SortFacts.

(** ** Ranking agents by intent tags *)

Section IntentTagFacts.
Import Js Registry.

Lemma someTagMatches_spec (tags : list string) (x : string) :
  someTagMatches tags x = true <-> exists queryTag, In queryTag tags /\ FuzzyMatch queryTag x.
Proof.
  unfold someTagMatches, FuzzyMatch. rewrite existsb_exists.
  split; intros [q [Hq H]]; exists q; (split; [exact Hq|]).
  - now rewrite orb_true_iff, !includes_spec in H.
  - now rewrite orb_true_iff, !includes_spec.
Qed.

Lemma fold_addToolScore (tags : list string) (ts : list ToolDescriptor) (acc : Z) :
  fold_left (addToolScore tags) ts acc = (acc + 2 * toolTagMatches tags ts)%Z.
Proof.
  revert acc. induction ts as [|t ts IH]; intros acc; simpl; [lia|].
  rewrite IH. unfold addToolScore, matchCount. lia.
Qed.

Lemma scoreAgent_weighted (tags : list string) (a : AgentRegistryEntry) :
  scoreAgent tags a = weightedScore tags a.
Proof.
  unfold scoreAgent, weightedScore. rewrite fold_addToolScore.
  unfold matchCount. lia.
Qed.

Lemma collectScored_filter (tags : list string) (l : list AgentRegistryEntry) :
  collectScored tags l =
  map (scored tags) (List.filter (fun a => (0 <? weightedScore tags a)%Z) l).
Proof.
  induction l as [|a l IH]; simpl; [reflexivity|].
  rewrite scoreAgent_weighted, Z.gtb_ltb.
  destruct (0 <? weightedScore tags a)%Z; simpl; now rewrite IH.
Qed.

Lemma filter_score_collect (tags : list string) (k : Z) (l : list AgentRegistryEntry) :
  (0 < k)%Z ->
  List.filter (keyIs score k) (collectScored tags l) =
  List.filter (keyIs score k) (map (scored tags) l).
Proof.
  intros Hk. rewrite collectScored_filter.
  induction l as [|a l IH]; simpl; [reflexivity|].
  destruct (0 <? weightedScore tags a)%Z eqn:E; simpl; rewrite IH; [reflexivity|].
  unfold keyIs. simpl. apply Z.ltb_ge in E.
  destruct (weightedScore tags a =? k)%Z eqn:E'; [|reflexivity].
  apply Z.eqb_eq in E'. lia.
Qed.

(** C3.  Every element of the result of [findAgentsByIntentTags] is a
    healthy agent of the registry with its weighted score (2 per matching
    tool intent tag over all tools, 1 per matching capability, 1 per
    matching expertise label), which is strictly positive; the result is in
    descending order of score; and for every positive score the agents
    with that score are exactly the healthy agents with that score, in
    registry (discovery) order.  A label matches when it fuzzy-matches
    some query tag: case-insensitive containment in either direction. *)
Theorem findAgentsByIntentTags_ranked (reg : AgentRegistry) (tags : list string) :
  let results := findAgentsByIntentTags reg tags in
  (forall r, In r results ->
     In (agent r) (getAllAgents reg) /\ healthy (agent r) = true /\
     score r = weightedScore tags (agent r) /\ (0 < score r)%Z) /\
  Descending score results /\
  (forall k, (0 < k)%Z ->
     List.filter (keyIs score k) results =
     List.filter (keyIs score k) (map (scored tags) (getHealthyAgents reg))) /\
  (forall x, someTagMatches tags x = true <->
     exists queryTag, In queryTag tags /\ FuzzyMatch queryTag x).
Proof.
  unfold findAgentsByIntentTags. simpl.
  split; [|split; [|split; [|apply someTagMatches_spec]]].
  - intros r Hr.
    apply (Permutation_in _ (sort_perm score _)) in Hr.
    rewrite collectScored_filter in Hr. apply in_map_iff in Hr as [a [<- Ha]].
    apply List.filter_In in Ha as [Ha Hpos]. unfold getHealthyAgents in Ha.
    apply List.filter_In in Ha as [Ha Hh]. simpl.
    repeat split; try assumption. now apply Z.ltb_lt.
  - apply sort_sorted.
  - intros k Hk.
    change byScoreDesc with (descending score).
    rewrite sort_stable. now apply filter_score_collect.
Qed.

End IntentTagFacts.

(** ** The classifier with its fallback *)

Section ClassifierFacts.
Import Js Registry Router.
Variable JSON_parse : string -> Outcome ParsedClassification.




Lemma race_in_time {A} (p : Promise A) (t : N) :
  settlesAt p = Some t -> (t < CLAUDE_TIMEOUT_MS)%N ->
  raceWithTimeout p = (t, settlesWith p).
Proof.
  unfold raceWithTimeout. intros -> Ht. apply N.ltb_lt in Ht. now rewrite Ht.
Qed.

Lemma ltNum_lt (a b : Q) : ltNum a b = true <-> (a < b)%Q.
Proof.
  unfold ltNum. rewrite negb_true_iff. split.
  - intros H. apply Qnot_le_lt. intros Hle. apply Qle_bool_iff in Hle. congruence.
  - intros H. destruct (Qle_bool b a) eqn:E; [|reflexivity].
    apply Qle_bool_iff in E. now apply Qlt_not_le in H.
Qed.

Lemma ltNum_ge (a b : Q) : ltNum a b = false <-> (b <= a)%Q.
Proof.
  unfold ltNum. rewrite negb_false_iff. apply Qle_bool_iff.
Qed.

(** Whatever [validateResponse] returns is the fallback or an answer with
    confidence at least 40 for a healthy registered target. *)
Lemma validateResponse_returns query registry response c :
  validateResponse JSON_parse query registry response = Returned c ->
  IsFallback query registry c \/
  ((40 <= confidence c)%Q /\ resolvesHealthy registry (targetAgent c) = true).
Proof.
  unfold validateResponse, resolvesHealthy.
  destruct response as [|b rest]; [discriminate|].
  destruct (negb (String.eqb (blockType b) "text")); [discriminate|].
  destruct (JSON_parse (trim (blockText b))) as [p|e]; [|discriminate].
  destruct (parsedTargetAgent p) as [target|].
  2:{ intros [= <-]. left. right. now eexists. }
  destruct (getAgent registry target) as [a|] eqn:Ea.
  2:{ intros [= <-]. left. right. now eexists. }
  destruct (healthy a) eqn:Eh; simpl.
  2:{ intros [= <-]. left. right. now eexists. }
  destruct (ltNum _ 40) eqn:Ec.
  - intros [= <-]. left. right. now eexists.
  - intros [= <-]. right. simpl. rewrite Ea, Eh. apply ltNum_ge in Ec. now split.
Qed.

(** The classifier substitutes the fallback for an answer whose target is
    not a healthy registry entry or whose confidence is below 40. *)
Lemma classify_substitutes (env : Env) (query : string)
    (claude : Promise (list ContentBlock)) (registry : AgentRegistry)
    (p : ParsedClassification) :
  fallbackOnly env = false -> AnswersWith JSON_parse claude p ->
  (match parsedTargetAgent p with
   | Some target => resolvesHealthy registry target
   | None => false
   end = false ->
   classifyQueryLLM JSON_parse env query claude registry =
   Returned (pushReasoning (fallbackClassification query registry)
                           "Target agent unavailable, using fallback")) /\
  (match parsedTargetAgent p with
   | Some target => resolvesHealthy registry target
   | None => false
   end = true ->
   (effectiveConfidence p < 40)%Q ->
   classifyQueryLLM JSON_parse env query claude registry =
   Returned (pushReasoning (fallbackClassification query registry)
                           "Low confidence fallback")).
Proof.
  intros Henv [t [b [rest [Ht [Hlt [Hs [Hb Hp]]]]]]].
  unfold classifyQueryLLM, tryClassify. rewrite Henv, (race_in_time _ _ Ht Hlt), Hs.
  simpl. rewrite Hb. simpl. rewrite Hp.
  unfold resolvesHealthy, effectiveConfidence.
  destruct (parsedTargetAgent p) as [target|]; [|split; [reflexivity | discriminate]].
  destruct (getAgent registry target) as [a|]; [|split; [reflexivity | discriminate]].
  destruct (healthy a); simpl; split; try reflexivity; try discriminate.
  intros _ Hc. apply ltNum_lt in Hc. now rewrite Hc.
Qed.

(** What the classifier returns is the fallback, or an answer with
    confidence at least 40 whose target is a healthy registry entry. *)
Lemma classify_returns (env : Env) (query : string)
    (claude : Promise (list ContentBlock)) (registry : AgentRegistry) :
  exists c,
    classifyQueryLLM JSON_parse env query claude registry = Returned c /\
    (IsFallback query registry c \/
     ((40 <= confidence c)%Q /\ resolvesHealthy registry (targetAgent c) = true)).
Proof.
  unfold classifyQueryLLM.
  destruct (fallbackOnly env); [eexists; split; [reflexivity | now left; left]|].
  destruct (tryClassify JSON_parse query registry claude) as [c|e] eqn:E.
  - exists c. split; [reflexivity|]. unfold tryClassify in E.
    destruct (snd (raceWithTimeout claude)) as [response|]; [|discriminate].
    now apply validateResponse_returns in E.
  - eexists; split; [reflexivity | now left; left].
Qed.

End ClassifierFacts.

(** ** The classifier at run time *)

Section RawClassifierFacts.
Import Js Router Discovery RawRegistry RawRouter.
Variable fmt : LocationAgent.NumberFormat.
Variable characters : string -> list string.
Variable stringToNumber : string -> option Q.
Variable JSON_parse : string -> Outcome JsVal.












End RawClassifierFacts.

(** ** The insertion-ordered map *)

Section JsMapFacts.
Import Js.
Context {V : Type}.

Lemma mapGet_mapSet_eq (m : JsMap V) (k : string) (v : V) :
  mapGet (mapSet m k v) k = Some v.
Proof.
  induction m as [|[k' v'] m IH]; simpl.
  - now rewrite String.eqb_refl.
  - destruct (String.eqb k' k) eqn:E; simpl; rewrite E; [reflexivity | exact IH].
Qed.

Lemma mapGet_mapSet_ne (m : JsMap V) (k k' : string) (v : V) :
  k <> k' -> mapGet (mapSet m k v) k' = mapGet m k'.
Proof.
  intros Hne. induction m as [|[k0 v0] m IH]; simpl.
  - destruct (String.eqb k k') eqn:E; [apply String.eqb_eq in E; contradiction | reflexivity].
  - destruct (String.eqb k0 k) eqn:E; simpl.
    + apply String.eqb_eq in E. subst k0.
      destruct (String.eqb k k') eqn:E'; [apply String.eqb_eq in E'; contradiction | reflexivity].
    + destruct (String.eqb k0 k'); [reflexivity | exact IH].
Qed.

Lemma mapHas_mapSet (m : JsMap V) (k k' : string) (v : V) :
  mapHas (mapSet m k v) k' = true <-> k = k' \/ mapHas m k' = true.
Proof.
  unfold mapHas. destruct (String.eqb k k') eqn:E.
  - apply String.eqb_eq in E. subst k'. rewrite mapGet_mapSet_eq.
    split; [now left | reflexivity].
  - apply String.eqb_neq in E. rewrite (mapGet_mapSet_ne _ _ _ _ E).
    split; [now right | intros [H | H]; [contradiction | exact H]].
Qed.

(** Setting a key that is present keeps every key where it was. *)
Lemma mapKeys_mapSet_present (m : JsMap V) (k : string) (v : V) :
  mapHas m k = true -> mapKeys (mapSet m k v) = mapKeys m.
Proof.
  unfold mapHas, mapKeys. induction m as [|[k' v'] m IH]; simpl; [discriminate|].
  destruct (String.eqb k' k) eqn:E; simpl; [reflexivity|].
  intros H. now rewrite IH.
Qed.

(** Setting a new key appends it. *)
Lemma mapKeys_mapSet_new (m : JsMap V) (k : string) (v : V) :
  mapHas m k = false -> mapKeys (mapSet m k v) = mapKeys m ++ [k].
Proof.
  unfold mapHas, mapKeys. induction m as [|[k' v'] m IH]; simpl; [reflexivity|].
  destruct (String.eqb k' k) eqn:E; simpl; [discriminate|].
  intros H. now rewrite IH.
Qed.

Lemma mapHas_In (m : JsMap V) (k : string) :
  mapHas m k = true <-> In k (mapKeys m).
Proof.
  unfold mapHas, mapKeys. induction m as [|[k' v] m IH]; simpl.
  - split; [discriminate | contradiction].
  - destruct (String.eqb k' k) eqn:E.
    + apply String.eqb_eq in E. split; [now left | reflexivity].
    + apply String.eqb_neq in E. rewrite IH. split; [now right | intros [H | H]; [contradiction | exact H]].
Qed.

Lemma NoDup_mapKeys_mapSet (m : JsMap V) (k : string) (v : V) :
  NoDup (mapKeys m) -> NoDup (mapKeys (mapSet m k v)).
Proof.
  intros Hnd. destruct (mapHas m k) eqn:E.
  - now rewrite (mapKeys_mapSet_present _ _ _ E).
  - rewrite (mapKeys_mapSet_new _ _ _ E).
    apply NoDup_app. split; [exact Hnd|]. split; [|apply NoDup_singleton].
    intros x Hx Hk. apply list_elem_of_In in Hx, Hk. destruct Hk as [<- | []].
    apply mapHas_In in Hx. congruence.
Qed.

End JsMapFacts.

(** ** Routing and conversation history in the orchestrator *)

Section OrchestratorFacts.
Import Js Registry Router A2A Mcp Orchestrator.
Variable JSON_parse : string -> Outcome ParsedClassification.
Variable fmt : LocationAgent.NumberFormat.
Variable mcpServer : MCPServer.
Variable handlers : LocationAgent.OtherHandlers.

Lemma routeToAgent_refuses io st query cls ctx :
  resolvesHealthy (agentRegistry st) (targetAgent cls) = false ->
  exists msg,
    routeToAgent fmt mcpServer handlers io st query cls ctx = (st, Thrown (JsError msg)) /\
    RoutingError (targetAgent cls) msg.
Proof.
  unfold resolvesHealthy, routeToAgent, RoutingError.
  destruct (getAgent (agentRegistry st) (targetAgent cls)) as [a|].
  - intros ->. simpl. eexists. split; [reflexivity | now right].
  - intros _. eexists. split; [reflexivity | now left].
Qed.

(** What a call of [routeToAgent] leaves: the registry and the
    conversations are untouched, and at most one message is dispatched,
    to a healthy registered target, which is ["location-agent-001"]. *)
Lemma routeToAgent_effect io st query cls ctx :
  let st' := fst (routeToAgent fmt mcpServer handlers io st query cls ctx) in
  agentRegistry st' = agentRegistry st /\
  conversations st' = conversations st /\
  (dispatched st' = dispatched st \/
   exists message,
     dispatched st' = dispatched st ++ [(targetAgent cls, message)] /\
     msgContent message = query /\
     targetAgent cls = "location-agent-001" /\
     resolvesHealthy (agentRegistry st) (targetAgent cls) = true).
Proof.
  unfold routeToAgent, resolvesHealthy.
  destruct (getAgent (agentRegistry st) (targetAgent cls)) as [a|]; simpl; [|auto].
  destruct (healthy a) eqn:Eh; simpl; [|auto].
  destruct (String.eqb (targetAgent cls) "location-agent-001") eqn:Et; simpl; [|auto].
  destruct (LocationAgent.processMessage _ _ _ _ _ _) as [agent' r]. simpl.
  split; [reflexivity|]. split; [reflexivity|]. right.
  eexists. split; [reflexivity|]. split; [reflexivity|].
  apply String.eqb_eq in Et. now split.
Qed.

Lemma sliceLast_length {A} (n : nat) (l : list A) :
  length (sliceLast n l) = Nat.min n (length l).
Proof. unfold sliceLast. rewrite length_skipn. lia. Qed.

Lemma sliceLast_suffix {A} (n : nat) (l : list A) :
  l = firstn (length l - n) l ++ sliceLast n l.
Proof. unfold sliceLast. symmetry. apply firstn_skipn. Qed.

Lemma getOrCreateContext_spec io (convs : JsMap ConversationContext) sid uid :
  let r := getOrCreateContext io convs sid uid in
  mapGet (fst r) sid = Some (snd r) /\
  conversationHistory (snd r) =
    match mapGet convs sid with Some c => conversationHistory c | None => [] end /\
  (forall s, s <> sid -> mapGet (fst r) s = mapGet convs s).
Proof.
  unfold getOrCreateContext. destruct (mapGet convs sid) as [c|] eqn:E; simpl.
  - auto.
  - split; [apply mapGet_mapSet_eq|]. split; [reflexivity|].
    intros s Hs. apply mapGet_mapSet_ne. congruence.
Qed.

Lemma updateConversationContext_history io ctx query resp cls :
  length (conversationHistory (updateConversationContext io ctx query resp cls)) =
    Nat.min 20 (length (conversationHistory ctx) + 2) /\
  exists dropped,
    conversationHistory ctx ++
    [ mkTurn user query (now io) None;
      mkTurn agentRole (respContent resp) (respTimestamp resp) (Some (respAgentId resp)) ] =
    dropped ++ conversationHistory (updateConversationContext io ctx query resp cls).
Proof.
  unfold updateConversationContext. cbn [conversationHistory].
  match goal with |- context [if ?b then _ else _] => destruct b eqn:E end.
  - rewrite sliceLast_length, length_app. split; [reflexivity|].
    eexists. apply sliceLast_suffix.
  - apply Nat.ltb_ge in E. rewrite length_app in *. cbn [length] in *.
    split; [lia|]. now exists [].
Qed.

(** C9.  If every stored conversation has at most 20 history entries,
    then so has every stored conversation after [processQuery], however
    the call ends; and when the call returns, the history of its session
    consists of the most recent entries, at most 20, of the former history
    followed by the user turn and the agent turn of this exchange. *)
Theorem history_window_preserved (io : QueryIO) (st : State) (query sid : string)
    (uid : option string) :
  HistoryBounded st ->
  let out := processQuery JSON_parse fmt mcpServer handlers io st query sid uid in
  HistoryBounded (fst out) /\
  (forall result, snd out = Returned result ->
     exists userTurn agentTurn dropped,
       role userTurn = user /\ content userTurn = query /\
       role agentTurn = agentRole /\ content agentTurn = response result /\
       historyOf st sid ++ [userTurn; agentTurn] = dropped ++ historyOf (fst out) sid /\
       length (historyOf (fst out) sid) =
         Nat.min 20 (length (historyOf st sid) + 2)).
Proof.
  intros Hinv. unfold processQuery.
  pose proof (getOrCreateContext_spec io (conversations st) sid uid) as Hg.
  destruct (getOrCreateContext io (conversations st) sid uid) as [convs ctx].
  simpl in Hg. destruct Hg as [Hsid [Hhist Hother]].
  assert (Hctx : length (conversationHistory ctx) <= 20).
  { rewrite Hhist. destruct (mapGet (conversations st) sid) as [c|] eqn:E;
      [now apply (Hinv sid) | simpl; lia]. }
  assert (Hinv1 : forall s c, mapGet convs s = Some c ->
                              length (conversationHistory c) <= 20).
  { intros s c Hs. destruct (String.eqb s sid) eqn:E.
    - apply String.eqb_eq in E. subst s. rewrite Hsid in Hs. now injection Hs as <-.
    - apply String.eqb_neq in E. rewrite (Hother s E) in Hs. now apply (Hinv s). }
  destruct (classifyQuery _ _ _ _) as [cls|e]; [|split; [exact Hinv1 | discriminate]].
  match goal with |- context [routeToAgent ?f ?m ?h ?i ?s ?q ?c ?x] =>
    pose proof (routeToAgent_effect i s q c x) as Hr;
    destruct (routeToAgent f m h i s q c x) as [st2 [resp|e]] end;
    simpl in Hr; destruct Hr as [_ [Hconv _]].
  2:{ cbn [fst snd]. split; [|discriminate]. unfold HistoryBounded.
      rewrite Hconv. exact Hinv1. }
  destruct (updateConversationContext_history io ctx query resp cls)
    as [Hlen [dropped Hdrop]].
  cbn [fst snd]. split.
  - intros s c Hs. cbn [conversations] in Hs. rewrite Hconv in Hs.
    destruct (String.eqb sid s) eqn:E.
    + apply String.eqb_eq in E. subst s. rewrite mapGet_mapSet_eq in Hs.
      injection Hs as <-. rewrite Hlen. lia.
    + apply String.eqb_neq in E. rewrite (mapGet_mapSet_ne _ _ _ _ E) in Hs.
      now apply (Hinv1 s).
  - intros result [= <-]. cbn [response].
    exists (mkTurn user query (now io) None),
           (mkTurn agentRole (respContent resp) (respTimestamp resp)
                   (Some (respAgentId resp))), dropped.
    assert (Hold : historyOf st sid = conversationHistory ctx)
      by (unfold historyOf; now rewrite Hhist).
    assert (Hnew : forall c, historyOf
               {| conversations := mapSet (conversations st2) sid c;
                  agentRegistry := agentRegistry st2;
                  locationAgent := locationAgent st2;
                  dispatched := dispatched st2 |} sid = conversationHistory c)
      by (intros c; unfold historyOf; cbn [conversations];
          now rewrite mapGet_mapSet_eq).
    rewrite Hnew, Hold. repeat split; try reflexivity; assumption.
Qed.

(** The messages a call of [processQuery] dispatches. *)
Lemma processQuery_dispatch io st query sid uid :
  let st' := fst (processQuery JSON_parse fmt mcpServer handlers io st query sid uid) in
  agentRegistry st' = agentRegistry st /\
  exists sent,
    dispatched st' = dispatched st ++ sent /\
    length sent <= 1 /\
    forall target message, In (target, message) sent ->
      msgContent message = query /\
      target = "location-agent-001" /\
      resolvesHealthy (agentRegistry st) target = true.
Proof.
  unfold processQuery.
  destruct (getOrCreateContext io (conversations st) sid uid) as [convs ctx].
  assert (Hnil : exists sent : list (string * A2AMessage),
             dispatched st = dispatched st ++ sent /\ length sent <= 1 /\
             forall target message, In (target, message) sent ->
               msgContent message = query /\ target = "location-agent-001" /\
               resolvesHealthy (agentRegistry st) target = true).
  { exists []. rewrite app_nil_r. repeat split; simpl; try lia; contradiction. }
  destruct (classifyQuery _ _ _ _) as [cls|e]; [|now split].
  match goal with |- context [routeToAgent ?f ?m ?h ?i ?s ?q ?c ?x] =>
    pose proof (routeToAgent_effect i s q c x) as Hr;
    destruct (routeToAgent f m h i s q c x) as [st2 r] end.
  cbn [fst agentRegistry conversations dispatched] in Hr.
  destruct Hr as [Hreg [_ Hd]].
  assert (Hsent : exists sent : list (string * A2AMessage),
             dispatched st2 = dispatched st ++ sent /\ length sent <= 1 /\
             forall target message, In (target, message) sent ->
               msgContent message = query /\ target = "location-agent-001" /\
               resolvesHealthy (agentRegistry st) target = true).
  { destruct Hd as [-> | [message [-> [Hq [Ht Hh]]]]]; [exact Hnil|].
    exists [(targetAgent cls, message)]. split; [reflexivity|].
    split; [simpl; lia|]. intros target m [[= <- <-] | []]. now repeat split. }
  destruct r as [resp|e]; cbn [fst agentRegistry dispatched]; now split.
Qed.

(** C1.  An answer of the service whose target is not a healthy registry
    entry, or whose confidence is below 40, is replaced by the fallback
    classification (with a reasoning note) before routing; whatever the
    classifier hands to routing is the fallback or has confidence at least
    40 and a healthy registered target; [routeToAgent] throws a routing
    error, without dispatching, for a target that is unknown or unhealthy;
    and every message [processQuery] dispatches goes to a healthy
    registry entry. *)
Theorem dead_or_unsure_target_never_dispatched (io : QueryIO) (st : State)
    (query sid : string) (uid : option string) :
  (forall p,
      fallbackOnly (env io) = false -> AnswersWith JSON_parse (claudePromise io) p ->
      (effectiveConfidence p < 40)%Q \/
      match parsedTargetAgent p with
      | Some target => resolvesHealthy (agentRegistry st) target
      | None => false
      end = false ->
      exists note,
        classifyQuery JSON_parse io st query =
        Returned (pushReasoning (fallbackClassification query (agentRegistry st)) note)) /\
  (exists cls,
      classifyQuery JSON_parse io st query = Returned cls /\
      (IsFallback query (agentRegistry st) cls \/
       ((40 <= confidence cls)%Q /\
        resolvesHealthy (agentRegistry st) (targetAgent cls) = true))) /\
  (forall cls ctx,
      resolvesHealthy (agentRegistry st) (targetAgent cls) = false ->
      exists msg,
        routeToAgent fmt mcpServer handlers io st query cls ctx =
        (st, Thrown (JsError msg)) /\
        RoutingError (targetAgent cls) msg) /\
  (exists sent,
      dispatched (fst (processQuery JSON_parse fmt mcpServer handlers io st query sid uid)) =
      dispatched st ++ sent /\
      forall target message, In (target, message) sent ->
        resolvesHealthy (agentRegistry st) target = true).
Proof.
  split; [|split; [|split]].
  - intros p Henv Hans Hbad. unfold classifyQuery.
    destruct (classify_substitutes JSON_parse (env io) query (claudePromise io)
                (agentRegistry st) p Henv Hans) as [Hdead Hlow].
    destruct (match parsedTargetAgent p with
              | Some target => resolvesHealthy (agentRegistry st) target
              | None => false
              end) eqn:E.
    + destruct Hbad as [Hc | Hc]; [|discriminate].
      eexists. now apply Hlow.
    + eexists. now apply Hdead.
  - apply classify_returns.
  - intros cls ctx. apply routeToAgent_refuses.
  - destruct (processQuery_dispatch io st query sid uid) as [_ [sent [Hs [_ Hall]]]].
    exists sent. split; [exact Hs|]. intros target message Hin.
    now destruct (Hall target message Hin) as [_ [_ H]].
Qed.

(** C10.  For a classification whose target is a registered, healthy
    entry with an id other than ["location-agent-001"], [routeToAgent]
    throws "Agent routing not implemented for: <id>" and leaves the state
    as it was, dispatching nothing; and whenever a call dispatches a
    message, its target is ["location-agent-001"]. *)
Theorem routing_only_location_agent (io : QueryIO) (st : State) (query : string)
    (cls : QueryClassification) (ctx : ConversationContext) (a : AgentRegistryEntry) :
  getAgent (agentRegistry st) (targetAgent cls) = Some a ->
  healthy a = true ->
  targetAgent cls <> "location-agent-001" ->
  routeToAgent fmt mcpServer handlers io st query cls ctx =
    (st, Thrown (JsError ("Agent routing not implemented for: " +:+ targetAgent cls))) /\
  (forall cls',
      dispatched (fst (routeToAgent fmt mcpServer handlers io st query cls' ctx))
        <> dispatched st ->
      targetAgent cls' = "location-agent-001").
Proof.
  intros Ha Hh Hne. split.
  - unfold routeToAgent. rewrite Ha, Hh. simpl.
    apply String.eqb_neq in Hne. now rewrite Hne.
  - intros cls' Hd.
    destruct (routeToAgent_effect io st query cls' ctx) as [_ [_ [H | [m [_ [_ [H _]]]]]]];
      [contradiction | exact H].
Qed.

End OrchestratorFacts.

(** ** Joining promises *)

Section PromiseFacts.
Import Js.
Context {A : Type}.

Lemma firstRejection_none (ps : list (Settled A)) :
  firstRejection ps = None <-> forall p, In p ps -> exists a, settledWith p = Returned a.
Proof.
  induction ps as [|p ps IH]; simpl.
  - split; [intros _ p [] | reflexivity].
  - destruct (settledWith p) as [a|e] eqn:Ep.
    + rewrite IH. split.
      * intros H q [<- | Hq]; [now exists a | now apply H].
      * intros H q Hq. apply H. now right.
    + split.
      * destruct (firstRejection ps) as [[t e']|]; [destruct (_ <? _)%N|]; discriminate.
      * intros H. destruct (H p (or_introl eq_refl)) as [a Ha]. congruence.
Qed.

(** The rejection [Promise.all] reports is that of one of the promises,
    and no promise rejects earlier. *)
Lemma firstRejection_earliest (ps : list (Settled A)) (t : N) (e : JsThrown) :
  firstRejection ps = Some (t, e) ->
  (exists p, In p ps /\ settledWith p = Thrown e /\ settledAt p = t) /\
  (forall q e', In q ps -> settledWith q = Thrown e' -> (t <= settledAt q)%N).
Proof.
  revert t e. induction ps as [|p ps IH]; intros t e; simpl; [discriminate|].
  destruct (settledWith p) as [a|e0] eqn:Ep.
  - intros H. destruct (IH _ _ H) as [[p' [Hin [Hw Ht]]] Hmin]. split.
    + exists p'. auto.
    + intros q e' [<- | Hq] Hq'; [congruence | now apply (Hmin q e')].
  - destruct (firstRejection ps) as [[t' e']|] eqn:Er.
    + destruct (IH _ _ eq_refl) as [[p' [Hin [Hw Ht]]] Hmin].
      destruct (t' <? settledAt p)%N eqn:E; intros [= <- <-].
      * apply N.ltb_lt in E. split; [exists p'; auto|].
        intros q e1 [<- | Hq] Hq'; [lia | now apply (Hmin q e1)].
      * apply N.ltb_ge in E. split; [exists p; auto|].
        intros q e1 [<- | Hq] Hq'; [lia|]. specialize (Hmin q e1 Hq Hq'). lia.
    + intros [= <- <-]. split; [exists p; auto|].
      intros q e1 [<- | Hq] Hq'; [lia|].
      destruct (proj1 (firstRejection_none ps) Er q Hq) as [a Ha]. congruence.
Qed.

(** [Promise.all] is all or nothing: it rejects as soon as one promise
    rejects. *)
Lemma promiseAll_rejects (ps : list (Settled A)) :
  (exists p e, In p ps /\ settledWith p = Thrown e) ->
  exists p e, In p ps /\ settledWith p = Thrown e /\ promiseAll ps = Thrown e.
Proof.
  intros [p [e [Hin He]]]. unfold promiseAll.
  destruct (firstRejection ps) as [[t e']|] eqn:E.
  - destruct (firstRejection_earliest _ _ _ E) as [[p' [Hin' [Hw _]]] _].
    now exists p', e'.
  - destruct (proj1 (firstRejection_none ps) E p Hin) as [a Ha]. congruence.
Qed.

Lemma promiseAll_three (p1 p2 p3 : Settled A) (r1 r2 r3 : A) :
  settledWith p1 = Returned r1 -> settledWith p2 = Returned r2 ->
  settledWith p3 = Returned r3 ->
  promiseAll [p1; p2; p3] = Returned [r1; r2; r3].
Proof. intros H1 H2 H3. unfold promiseAll. simpl. now rewrite H1, H2, H3. Qed.

End PromiseFacts.

(** ** The location agent: summary handler and failure handling *)

Section LocationAgentFacts.
Import Js A2A Mcp LocationAgent.
Variable fmt : NumberFormat.
Variable mcpServer : MCPServer.
Variable handlers : OtherHandlers.

Lemma append_empty_r (s : string) : s +:+ "" = s.
Proof. induction s as [|c s IH]; simpl; [reflexivity | now f_equal]. Qed.

Lemma plan_summary (query : string) :
  isSummaryQuery query = true ->
  planAndExecuteQuery fmt handlers query =
  Reason ("🧠 Planning approach for: " +:+ dq +:+ query +:+ dq)
         (handleSummaryQuery fmt query).
Proof.
  unfold isSummaryQuery, planAndExecuteQuery. cbv zeta.
  rewrite !andb_true_iff, !negb_true_iff. intros [[[[[H1 H2] H3] H4] H5] H6].
  now rewrite H1, H2, H3, H4, H5, H6.
Qed.

Lemma completion_finish (text : Outcome string) :
  completion (runScript mcpServer (finish text)) = text.
Proof. now destruct text. Qed.

Lemma handleSummaryQuery_rejected (query : string) :
  (exists p e, In p (summaryCalls mcpServer) /\ settledWith p = Thrown e) ->
  exists p e, In p (summaryCalls mcpServer) /\ settledWith p = Thrown e /\
    runScript mcpServer (handleSummaryQuery fmt query) =
    {| pushedReasoning := ["📋 Generating comprehensive warehouse summary"];
       pushedToolCalls := [];
       completion := Thrown e |}.
Proof.
  intros H. destruct (promiseAll_rejects (summaryCalls mcpServer) H) as [p [e [Hin [He Hall]]]].
  exists p, e. split; [exact Hin|]. split; [exact He|].
  unfold handleSummaryQuery. cbn [runScript map fst snd]. fold (summaryCalls mcpServer).
  now rewrite Hall.
Qed.

Lemma renderSummary_sections (r1 r2 r3 s1 s2 s3 : JsVal) :
  getProp r1 "summary" = Returned s1 ->
  getProp r2 "summary" = Returned s2 ->
  getProp r3 "summary" = Returned s3 ->
  renderSummary fmt r1 r2 r3 =
  Returned (summaryHeader +:+
            (if truthy s1 then spaceSection fmt s1 else "") +:+
            (if truthy s2 then expirationSection fmt s2 else "") +:+
            (if truthy s3 then inventorySection fmt s3 else "") +:+
            summaryInsights).
Proof.
  intros H1 H2 H3. unfold renderSummary, appendSection. rewrite H1. cbn [bind].
  rewrite H2. cbn [bind]. rewrite H3. cbn [bind]. f_equal.
  destruct (truthy s1), (truthy s2), (truthy s3);
    rewrite ?append_assoc; cbn [String.append]; rewrite ?append_assoc; reflexivity.
Qed.

(** A result that is [undefined] or [null] makes the synthesis throw. *)
Lemma renderSummary_throws (r1 r2 r3 : JsVal) :
  r1 = JUndefined \/ r1 = JNull ->
  exists e, renderSummary fmt r1 r2 r3 = Thrown e.
Proof. intros [-> | ->]; now eexists. Qed.

Lemma callsMade_finish (text : Outcome string) :
  callsMade mcpServer (finish text) = [].
Proof. now destruct text. Qed.

(** C5, as the code has it.  For a query that reaches the summary handler,
    the three tool calls are issued as one batch: all three are made,
    in the order space, expiration, quantity, whatever each of them does,
    also when the first one rejects.  They are joined by [Promise.all]: if
    any of them rejects, the whole batch fails with the rejection of one
    of them, no tool call is recorded and the response has status [error]
    with that message; if all three succeed, the three calls are recorded
    with their results and the response has a section for each result
    whose [summary] is truthy, a section being left out exactly when its
    result has no truthy [summary]. *)
Theorem summary_batch_all_or_nothing (io : AgentIO) (message : A2AMessage) :
  isSummaryQuery (msgContent message) = true ->
  let resp := processWarehouseQuery fmt mcpServer handlers io message in
  callsMade mcpServer (planAndExecuteQuery fmt handlers (msgContent message)) =
    [ ("analyze_space_utilization", spaceParams);
      ("check_expiration_dates", expirationParams);
      ("quantity_analysis", quantityParams) ] /\
  ((exists p e, In p (summaryCalls mcpServer) /\ settledWith p = Thrown e) ->
   exists p e,
     In p (summaryCalls mcpServer) /\ settledWith p = Thrown e /\
     respStatus resp = error /\
     respToolCalls resp = Some [] /\
     respContent resp =
       "I encountered an issue processing your warehouse query. " +:+
       messageOr e "Please try again.") /\
  (forall r1 r2 r3 s1 s2 s3,
     map settledWith (summaryCalls mcpServer) = [Returned r1; Returned r2; Returned r3] ->
     getProp r1 "summary" = Returned s1 ->
     getProp r2 "summary" = Returned s2 ->
     getProp r3 "summary" = Returned s3 ->
     respStatus resp = success /\
     respToolCalls resp =
       Some [ mkToolCall "analyze_space_utilization" spaceParams r1;
              mkToolCall "check_expiration_dates" expirationParams r2;
              mkToolCall "quantity_analysis" quantityParams r3 ] /\
     respContent resp =
       summaryHeader +:+
       (if truthy s1 then spaceSection fmt s1 else "") +:+
       (if truthy s2 then expirationSection fmt s2 else "") +:+
       (if truthy s3 then inventorySection fmt s3 else "") +:+
       summaryInsights).
Proof.
  intros Hq. cbv zeta. unfold processWarehouseQuery. rewrite (plan_summary _ Hq).
  split.
  { unfold handleSummaryQuery. cbn [callsMade].
    destruct (promiseAll _) as [results|e]; [|reflexivity].
    cbn [callsMade]. now rewrite callsMade_finish. }
  cbn [runScript]. split.
  - intros Hrej.
    destruct (handleSummaryQuery_rejected (msgContent message) Hrej)
      as [p [e [Hin [He Hrun]]]].
    exists p, e. rewrite Hrun. cbn. now repeat split.
  - intros r1 r2 r3 s1 s2 s3 Hall H1 H2 H3.
    unfold summaryCalls in Hall. injection Hall as E1 E2 E3.
    unfold handleSummaryQuery. cbn [runScript map fst snd].
    rewrite (promiseAll_three _ _ _ _ _ _ E1 E2 E3).
    cbn [nth runScript pushNote pushCall completion pushedToolCalls pushedReasoning].
    rewrite completion_finish.
    rewrite (renderSummary_sections r1 r2 r3 s1 s2 s3 H1 H2 H3).
    cbn [finish runScript pushedToolCalls respStatus respToolCalls respContent].
    now repeat split.
Qed.

(** A tool call that fails makes the handler throw: with the reason of
    one of the failed calls it made. *)
Lemma runScript_tool_failure (s : Script) (tool : string) (params : JsVal) (e : JsThrown) :
  Invokes mcpServer s tool params ->
  settledWith (callTool mcpServer tool params) = Thrown e ->
  exists tool' params' e',
    Invokes mcpServer s tool' params' /\
    settledWith (callTool mcpServer tool' params') = Thrown e' /\
    completion (runScript mcpServer s) = Thrown e'.
Proof.
  intros Hinv He. induction Hinv as
    [note next tool params Hn IH | call next tool params Hn IH | tool params next
    | tool0 params0 next result tool params Hr Hn IH
    | calls next tool params Hin
    | calls next results tool params Hall Hn IH].
  - destruct (IH He) as [t [p [e' [Hi [Ht Hc]]]]].
    exists t, p, e'. split; [now constructor|]. now split.
  - destruct (IH He) as [t [p [e' [Hi [Ht Hc]]]]].
    exists t, p, e'. split; [now constructor|]. now split.
  - exists tool, params, e. split; [constructor|]. split; [exact He|].
    cbn [runScript]. now rewrite He.
  - destruct (IH He) as [t [p [e' [Hi [Ht Hc]]]]].
    exists t, p, e'. split; [now apply (invokes_after _ _ _ _ result)|].
    split; [exact Ht|]. cbn [runScript]. now rewrite Hr.
  - destruct (promiseAll_rejects
                (map (fun c => callTool mcpServer (fst c) (snd c)) calls))
      as [q [e' [Hq [Hqe Hall]]]].
    { exists (callTool mcpServer tool params), e. split; [|exact He].
      apply in_map_iff. now exists (tool, params). }
    apply in_map_iff in Hq as [[t p] [<- Hin']]. cbn [fst snd] in *.
    exists t, p, e'. split; [now apply invokes_batch|]. split; [exact Hqe|].
    cbn [runScript]. now rewrite Hall.
  - destruct (IH He) as [t [p [e' [Hi [Ht Hc]]]]].
    exists t, p, e'. split; [now apply (invokes_after_batch _ _ _ results)|].
    split; [exact Ht|]. cbn [runScript]. now rewrite Hall.
Qed.

(** C8, as the code has it.  While the agent is running, [processMessage]
    returns a structured response for every message: when the handler
    throws, the response has status [error], an explanatory message built
    from the fault, and a reasoning trail that ends with the error note;
    a failure of a tool call the handler makes is such a fault; and when
    the handler completes, the response has status [success] and the
    handler's text. *)
Theorem processMessage_structured (io : AgentIO) (agent : LocationAgentServer)
    (message : A2AMessage) :
  isRunning agent = true ->
  let body := planAndExecuteQuery fmt handlers (msgContent message) in
  let run := runScript mcpServer body in
  exists agent' resp,
    processMessage fmt mcpServer handlers io agent message = (agent', Returned resp) /\
    isRunning agent' = true /\
    respSessionId resp = msgSessionId message /\
    respAgentId resp = "location-agent-001" /\
    respToolCalls resp = Some (pushedToolCalls run) /\
    (forall e, completion run = Thrown e ->
       respStatus resp = error /\
       respContent resp =
         "I encountered an issue processing your warehouse query. " +:+
         messageOr e "Please try again." /\
       exists trail,
         respReasoning resp =
         Some (trail ++ ["❌ Error executing query: " +:+ messageOr e "Unknown error"])) /\
    (forall tool params e,
       Invokes mcpServer body tool params ->
       settledWith (callTool mcpServer tool params) = Thrown e ->
       respStatus resp = error) /\
    (forall text, completion run = Returned text ->
       respStatus resp = success /\ respContent resp = text).
Proof.
  intros Hrun. cbv zeta. unfold processMessage, handleMessage. rewrite Hrun.
  cbn [negb]. eexists. eexists. split; [reflexivity|].
  split; [reflexivity|]. unfold processWarehouseQuery.
  pose proof (runScript_tool_failure
                (planAndExecuteQuery fmt handlers (msgContent message))) as Hfail.
  destruct (completion (runScript mcpServer
                          (planAndExecuteQuery fmt handlers (msgContent message))))
    as [text|e];
    cbn [respSessionId respAgentId respToolCalls respStatus respContent respReasoning].
  - do 3 (split; [reflexivity|]).
    split; [intros e H; discriminate|].
    split; [|intros t [= <-]; now split].
    intros tool params e Hi He.
    destruct (Hfail tool params e Hi He) as [_ [_ [e' [_ [_ H]]]]]. discriminate.
  - do 3 (split; [reflexivity|]).
    split; [|split; [reflexivity | intros t H; discriminate]].
    intros e' [= <-]. split; [reflexivity|]. split; [reflexivity|].
    eexists. reflexivity.
Qed.

(** When the agent is not running, [processMessage] throws. *)
Lemma processMessage_not_running (io : AgentIO) (agent : LocationAgentServer)
    (message : A2AMessage) :
  isRunning agent = false ->
  processMessage fmt mcpServer handlers io agent message =
  (agent, Thrown (JsError "Location Agent is not running")).
Proof. intros H. unfold processMessage. now rewrite H. Qed.

End LocationAgentFacts.

(** ** Discovery *)

Section DiscoveryFacts.
Import Js Discovery.
Variable fetchJson : string -> Outcome JsVal.
Variable now : N.

Lemma typeof_string (v : JsVal) :
  String.eqb (typeof v) "string" = true -> exists s, v = JStr s.
Proof. destruct v; simpl; try discriminate. intros _. now eexists. Qed.

(** A manifest that passes validation is an object whose [agentId] is a
    string. *)
Lemma validateManifest_true (manifest : JsVal) :
  validateManifest manifest = Returned true ->
  exists props id, manifest = JObj props /\ lookupProp props "agentId" = JStr id.
Proof.
  unfold validateManifest.
  destruct manifest as [| |b|q|s|items|props]; simpl; try discriminate.
  destruct (String.eqb (typeof (lookupProp props "agentId")) "string") eqn:E;
    simpl; [|discriminate].
  intros _. destruct (typeof_string _ E) as [id Hid]. now exists props, id.
Qed.

Lemma accepted_false (agentConfig : AgentConfig) :
  accepted fetchJson agentConfig = false <->
  (exists e, fetchManifest fetchJson agentConfig = Thrown e) \/
  (exists manifest, fetchManifest fetchJson agentConfig = Returned manifest /\
                    validateManifest manifest <> Returned true).
Proof.
  unfold accepted. destruct (fetchManifest fetchJson agentConfig) as [m|e].
  - destruct (validateManifest m) as [[|]|e] eqn:Ev; split; try discriminate.
    + intros [[e H] | [m' [[= <-] H]]]; [discriminate | congruence].
    + intros _. right. exists m. split; [reflexivity | congruence].
    + reflexivity.
    + intros _. right. exists m. split; [reflexivity | congruence].
    + reflexivity.
  - split; [intros _; left; now exists e | reflexivity].
Qed.

Lemma discoverStep_skipped (agents : JsMap JsVal) (agentConfig : AgentConfig) :
  accepted fetchJson agentConfig = false ->
  discoverStep fetchJson now agents agentConfig = agents.
Proof.
  unfold accepted, discoverStep, tryDiscover.
  destruct (fetchManifest fetchJson agentConfig) as [m|e]; simpl; [|reflexivity].
  destruct (validateManifest m) as [[|]|e]; simpl; [discriminate | reflexivity..].
Qed.

Lemma discoverStep_registered (agents : JsMap JsVal) (agentConfig : AgentConfig)
    (manifest : JsVal) :
  fetchManifest fetchJson agentConfig = Returned manifest ->
  validateManifest manifest = Returned true ->
  exists id,
    getProp manifest "agentId" = Returned (JStr id) /\
    manifestAgentId fetchJson agentConfig = Some id /\
    discoverStep fetchJson now agents agentConfig =
    mapSet agents id (makeEntry now agentConfig manifest).
Proof.
  intros Hf Hv. destruct (validateManifest_true _ Hv) as [props [id [-> Hid]]].
  exists id. unfold manifestAgentId, discoverStep, tryDiscover.
  rewrite Hf. simpl. rewrite Hv. simpl. rewrite Hid. now repeat split.
Qed.

Lemma accepted_true (agentConfig : AgentConfig) :
  accepted fetchJson agentConfig = true ->
  exists manifest,
    fetchManifest fetchJson agentConfig = Returned manifest /\
    validateManifest manifest = Returned true.
Proof.
  unfold accepted. destruct (fetchManifest fetchJson agentConfig) as [m|e];
    [|discriminate].
  destruct (validateManifest m) as [[|]|e] eqn:Ev; try discriminate.
  intros _. now exists m.
Qed.

Lemma discoverAgents_app (l1 l2 : list AgentConfig) (agents : JsMap JsVal) :
  discoverAgents fetchJson now (l1 ++ l2) agents =
  discoverAgents fetchJson now l2 (discoverAgents fetchJson now l1 agents).
Proof. apply fold_left_app. Qed.

Lemma discoverAgents_has (configAgents : list AgentConfig) (agents : JsMap JsVal)
    (id : string) :
  mapHas (discoverAgents fetchJson now configAgents agents) id = true <->
  mapHas agents id = true \/
  exists agentConfig, In agentConfig configAgents /\
    accepted fetchJson agentConfig = true /\ manifestAgentId fetchJson agentConfig = Some id.
Proof.
  revert agents. induction configAgents as [|c l IH]; intros agents.
  - simpl. split; [now left | intros [H | [c [[] _]]]; exact H].
  - change (discoverAgents fetchJson now (c :: l) agents)
      with (discoverAgents fetchJson now l (discoverStep fetchJson now agents c)).
    rewrite IH. destruct (accepted fetchJson c) eqn:Ec.
    + destruct (accepted_true c Ec) as [m [Hf Hv]].
      destruct (discoverStep_registered agents c m Hf Hv) as [id' [_ [Hid ->]]].
      rewrite mapHas_mapSet. split.
      * intros [[<- | H] | [c' [Hin H]]].
        -- right. exists c. split; [now left | now split].
        -- now left.
        -- right. exists c'. split; [now right | exact H].
      * intros [H | [c' [[<- | Hin] [Ha Hm]]]].
        -- left. now right.
        -- left. left. congruence.
        -- right. now exists c'.
    + rewrite (discoverStep_skipped agents c Ec). split.
      * intros [H | [c' [Hin H]]]; [now left|].
        right. exists c'. split; [now right | exact H].
      * intros [H | [c' [[<- | Hin] [Ha Hm]]]]; [now left | congruence |].
        right. now exists c'.
Qed.

Lemma discoverAgents_keeps (l : list AgentConfig) (agents : JsMap JsVal) (id : string) :
  (forall c, In c l -> accepted fetchJson c = true -> manifestAgentId fetchJson c <> Some id) ->
  mapGet (discoverAgents fetchJson now l agents) id = mapGet agents id.
Proof.
  revert agents. induction l as [|c l IH]; intros agents Hl; [reflexivity|].
  change (discoverAgents fetchJson now (c :: l) agents)
    with (discoverAgents fetchJson now l (discoverStep fetchJson now agents c)).
  rewrite IH by (intros c' Hc'; apply Hl; now right).
  destruct (accepted fetchJson c) eqn:Ec.
  - destruct (accepted_true c Ec) as [m [Hf Hv]].
    destruct (discoverStep_registered agents c m Hf Hv) as [id' [_ [Hid ->]]].
    apply mapGet_mapSet_ne. intros ->. now apply (Hl c (or_introl eq_refl) Ec).
  - now rewrite (discoverStep_skipped agents c Ec).
Qed.

(** C7.  After [start], the registered ids are those already present and
    the ids of the configured agents whose manifest was fetched and passed
    validation; a configured agent whose fetch throws or whose manifest
    does not pass validation changes nothing: the registry is the one
    discovery builds from the remaining agents; and an accepted agent is
    stored under its manifest's id with the entry built from its manifest,
    unless a later accepted agent has the same id.  [start] is a total
    function: no failure escapes the loop. *)
Theorem discovery_registers_valid_manifests (configAgents : list AgentConfig)
    (agents : JsMap JsVal) :
  let registry := start fetchJson now configAgents agents in
  (forall id,
      mapHas registry id = true <->
      mapHas agents id = true \/
      exists agentConfig manifest,
        In agentConfig configAgents /\
        fetchManifest fetchJson agentConfig = Returned manifest /\
        validateManifest manifest = Returned true /\
        getProp manifest "agentId" = Returned (JStr id)) /\
  (forall pre agentConfig post,
      configAgents = pre ++ agentConfig :: post ->
      (exists e, fetchManifest fetchJson agentConfig = Thrown e) \/
      (exists manifest, fetchManifest fetchJson agentConfig = Returned manifest /\
                        validateManifest manifest <> Returned true) ->
      registry = start fetchJson now (pre ++ post) agents) /\
  (forall pre agentConfig post manifest id,
      configAgents = pre ++ agentConfig :: post ->
      fetchManifest fetchJson agentConfig = Returned manifest ->
      validateManifest manifest = Returned true ->
      getProp manifest "agentId" = Returned (JStr id) ->
      (forall later, In later post -> accepted fetchJson later = true ->
                     manifestAgentId fetchJson later <> Some id) ->
      mapGet registry id = Some (makeEntry now agentConfig manifest)).
Proof.
  cbv zeta. unfold start. split; [|split].
  - intros id. rewrite discoverAgents_has. split.
    + intros [H | [c [Hin [Ha Hid]]]]; [now left|]. right.
      destruct (accepted_true c Ha) as [m [Hf Hv]].
      destruct (discoverStep_registered agents c m Hf Hv) as [id' [Hp [Hid' _]]].
      exists c, m. repeat split; try assumption. congruence.
    + intros [H | [c [m [Hin [Hf [Hv Hp]]]]]]; [now left|]. right.
      exists c. split; [exact Hin|].
      destruct (discoverStep_registered agents c m Hf Hv) as [id' [Hp' [Hid' _]]].
      split; [unfold accepted; now rewrite Hf, Hv | congruence].
  - intros pre c post -> Hfail. apply accepted_false in Hfail.
    rewrite !discoverAgents_app.
    change (discoverAgents fetchJson now (c :: post) ?a)
      with (discoverAgents fetchJson now post (discoverStep fetchJson now a c)).
    now rewrite discoverStep_skipped.
  - intros pre c post m id -> Hf Hv Hp Hlater.
    rewrite discoverAgents_app.
    change (discoverAgents fetchJson now (c :: post) ?a)
      with (discoverAgents fetchJson now post (discoverStep fetchJson now a c)).
    rewrite (discoverAgents_keeps post _ id Hlater).
    destruct (discoverStep_registered (discoverAgents fetchJson now pre agents) c m Hf Hv)
      as [id' [Hp' [_ ->]]].
    assert (id' = id) as -> by congruence. apply mapGet_mapSet_eq.
Qed.

End DiscoveryFacts.

(** ** Snapshots returned by the registry's read methods *)

Section SnapshotFacts.
Import Js Registry RegistryHeap.

Lemma alloc_fresh (h : Heap) (items : list ref) :
  h !! fst (alloc h items) = None.
Proof. unfold alloc. simpl. apply not_elem_of_dom. apply is_fresh. Qed.

Lemma alloc_read (h : Heap) (items : list ref) :
  readArray (snd (alloc h items)) (fst (alloc h items)) = items.
Proof. unfold alloc, readArray. simpl. now rewrite lookup_insert_eq. Qed.

(** Writing an array object where no entry object lives changes no entry. *)
Lemma readEntry_insert_array (h : Heap) (r x : ref) (items : list ref) :
  (forall e, h !! r <> Some (EntryObj e)) ->
  readEntry (<[r := ArrayObj items]> h) x = readEntry h x.
Proof.
  intros Hr. unfold readEntry. destruct (decide (r = x)) as [<- | Hne].
  - rewrite lookup_insert_eq. destruct (h !! r) as [[e|its]|] eqn:E; try reflexivity.
    now destruct (Hr e).
  - now rewrite lookup_insert_ne.
Qed.

Lemma stored_insert_array (agents : JsMap ref) (h : Heap) (r : ref) (items : list ref) :
  (forall e, h !! r <> Some (EntryObj e)) ->
  stored agents (<[r := ArrayObj items]> h) = stored agents h.
Proof.
  intros Hr. unfold stored. apply map_ext. intros [k x]. simpl.
  now rewrite readEntry_insert_array.
Qed.

Lemma stored_alloc (agents : JsMap ref) (h : Heap) (items : list ref) :
  stored agents (snd (alloc h items)) = stored agents h.
Proof.
  unfold alloc. simpl. apply stored_insert_array.
  intros e He. pose proof (alloc_fresh h items) as Hf. unfold alloc in Hf. simpl in Hf.
  congruence.
Qed.

Lemma readEntry_alloc (h : Heap) (items : list ref) (x : ref) :
  readEntry (snd (alloc h items)) x = readEntry h x.
Proof.
  unfold alloc. simpl. apply readEntry_insert_array.
  intros e He. pose proof (alloc_fresh h items) as Hf. unfold alloc in Hf. simpl in Hf.
  congruence.
Qed.

Lemma isHealthy_alloc (h : Heap) (items : list ref) (x : ref) :
  isHealthy (snd (alloc h items)) x = isHealthy h x.
Proof. unfold isHealthy. now rewrite readEntry_alloc. Qed.

(** A mutation of an array object changes no entry. *)
Lemma stored_mutate_array (agents : JsMap ref) (h : Heap) (m : Mutation)
    (items : list ref) :
  h !! written m = Some (ArrayObj items) ->
  stored agents (mutate m h) = stored agents h.
Proof.
  intros Hw.
  assert (Hr : forall e, h !! written m <> Some (EntryObj e)) by congruence.
  destruct m as [arr i r | arr r | arr n | target update]; simpl in *;
    rewrite Hw; try reflexivity; now apply stored_insert_array.
Qed.

(** Assigning to an entry object changes what the registry stores for
    every key that refers to it. *)
Lemma stored_mutate_entry (agents : JsMap ref) (h : Heap) (target : ref)
    (update : AgentRegistryEntry -> AgentRegistryEntry) (e : AgentRegistryEntry) :
  readEntry h target = Some e ->
  stored agents (mutate (EntryAssign target update) h) =
  map (fun kv => (fst kv,
                  if decide (snd kv = target) then Some (update e)
                  else readEntry h (snd kv))) agents.
Proof.
  unfold readEntry. intros He. simpl.
  destruct (h !! target) as [[e'|items]|] eqn:Et; try discriminate.
  injection He as ->. unfold stored. apply map_ext. intros [k x]. simpl.
  unfold readEntry. destruct (decide (x = target)) as [-> | Hne].
  - now rewrite lookup_insert_eq.
  - rewrite lookup_insert_ne by congruence. reflexivity.
Qed.

Lemma getHealthyAgents_unfold (agents : JsMap ref) (h : Heap) :
  getHealthyAgents agents h =
  alloc (snd (alloc h (mapValues agents)))
        (List.filter (isHealthy h) (mapValues agents)).
Proof.
  unfold getHealthyAgents, getAllAgents.
  pose proof (alloc_read h (mapValues agents)) as Hr.
  destruct (alloc h (mapValues agents)) as [all h1] eqn:E. simpl in *.
  rewrite Hr. f_equal. apply filter_ext. intros x.
  change h1 with (snd (all, h1)). rewrite <- E. apply isHealthy_alloc.
Qed.

(** C6, as the code has it.  [getAllAgents] and [getHealthyAgents] return
    a new array each time, and the calls and any later change of that
    array (storing or pushing an element, truncating it) leave the
    registry's stored state as it was; but the elements of the array are
    the very references the registry map holds (all of them, respectively
    the healthy ones, in map order), so an assignment to a field of a
    returned entry is an assignment to the registry's entry. *)
Theorem snapshots_copy_array_share_entries (agents : JsMap ref) (h : Heap) :
  let all := getAllAgents agents h in
  let live := getHealthyAgents agents h in
  (h !! fst all = None /\ h !! fst live = None) /\
  (readArray (snd all) (fst all) = mapValues agents /\
   readArray (snd live) (fst live) = List.filter (isHealthy h) (mapValues agents)) /\
  (stored agents (snd all) = stored agents h /\
   stored agents (snd live) = stored agents h) /\
  (forall m, written m = fst all ->
     stored agents (mutate m (snd all)) = stored agents h) /\
  (forall m, written m = fst live ->
     stored agents (mutate m (snd live)) = stored agents h) /\
  (forall target update e,
     In target (readArray (snd all) (fst all)) -> readEntry h target = Some e ->
     stored agents (mutate (EntryAssign target update) (snd all)) =
     map (fun kv => (fst kv,
                     if decide (snd kv = target) then Some (update e)
                     else readEntry h (snd kv))) agents) /\
  (forall target update e,
     In target (readArray (snd live) (fst live)) -> readEntry h target = Some e ->
     stored agents (mutate (EntryAssign target update) (snd live)) =
     map (fun kv => (fst kv,
                     if decide (snd kv = target) then Some (update e)
                     else readEntry h (snd kv))) agents).
Proof.
  cbv zeta. rewrite getHealthyAgents_unfold. unfold getAllAgents.
  set (h1 := snd (alloc h (mapValues agents))).
  assert (Hs1 : stored agents h1 = stored agents h) by apply stored_alloc.
  assert (He1 : forall x, readEntry h1 x = readEntry h x)
    by (intros x; apply readEntry_alloc).
  assert (He2 : forall items x, readEntry (snd (alloc h1 items)) x = readEntry h x)
    by (intros items x; now rewrite readEntry_alloc).
  assert (Hfresh2 : forall items, h !! fst (alloc h1 items) = None).
  { intros items. pose proof (alloc_fresh h1 items) as Hf.
    set (r2 := fst (alloc h1 items)) in *. clearbody r2.
    unfold h1, alloc in Hf. cbn [snd] in Hf.
    destruct (decide (fresh (dom h) = r2)) as [<- | Hne].
    - rewrite lookup_insert_eq in Hf. discriminate.
    - now rewrite lookup_insert_ne in Hf. }
  split; [split; [apply alloc_fresh | apply Hfresh2]|].
  split; [split; apply alloc_read|].
  split; [split; [exact Hs1 | now rewrite stored_alloc]|].
  split; [|split; [|split]].
  - intros m Hm. rewrite <- Hs1. apply (stored_mutate_array _ _ _ (mapValues agents)).
    rewrite Hm. unfold alloc. simpl. apply lookup_insert_eq.
  - intros m Hm. rewrite <- Hs1.
    rewrite <- (stored_alloc agents h1 (List.filter (isHealthy h) (mapValues agents))).
    apply (stored_mutate_array _ _ _ (List.filter (isHealthy h) (mapValues agents))).
    rewrite Hm. unfold alloc. simpl. apply lookup_insert_eq.
  - intros target update e _ He.
    rewrite (stored_mutate_entry agents _ target update e) by now rewrite He1.
    apply map_ext. intros [k x]. cbn [fst snd]. now rewrite He1.
  - intros target update e _ He.
    rewrite (stored_mutate_entry agents _ target update e) by now rewrite He2.
    apply map_ext. intros [k x]. cbn [fst snd]. now rewrite He2.
Qed.

End SnapshotFacts.

(** ** The views of the registry agree *)

Section RegistryViewFacts.
Import Js Registry.

(** A typed manifest passes validation. *)
Lemma validateManifest_typed (e : AgentRegistryEntry) :
  Discovery.validateManifest (manifestToJs e) = Returned true.
Proof. reflexivity. Qed.

(** From a typed manifest discovery builds the typed entry whose
    [healthy] flag says whether the manifest's status is ["healthy"]. *)
Lemma makeEntry_typed (now : N) (agentConfig : Discovery.AgentConfig)
    (e : AgentRegistryEntry) :
  Discovery.makeEntry now agentConfig (manifestToJs e) =
  entryToJs (registeredEntry now agentConfig e).
Proof. reflexivity. Qed.

Lemma derefAll_values (agents : JsMap positive) (h : gmap positive RegistryHeap.Obj) :
  derefAll h (mapValues agents) = getAllAgents (typedView agents h).
Proof.
  unfold getAllAgents, mapValues. induction agents as [|[k r] agents IH]; [reflexivity|].
  simpl. destruct (RegistryHeap.readEntry h r) as [e|]; simpl; now rewrite IH.
Qed.

Lemma derefAll_filter_healthy (h : gmap positive RegistryHeap.Obj) (refs : list positive) :
  derefAll h (List.filter (RegistryHeap.isHealthy h) refs) =
  List.filter (fun agent => healthy agent) (derefAll h refs).
Proof.
  induction refs as [|r refs IH]; [reflexivity|]. simpl.
  unfold RegistryHeap.isHealthy at 1.
  destruct (RegistryHeap.readEntry h r) as [e|] eqn:E; simpl.
  - destruct (healthy e); simpl; [rewrite E|]; now rewrite IH.
  - exact IH.
Qed.

Lemma derefAll_ext (h h' : gmap positive RegistryHeap.Obj) (refs : list positive) :
  (forall r, RegistryHeap.readEntry h' r = RegistryHeap.readEntry h r) ->
  derefAll h' refs = derefAll h refs.
Proof.
  intros H. induction refs as [|r refs IH]; [reflexivity|].
  simpl. now rewrite H, IH.
Qed.

(** What the typed [getAllAgents] and [getHealthyAgents] return are the
    entries behind the references the store-level methods return. *)
Lemma read_methods_agree (agents : JsMap positive) (h : gmap positive RegistryHeap.Obj) :
  let all := RegistryHeap.getAllAgents agents h in
  let live := RegistryHeap.getHealthyAgents agents h in
  derefAll (snd all) (RegistryHeap.readArray (snd all) (fst all)) =
    getAllAgents (typedView agents h) /\
  derefAll (snd live) (RegistryHeap.readArray (snd live) (fst live)) =
    getHealthyAgents (typedView agents h).
Proof.
  cbv zeta. rewrite getHealthyAgents_unfold. unfold RegistryHeap.getAllAgents.
  rewrite !alloc_read. split.
  - rewrite (derefAll_ext h) by (intros r; apply readEntry_alloc).
    apply derefAll_values.
  - rewrite (derefAll_ext h) by (intros r; now rewrite !readEntry_alloc).
    rewrite derefAll_filter_healthy, derefAll_values. reflexivity.
Qed.

End RegistryViewFacts.

(** * Further properties *)

(** ** Registry reads *)

Section RegistryReadFacts.
Import Js Registry.

Lemma filter_andb {A} (f g : A -> bool) (l : list A) :
  List.filter (fun x => f x && g x) l = List.filter f (List.filter g l).
Proof.
  induction l as [|x l IH]; simpl; [reflexivity|].
  destruct (g x); simpl; rewrite ?andb_true_r, ?andb_false_r;
    [destruct (f x); now rewrite IH | exact IH].
Qed.

Lemma arrayIncludes_spec (arr : list string) (x : string) :
  arrayIncludes arr x = true <-> In x arr.
Proof.
  unfold arrayIncludes. rewrite existsb_exists. split.
  - intros [y [Hin Hy]]. apply String.eqb_eq in Hy. now subst.
  - intros Hin. exists x. split; [exact Hin | apply String.eqb_refl].
Qed.

Lemma finder_In (p : AgentRegistryEntry -> bool) (l : list AgentRegistryEntry)
    (a : AgentRegistryEntry) :
  In a (List.filter (fun x => p x && healthy x) l) <->
  In a l /\ healthy a = true /\ p a = true.
Proof. rewrite List.filter_In, andb_true_iff. tauto. Qed.

(** X1.  The three exact finders return the healthy agents that carry
    the wanted label (whole label, same letter case) or a tool of the
    wanted name, in registry order: each is [getHealthyAgents] filtered
    by the label test, so none of them ever returns an unhealthy agent. *)
Theorem finders_select_from_healthy (reg : AgentRegistry) (wanted : string) :
  findAgentsByCapability reg wanted =
    List.filter (fun a => arrayIncludes (capabilities a) wanted) (getHealthyAgents reg) /\
  findAgentsByExpertise reg wanted =
    List.filter (fun a => arrayIncludes (expertise a) wanted) (getHealthyAgents reg) /\
  findAgentsByTool reg wanted =
    List.filter (fun a => existsb (fun t => String.eqb (toolName t) wanted) (tools a))
                (getHealthyAgents reg) /\
  (forall a, In a (findAgentsByCapability reg wanted) <->
             In a (getAllAgents reg) /\ healthy a = true /\ In wanted (capabilities a)) /\
  (forall a, In a (findAgentsByExpertise reg wanted) <->
             In a (getAllAgents reg) /\ healthy a = true /\ In wanted (expertise a)) /\
  (forall a, In a (findAgentsByTool reg wanted) <->
             In a (getAllAgents reg) /\ healthy a = true /\
             exists t, In t (tools a) /\ toolName t = wanted).
Proof.
  unfold findAgentsByCapability, findAgentsByExpertise, findAgentsByTool, getHealthyAgents.
  do 3 (split; [apply filter_andb|]).
  split; [|split]; intros a; rewrite finder_In.
  - now rewrite arrayIncludes_spec.
  - now rewrite arrayIncludes_spec.
  - rewrite existsb_exists. split.
    + intros [Hin [Hh [t [Ht Hn]]]]. apply String.eqb_eq in Hn. eauto.
    + intros [Hin [Hh [t [Ht Hn]]]]. apply String.eqb_eq in Hn. eauto.
Qed.

Lemma mathMax_some (xs : list N) (a : N) :
  exists m,
    fold_left (fun acc x => match acc with
                            | None => Some x
                            | Some m => Some (N.max m x)
                            end) xs (Some a) = Some m /\
    (a <= m)%N /\ (forall x, In x xs -> (x <= m)%N) /\ (m = a \/ In m xs).
Proof.
  revert a. induction xs as [|x xs IH]; intros a; simpl.
  - exists a. repeat split; [lia | contradiction | now left].
  - destruct (IH (N.max a x)) as [m [Hm [Hle [Hall Hin]]]].
    exists m. split; [exact Hm|]. split; [lia|]. split.
    + intros y [<- | Hy]; [lia | now apply Hall].
    + destruct Hin as [-> | Hin]; [|now right; right].
      destruct (N.max_spec a x) as [[_ ->] | [_ ->]]; [right; now left | now left].
Qed.

Lemma mathMax_spec (xs : list N) :
  match mathMax xs with
  | None => xs = []
  | Some m => In m xs /\ forall x, In x xs -> (x <= m)%N
  end.
Proof.
  unfold mathMax. destruct xs as [|x xs]; simpl; [reflexivity|].
  destruct (mathMax_some xs x) as [m [-> [Hle [Hall Hin]]]]. split.
  - destruct Hin as [-> | Hin]; [now left | now right].
  - intros y [<- | Hy]; [exact Hle | now apply Hall].
Qed.

Lemma fold_left_tools_sum (l : list AgentRegistryEntry) (acc : nat) :
  fold_left (fun sum agent => sum + length (tools agent)) l acc =
  acc + list_sum (map (fun a => length (tools a)) l).
Proof.
  revert acc. induction l as [|a l IH]; intros acc; simpl; [lia|].
  rewrite IH. lia.
Qed.

(** X2.  [getRegistryStats]: the counts are those of the registry, the
    healthy agents are never more than all agents, and the tools are
    summed over all agents, healthy or not.  For an empty registry the
    average is 0 (no division takes place) and [lastRefresh] is the
    invalid date; for a registry with agents the average is the engine's
    quotient of the number of tools by the number of agents, and
    [lastRefresh] is the latest health check of an agent. *)
Theorem registry_stats_consistent (divide : nat -> nat -> Q) (reg : AgentRegistry) :
  let stats := getRegistryStats divide reg in
  totalAgents stats = length reg /\
  healthyAgents stats = length (getHealthyAgents reg) /\
  healthyAgents stats <= totalAgents stats /\
  totalTools stats = list_sum (map (fun a => length (tools a)) (getAllAgents reg)) /\
  (reg = [] -> avgToolsPerAgent stats = 0%Q /\ lastRefresh stats = None) /\
  (reg <> [] ->
     avgToolsPerAgent stats = divide (totalTools stats) (totalAgents stats) /\
     exists latest,
       lastRefresh stats = Some latest /\
       (exists a, In a (getAllAgents reg) /\ lastHealthCheck a = latest) /\
       (forall a, In a (getAllAgents reg) -> (lastHealthCheck a <= latest)%N)).
Proof.
  cbv zeta. unfold getRegistryStats.
  cbn [totalAgents healthyAgents totalTools avgToolsPerAgent lastRefresh].
  unfold getHealthyAgents, getAllAgents, mapValues. rewrite !length_map.
  split; [reflexivity|]. split; [reflexivity|].
  split; [etransitivity; [apply List.filter_length_le | now rewrite length_map]|].
  split; [apply fold_left_tools_sum with (acc := 0)|]. split.
  - intros ->. now split.
  - intros Hne. assert (Hpos : 0 < length reg) by (destruct reg; [contradiction | simpl; lia]).
    split.
    + apply Nat.ltb_lt in Hpos as Hb. now rewrite Hb.
    + pose proof (mathMax_spec (map lastHealthCheck (map snd reg))) as Hmax.
      destruct (mathMax (map lastHealthCheck (map snd reg))) as [m|].
      * destruct Hmax as [Hin Hall]. exists m. split; [reflexivity|]. split.
        -- apply in_map_iff in Hin as [a [Ha Hin]]. now exists a.
        -- intros a Ha. apply Hall. now apply in_map.
      * destruct reg; [contradiction | discriminate].
Qed.

Lemma append_nil_l (s : string) : "" +:+ s = s.
Proof. reflexivity. Qed.

Lemma append_nil_r (s : string) : s +:+ "" = s.
Proof. induction s as [|c s IH]; simpl; [reflexivity | now rewrite IH]. Qed.

Lemma appendTool_app (context : string) (t : ToolDescriptor) :
  appendTool context t = context +:+ appendTool "" t.
Proof. unfold appendTool. now rewrite append_nil_l, !append_assoc. Qed.

Lemma fold_appendTool (ts : list ToolDescriptor) (context : string) :
  fold_left appendTool ts context = context +:+ fold_left appendTool ts "".
Proof.
  revert context. induction ts as [|t ts IH]; intros context; simpl.
  - now rewrite append_nil_r.
  - rewrite IH, (IH (appendTool "" t)), (appendTool_app context).
    now rewrite append_assoc.
Qed.

(** The lines of an agent, after the line of its id and name. *)
Lemma appendAgent_lines (context : string) (a : AgentRegistryEntry) :
  appendAgent context a =
  context +:+ (agentId a +:+ ": " +:+ name a +:+ lf) +:+
  ("  Description: " +:+ description a +:+ lf) +:+ ("  Tools:" +:+ lf) +:+
  fold_left appendTool (tools a) "" +:+
  ("  Capabilities: " +:+ join ", " (capabilities a) +:+ lf) +:+
  ("  Expertise: " +:+ join ", " (expertise a) +:+ lf +:+ lf).
Proof. unfold appendAgent. rewrite fold_appendTool. now rewrite !append_assoc. Qed.

Lemma appendAgent_app (context : string) (a : AgentRegistryEntry) :
  appendAgent context a = context +:+ appendAgent "" a.
Proof. now rewrite (appendAgent_lines context), (appendAgent_lines ""), append_nil_l. Qed.

Lemma fold_appendAgent (l : list AgentRegistryEntry) (context : string) :
  fold_left appendAgent l context = context +:+ fold_left appendAgent l "".
Proof.
  revert context. induction l as [|a l IH]; intros context; simpl.
  - now rewrite append_nil_r.
  - rewrite IH, (IH (appendAgent "" a)), (appendAgent_app context).
    now rewrite append_assoc.
Qed.

Lemma Contains_app_l (s sub pre : string) : Contains s sub -> Contains (pre +:+ s) sub.
Proof.
  intros [a [b ->]]. exists (pre +:+ a), b. now rewrite append_assoc.
Qed.

Lemma Contains_app_r (s sub post : string) : Contains s sub -> Contains (s +:+ post) sub.
Proof.
  intros [a [b ->]]. exists a, (b +:+ post). now rewrite !append_assoc.
Qed.

Lemma Contains_prefix (sub post : string) : Contains (sub +:+ post) sub.
Proof. now exists "", post. Qed.

Lemma fold_appendTool_contains (ts : list ToolDescriptor) (t : ToolDescriptor) :
  In t ts -> Contains (fold_left appendTool ts "") (appendTool "" t).
Proof.
  induction ts as [|t' ts IH]; intros Hin; [contradiction|]. simpl.
  rewrite fold_appendTool. destruct Hin as [-> | Hin].
  - apply Contains_prefix.
  - apply Contains_app_l. now apply IH.
Qed.

Lemma fold_appendAgent_contains (l : list AgentRegistryEntry) (a : AgentRegistryEntry) :
  In a l -> Contains (fold_left appendAgent l "") (appendAgent "" a).
Proof.
  induction l as [|a' l IH]; intros Hin; [contradiction|]. simpl.
  rewrite fold_appendAgent. destruct Hin as [-> | Hin].
  - apply Contains_prefix.
  - apply Contains_app_l. now apply IH.
Qed.

Lemma Contains_trans (s mid sub : string) :
  Contains s mid -> Contains mid sub -> Contains s sub.
Proof.
  intros [a [b ->]] H. apply Contains_app_l, Contains_app_r, H.
Qed.

Lemma getHealthyAgents_healthyPart (reg : AgentRegistry) :
  getHealthyAgents (healthyPart reg) = getHealthyAgents reg.
Proof.
  unfold getHealthyAgents, getAllAgents, mapValues, healthyPart.
  induction reg as [|[k a] reg IH]; simpl; [reflexivity|].
  destruct (healthy a) eqn:E; simpl; rewrite ?E, IH; reflexivity.
Qed.

(** X3.  The prompt context describes the healthy agents and nothing
    else: it is the fixed sentence when no agent is healthy; otherwise it
    starts with the heading and holds, for every healthy agent, the line
    of its id and name, and for each of its tools the two lines of the
    tool; and removing the unhealthy entries from the registry does not
    change the text. *)
Theorem prompt_context_lists_healthy (reg : AgentRegistry) :
  (getHealthyAgents reg = [] <->
   generatePromptContext reg = "No healthy agents available.") /\
  (getHealthyAgents reg <> [] ->
   exists body,
     generatePromptContext reg = "AVAILABLE AGENTS AND CAPABILITIES:" +:+ lf +:+ lf +:+ body) /\
  (forall a, In a (getHealthyAgents reg) ->
     Contains (generatePromptContext reg) (agentId a +:+ ": " +:+ name a +:+ lf) /\
     forall t, In t (tools a) ->
       Contains (generatePromptContext reg)
                ("    * " +:+ toolName t +:+ ": " +:+ toolDescription t +:+ lf +:+
                 "      Intent tags: " +:+ join ", " (intentTags t) +:+ lf)) /\
  generatePromptContext (healthyPart reg) = generatePromptContext reg.
Proof.
  unfold generatePromptContext. rewrite getHealthyAgents_healthyPart.
  destruct (getHealthyAgents reg) as [|a0 l] eqn:E.
  - split; [tauto|]. split; [congruence|]. split; [contradiction | reflexivity].
  - split; [split; [discriminate|]|].
    { rewrite fold_appendAgent. cbn [String.append]. discriminate. }
    split.
    { intros _. exists (fold_left appendAgent (a0 :: l) "").
      rewrite fold_appendAgent. now rewrite !append_assoc. }
    split; [|reflexivity].
    intros a Hin. rewrite fold_appendAgent.
    pose proof (fold_appendAgent_contains (a0 :: l) a Hin) as Hc.
    rewrite appendAgent_lines, append_nil_l in Hc.
    split.
    + apply Contains_app_l. eapply Contains_trans; [exact Hc|].
      apply Contains_prefix.
    + intros t Ht. apply Contains_app_l. eapply Contains_trans; [exact Hc|].
      do 3 apply Contains_app_l. apply Contains_app_r.
      pose proof (fold_appendTool_contains (tools a) t Ht) as Hct.
      unfold appendTool in Hct at 2. rewrite append_nil_l, !append_assoc in Hct.
      exact Hct.
Qed.

End RegistryReadFacts.

(** ** What discovery stores *)

Section DiscoveredEntryFacts.
Import Js Discovery.
Variable fetchJson : string -> Outcome JsVal.
Variable now : N.

Lemma lookupProp_mapSet_eq (props : list (string * JsVal)) (k : string) (v : JsVal) :
  lookupProp (mapSet props k v) k = v.
Proof.
  induction props as [|[k' v'] props IH]; simpl.
  - now rewrite String.eqb_refl.
  - destruct (String.eqb k' k) eqn:E; simpl; rewrite E; [reflexivity | exact IH].
Qed.

Lemma lookupProp_mapSet_ne (props : list (string * JsVal)) (k k' : string) (v : JsVal) :
  k <> k' -> lookupProp (mapSet props k v) k' = lookupProp props k'.
Proof.
  intros Hne. induction props as [|[k0 v0] props IH]; simpl.
  - destruct (String.eqb k k') eqn:E; [apply String.eqb_eq in E; contradiction | reflexivity].
  - destruct (String.eqb k0 k) eqn:E; simpl.
    + apply String.eqb_eq in E. subst k0.
      destruct (String.eqb k k') eqn:E'; [apply String.eqb_eq in E'; contradiction | reflexivity].
    + destruct (String.eqb k0 k'); [reflexivity | exact IH].
Qed.

(** The registry-owned properties of the object literal come after the
    spread and so replace what the manifest says. *)
Lemma makeEntry_owned (agentConfig : AgentConfig) (manifest : JsVal) :
  getProp (makeEntry now agentConfig manifest) "healthy" =
    Returned (JBool (statusIsHealthy manifest)) /\
  getProp (makeEntry now agentConfig manifest) "endpoint" =
    Returned match cfgEndpoint agentConfig with
             | Some e => JStr e
             | None => JUndefined
             end /\
  getProp (makeEntry now agentConfig manifest) "lastHealthCheck" = Returned (dateValue now) /\
  getProp (makeEntry now agentConfig manifest) "discoveredAt" = Returned (dateValue now) /\
  forall k, k <> "healthy" -> k <> "endpoint" -> k <> "lastHealthCheck" ->
            k <> "discoveredAt" ->
            getProp (makeEntry now agentConfig manifest) k =
            Returned (lookupProp (ownProps manifest) k).
Proof.
  unfold makeEntry. cbn [getProp]. repeat split.
  - now rewrite lookupProp_mapSet_eq.
  - rewrite !lookupProp_mapSet_ne by discriminate. now rewrite lookupProp_mapSet_eq.
  - rewrite !lookupProp_mapSet_ne by discriminate. now rewrite lookupProp_mapSet_eq.
  - rewrite !lookupProp_mapSet_ne by discriminate. now rewrite lookupProp_mapSet_eq.
  - intros k H1 H2 H3 H4. rewrite !lookupProp_mapSet_ne by congruence. reflexivity.
Qed.

Lemma discoverAgents_Discovered (all l : list AgentConfig) (agents : JsMap JsVal) :
  incl l all -> Discovered fetchJson now all agents ->
  Discovered fetchJson now all (discoverAgents fetchJson now l agents).
Proof.
  revert agents. induction l as [|c l IH]; intros agents Hincl Hd; [exact Hd|].
  change (discoverAgents fetchJson now (c :: l) agents)
    with (discoverAgents fetchJson now l (discoverStep fetchJson now agents c)).
  apply IH; [intros x Hx; apply Hincl; now right|].
  destruct (accepted fetchJson c) eqn:Ec.
  - destruct (accepted_true fetchJson c Ec) as [m [Hf Hv]].
    destruct (discoverStep_registered fetchJson now agents c m Hf Hv) as [id [Hid [_ ->]]].
    destruct Hd as [Hnd Hall]. split; [now apply NoDup_mapKeys_mapSet|].
    intros id' entry Hget. destruct (String.eqb id id') eqn:E.
    + apply String.eqb_eq in E. subst id'. rewrite mapGet_mapSet_eq in Hget.
      injection Hget as <-. exists c, m. split; [apply Hincl; now left|]. now repeat split.
    + apply String.eqb_neq in E. rewrite (mapGet_mapSet_ne _ _ _ _ E) in Hget.
      now apply Hall.
  - now rewrite (discoverStep_skipped fetchJson now agents c Ec).
Qed.

(** X4.  After [start], no key of the registry occurs twice, and the
    entry under a key is the object built from a configured agent's
    validated manifest whose [agentId] is that key.  In the entry the
    manifest cannot speak for the registry: [healthy] is true exactly
    when the manifest's [status] is the string [healthy] (a [healthy]
    property of the manifest is overwritten), [endpoint] is the
    configured endpoint, and both dates are the time of discovery; every
    other property is the manifest's. *)
Theorem discovered_entries_owned (configAgents : list AgentConfig) :
  let agents := start fetchJson now configAgents [] in
  NoDup (mapKeys agents) /\
  forall id entry, mapGet agents id = Some entry ->
    exists agentConfig manifest,
      In agentConfig configAgents /\
      fetchManifest fetchJson agentConfig = Returned manifest /\
      validateManifest manifest = Returned true /\
      getProp entry "agentId" = Returned (JStr id) /\
      getProp entry "healthy" = Returned (JBool (statusIsHealthy manifest)) /\
      getProp entry "endpoint" =
        Returned match cfgEndpoint agentConfig with
                 | Some e => JStr e
                 | None => JUndefined
                 end /\
      getProp entry "lastHealthCheck" = Returned (dateValue now) /\
      getProp entry "discoveredAt" = Returned (dateValue now) /\
      forall k, k <> "healthy" -> k <> "endpoint" -> k <> "lastHealthCheck" ->
                k <> "discoveredAt" -> getProp entry k = getProp manifest k.
Proof.
  cbv zeta. unfold start.
  destruct (discoverAgents_Discovered configAgents configAgents [])
    as [Hnd Hall]; [apply incl_refl | split; [constructor | discriminate] |].
  split; [exact Hnd|]. intros id entry Hget.
  destruct (Hall id entry Hget) as [c [m [Hin [Hf [Hv [Hid ->]]]]]].
  exists c, m. destruct (makeEntry_owned c m) as [Hh [He [Hl [Hdd Hk]]]].
  destruct (validateManifest_true m Hv) as [props [id' [-> Hid']]].
  cbn [getProp] in Hid. split; [exact Hin|]. split; [exact Hf|]. split; [exact Hv|].
  split; [rewrite Hk by discriminate; exact Hid|].
  split; [exact Hh|]. split; [exact He|]. split; [exact Hl|]. split; [exact Hdd|].
  intros k H1 H2 H3 H4. now rewrite Hk.
Qed.

End DiscoveredEntryFacts.

(** ** Health checks *)

Section RefreshFacts.
Import Js Registry Discovery Refresh.
Variable config : list AgentConfig.
Variable instanceHealth : AgentConfig -> Outcome JsVal.
Variable fetchJson : string -> Outcome JsVal.
Variable now : string -> N.

Lemma mapGet_map_values {V W} (f : string -> V -> W) (m : JsMap V) (k : string) :
  mapGet (map (fun kv => (fst kv, f (fst kv) (snd kv))) m) k =
  match mapGet m k with
  | Some v => Some (f k v)
  | None => None
  end.
Proof.
  induction m as [|[k' v] m IH]; simpl; [reflexivity|].
  destruct (String.eqb k' k) eqn:E; [|exact IH].
  apply String.eqb_eq in E. now subst.
Qed.

Lemma mapKeys_map_values {V W} (f : string -> V -> W) (m : JsMap V) :
  mapKeys (map (fun kv => (fst kv, f (fst kv) (snd kv))) m) = mapKeys m.
Proof. unfold mapKeys. rewrite map_map. reflexivity. Qed.

Lemma refreshEntry_manifest (id : string) (agent : AgentRegistryEntry) :
  SameManifest agent (refreshEntry config instanceHealth fetchJson now id agent).
Proof.
  unfold refreshEntry, SameManifest.
  destruct (checkHealth config instanceHealth fetchJson id agent); now repeat split.
Qed.

(** X5.  A refresh changes nothing but the health of the entries: the
    keys and their order stay, and the entry of every key keeps its
    manifest fields, its endpoint and its discovery date (the [status]
    text of the manifest included, which is never updated).  When the
    check of an agent completes, [healthy] is its verdict and
    [lastHealthCheck] the time of the check; when the check throws, the
    agent is marked unhealthy and [lastHealthCheck] keeps its former
    value.  Every entry stays under its own id. *)
Theorem refresh_updates_health_only (reg : AgentRegistry) :
  let reg' := refreshAgents config instanceHealth fetchJson now reg in
  mapKeys reg' = mapKeys reg /\
  (forall id, getAgent reg id = None -> getAgent reg' id = None) /\
  (forall id agent, getAgent reg id = Some agent ->
     exists agent',
       getAgent reg' id = Some agent' /\
       SameManifest agent agent' /\
       (forall verdict,
          checkHealth config instanceHealth fetchJson id agent = Returned verdict ->
          healthy agent' = verdict /\ lastHealthCheck agent' = now id) /\
       (forall e,
          checkHealth config instanceHealth fetchJson id agent = Thrown e ->
          healthy agent' = false /\ lastHealthCheck agent' = lastHealthCheck agent)) /\
  (WellKeyed reg -> WellKeyed reg').
Proof.
  cbv zeta. unfold refreshAgents, getAgent.
  split; [apply mapKeys_map_values|]. split; [|split].
  - intros id H. now rewrite mapGet_map_values, H.
  - intros id agent H. rewrite mapGet_map_values, H. eexists. split; [reflexivity|].
    split; [apply refreshEntry_manifest|].
    unfold refreshEntry. split.
    + intros verdict ->. now split.
    + intros e ->. now split.
  - intros [Hnd Hall]. split; [now rewrite mapKeys_map_values|].
    apply List.Forall_forall. intros kv Hin.
    apply in_map_iff in Hin as [[k a] [<- Hin]]. cbn [fst snd].
    rewrite List.Forall_forall in Hall. specialize (Hall _ Hin). cbn [fst snd] in Hall.
    destruct (refreshEntry_manifest k a) as [-> _]. exact Hall.
Qed.

(** X6.  An agent that the registry cannot check is marked unhealthy by
    every refresh, whatever the agent would answer: this is the case of
    an entry without endpoint whose key is not the [agentId] of a
    configured agent (a local instance whose manifest carries another id
    than its configuration), and of an entry without endpoint whose
    configuration has no instance. *)
Theorem unreachable_agent_marked_unhealthy (reg : AgentRegistry) (id : string)
    (agent : AgentRegistryEntry) :
  getAgent reg id = Some agent ->
  endpoint agent = None ->
  (forall a, In a config -> cfgAgentId a = id -> cfgInstance a = None) ->
  resolvesHealthy (refreshAgents config instanceHealth fetchJson now reg) id = false.
Proof.
  intros Hget Hend Hcfg. unfold resolvesHealthy, refreshAgents, getAgent in *.
  rewrite mapGet_map_values, Hget. unfold refreshEntry.
  assert (Hc : checkHealth config instanceHealth fetchJson id agent = Returned false).
  { unfold checkHealth.
    destruct (List.find (fun a => String.eqb (cfgAgentId a) id) config) as [a|] eqn:Ef.
    - apply List.find_some in Ef as [Hin Heq]. apply String.eqb_eq in Heq.
      rewrite (Hcfg a Hin Heq). unfold checkRemote. now rewrite Hend.
    - unfold checkRemote. now rewrite Hend. }
  now rewrite Hc.
Qed.

End RefreshFacts.

(** ** Outcomes of a query *)

Section QueryOutcomeFacts.
Import Js Registry Router A2A Mcp Orchestrator.
Variable JSON_parse : string -> Outcome ParsedClassification.
Variable fmt : LocationAgent.NumberFormat.
Variable mcpServer : MCPServer.
Variable handlers : LocationAgent.OtherHandlers.

Lemma mapGet_In_values {V} (m : JsMap V) (k : string) (v : V) :
  mapGet m k = Some v -> In v (mapValues m).
Proof.
  unfold mapValues. induction m as [|[k' v'] m IH]; simpl; [discriminate|].
  destruct (String.eqb k' k); [intros [= ->]; now left | intros H; right; now apply IH].
Qed.

Lemma no_healthy_agent_resolves (reg : AgentRegistry) (id : string) :
  getHealthyAgents reg = [] -> resolvesHealthy reg id = false.
Proof.
  unfold resolvesHealthy, getAgent, getHealthyAgents, getAllAgents. intros Hnone.
  destruct (mapGet reg id) as [a|] eqn:E; [|reflexivity].
  destruct (healthy a) eqn:Eh; [|reflexivity].
  assert (Hin : In a (List.filter (fun agent => healthy agent) (mapValues reg)))
    by (apply List.filter_In; split; [now apply (mapGet_In_values reg id) | exact Eh]).
  rewrite Hnone in Hin. contradiction.
Qed.

Lemma IsFallback_fields (query : string) (reg : AgentRegistry) (c : QueryClassification) :
  IsFallback query reg c ->
  targetAgent c = targetAgent (fallbackClassification query reg) /\
  confidence c = 50%Q /\
  intent c = intent (fallbackClassification query reg).
Proof. intros [-> | [note ->]]; now repeat split. Qed.

(** X8.  With no healthy agent in the registry (an empty registry, for
    instance after [stop]), every query fails in routing, whatever the
    service answers: the classification is the fallback with the default
    target, and [processQuery] throws that agent "location-agent-001" is
    not found or is unhealthy, dispatching nothing and leaving the
    history of the session as it was. *)
Theorem no_healthy_agent_every_query_fails (io : QueryIO) (st : State)
    (query sid : string) (uid : option string) :
  getHealthyAgents (agentRegistry st) = [] ->
  let out := processQuery JSON_parse fmt mcpServer handlers io st query sid uid in
  exists msg,
    snd out = Thrown (JsError msg) /\
    RoutingError "location-agent-001" msg /\
    dispatched (fst out) = dispatched st /\
    historyOf (fst out) sid = historyOf st sid.
Proof.
  intros Hnone. cbv zeta. unfold processQuery.
  pose proof (getOrCreateContext_spec io (conversations st) sid uid) as Hg.
  destruct (getOrCreateContext io (conversations st) sid uid) as [convs ctx].
  cbn [fst snd] in Hg. destruct Hg as [Hsid [Hhist _]].
  unfold classifyQuery. cbn [env claudePromise agentRegistry].
  destruct (classify_returns JSON_parse (env io) query (claudePromise io) (agentRegistry st))
    as [c [-> Hcases]].
  assert (Ht : targetAgent c = "location-agent-001").
  { destruct Hcases as [Hfb | [_ Hres]].
    - destruct (IsFallback_fields _ _ _ Hfb) as [-> _].
      unfold fallbackClassification. cbn [targetAgent]. now rewrite Hnone.
    - now rewrite no_healthy_agent_resolves in Hres. }
  match goal with |- context [routeToAgent ?f ?m ?h ?i ?s ?q ?c ?x] =>
    destruct (routeToAgent_refuses f m h i s q c x) as [msg [Hr Herr]] end.
  { cbn [agentRegistry]. now apply no_healthy_agent_resolves. }
  rewrite Hr. cbn [fst snd]. exists msg. rewrite <- Ht.
  split; [reflexivity|]. split; [exact Herr|]. split; [reflexivity|].
  unfold historyOf. cbn [conversations]. now rewrite Hsid, Hhist.
Qed.

(** The classification when no agent is healthy. *)
Lemma no_healthy_agent_target (env : Env) (query : string)
    (claude : Promise (list ContentBlock)) (reg : AgentRegistry) :
  getHealthyAgents reg = [] ->
  exists c, classifyQueryLLM JSON_parse env query claude reg = Returned c /\
            targetAgent c = "location-agent-001".
Proof.
  intros Hnone. destruct (classify_returns JSON_parse env query claude reg) as [c [Hc Hcases]].
  exists c. split; [exact Hc|]. destruct Hcases as [Hfb | [_ Hres]].
  - destruct (IsFallback_fields _ _ _ Hfb) as [-> _].
    unfold fallbackClassification. cbn [targetAgent]. now rewrite Hnone.
  - now rewrite no_healthy_agent_resolves in Hres.
Qed.

(** X13.  [stopAgents] stops the location agent and empties its memory
    and the registry, but keeps the orchestrator's conversations.
    Afterwards every query fails with "Agent location-agent-001 not
    found", which [POST /query] reports with status 500. *)
Theorem stopped_agents_are_not_found (routeNow : N) (io : QueryIO) (st : State)
    (body : QueryBody) (query : string) :
  bodyQuery body = Some query ->
  query <> "" ->
  let stopped := stopAgents st in
  conversations stopped = conversations st /\
  getAllAgents (agentRegistry stopped) = [] /\
  LocationAgent.isRunning (locationAgent stopped) = false /\
  LocationAgent.conversations (locationAgent stopped) = [] /\
  (forall sid uid,
     snd (processQuery JSON_parse fmt mcpServer handlers io stopped query sid uid) =
     Thrown (JsError "Agent location-agent-001 not found")) /\
  snd (postQuery JSON_parse fmt mcpServer handlers routeNow io stopped body) =
    (500, ErrorBody "Failed to process query" (Some "Agent location-agent-001 not found")).
Proof.
  intros Hq Hne. cbv zeta. do 4 (split; [reflexivity|]).
  assert (Hp : forall sid uid,
             snd (processQuery JSON_parse fmt mcpServer handlers io (stopAgents st)
                               query sid uid) =
             Thrown (JsError "Agent location-agent-001 not found")).
  { intros sid uid. unfold processQuery.
    destruct (getOrCreateContext io (conversations (stopAgents st)) sid uid) as [convs ctx].
    unfold classifyQuery. cbn [env claudePromise agentRegistry stopAgents].
    destruct (no_healthy_agent_target (env io) query (claudePromise io) (Registry.stop (agentRegistry st)))
      as [c [-> Ht]]; [reflexivity|].
    unfold routeToAgent. cbn [agentRegistry]. rewrite Ht. reflexivity. }
  split; [exact Hp|]. unfold postQuery. rewrite Hq.
  apply String.eqb_neq in Hne. rewrite Hne.
  match goal with |- context [processQuery ?j ?f ?m ?h ?i ?s ?q ?sid ?u] =>
    specialize (Hp sid u); destruct (processQuery j f m h i s q sid u) as [st' r] end.
  cbn [snd] in Hp. now rewrite Hp.
Qed.

End QueryOutcomeFacts.

(** ** Outcomes of a query at run time *)

Section RawQueryFacts.
Import Js Router A2A Mcp Discovery RawRegistry RawRouter RawOrchestrator.
Variable fmt : LocationAgent.NumberFormat.
Variable characters : string -> list string.
Variable stringToNumber : string -> option Q.
Variable JSON_parse : string -> Outcome JsVal.
Variable mcpServer : MCPServer.
Variable handlers : LocationAgent.OtherHandlers.


Lemma mapGet_NoDup_In {V} (m : JsMap V) (k : string) (v : V) :
  NoDup (mapKeys m) -> In (k, v) m -> mapGet m k = Some v.
Proof.
  unfold mapKeys. induction m as [|[k' v'] m IH]; intros Hnd Hin; [contradiction|].
  cbn [map fst] in Hnd. apply NoDup_cons in Hnd as [Hk Hnd]. cbn [mapGet].
  destruct Hin as [[= -> ->] | Hin]; [now rewrite String.eqb_refl|].
  destruct (String.eqb k' k) eqn:E; [|now apply IH].
  apply String.eqb_eq in E. subst k'. exfalso. apply Hk.
  apply list_elem_of_In, in_map_iff. now exists (k, v).
Qed.


(** The registry that discovery builds is well keyed. *)
Lemma start_RawWellKeyed (fetchJson : string -> Outcome JsVal) (now : N)
    (configAgents : list AgentConfig) :
  RawWellKeyed (entriesOf (Discovery.start fetchJson now configAgents [])).
Proof.
  assert (Hd : Discovered fetchJson now configAgents
                 (Discovery.start fetchJson now configAgents [])).
  { apply discoverAgents_Discovered; [intros x Hx; exact Hx|].
    split; [apply NoDup_nil_2 | intros id entry H; discriminate]. }
  destruct Hd as [Hnd Hall]. split.
  { unfold mapKeys, entriesOf. rewrite map_map. exact Hnd. }
  apply List.Forall_forall. intros [k props] Hin. cbn [fst snd].
  unfold entriesOf in Hin. apply in_map_iff in Hin as [[k' entry] [[= -> <-] Hin]].
  destruct (Hall k entry (mapGet_NoDup_In _ k entry Hnd Hin))
    as [agentConfig [manifest [_ [_ [_ [Hid ->]]]]]].
  unfold makeEntry. cbn [ownProps].
  destruct manifest; cbn in Hid; try discriminate.
  cbn [ownProps]. injection Hid as Hid. now rewrite !lookupProp_mapSet_ne by discriminate.
Qed.
















End RawQueryFacts.

(** ** The tool catalog and the manifest of the location agent *)

Section ManifestFacts.
Import Js A2A Mcp LocationAgent Discovery.
Variable inheritedProperty : string -> JsVal.

Lemma handlersOf_get (catalog : Catalog) (name : string) :
  mapGet (handlersOf catalog) name =
  match mapGet catalog name with
  | Some tool => Some (handler tool)
  | None => None
  end.
Proof.
  unfold handlersOf. induction catalog as [|[k t] catalog IH]; simpl; [reflexivity|].
  destruct (String.eqb k name); [reflexivity | exact IH].
Qed.

(** X14.  Registering and calling tools.  After [addTool], a call of
    the tool's name runs the handler just added, also when the name was
    taken (the earlier tool is replaced, at its place in the list); the
    calls of every other name are as before.  The names [listTools]
    gives stay distinct.  A call of a name that is not listed rejects at
    once with "Tool <name> not found". *)
Theorem tool_registration_round_trip (catalog : Catalog) (tool : Tool)
    (name : string) (params : JsVal) :
  callTool (handlersOf (addTool catalog tool)) (mcpToolName tool) params =
    handler tool params /\
  getToolInfo (addTool catalog tool) (mcpToolName tool) = Some tool /\
  (name <> mcpToolName tool ->
   callTool (handlersOf (addTool catalog tool)) name params =
   callTool (handlersOf catalog) name params) /\
  (In (mcpToolName tool) (listTools catalog) ->
   listTools (addTool catalog tool) = listTools catalog) /\
  (~ In (mcpToolName tool) (listTools catalog) ->
   listTools (addTool catalog tool) = listTools catalog ++ [mcpToolName tool]) /\
  (NoDup (listTools catalog) -> NoDup (listTools (addTool catalog tool))) /\
  (~ In name (listTools catalog) ->
   callTool (handlersOf catalog) name params =
   mkSettled 0 (Thrown (JsError ("Tool " +:+ name +:+ " not found")))).
Proof.
  unfold callTool, addTool, getToolInfo, listTools. rewrite !handlersOf_get.
  rewrite mapGet_mapSet_eq. split; [reflexivity|]. split; [reflexivity|].
  split; [intros Hne; now rewrite mapGet_mapSet_ne by congruence|].
  split; [intros Hin; apply mapKeys_mapSet_present; now apply mapHas_In|].
  split.
  { intros Hin. apply mapKeys_mapSet_new. destruct (mapHas catalog (mcpToolName tool)) eqn:E;
      [|reflexivity]. apply mapHas_In in E. contradiction. }
  split; [apply NoDup_mapKeys_mapSet|].
  intros Hin. destruct (mapGet catalog name) as [t|] eqn:E; [|reflexivity].
  exfalso. apply Hin. apply mapHas_In. unfold mapHas. now rewrite E.
Qed.

(** X15.  What the registry learns from the location agent.  The
    manifest of the agent passes validation whatever its state and its
    tools, under the id "location-agent-001", so discovery of the local
    instance registers exactly that key.  Its status, the health flag of
    the registered entry and the verdict of a later health check all say
    the same: healthy exactly when the agent is running and its tools
    are ready, that is after a successful [start] and until [stop]; a
    [start] that fails changes nothing. *)
Theorem manifest_and_health_agree (catalog : Catalog) (agent : LocationAgentServer) :
  let manifest := LocationAgent.getManifest inheritedProperty catalog agent in
  let ok := isRunning agent && mcpReady agent in
  validateManifest manifest = Returned true /\
  getProp manifest "agentId" = Returned (JStr "location-agent-001") /\
  statusIsHealthy manifest = ok /\
  Refresh.reportsHealthy (healthCheck catalog agent) = Returned ok /\
  (forall fetchJson now configuredId configuredEndpoint,
     let agents :=
       Discovery.start fetchJson now
         [mkAgentConfig configuredId configuredEndpoint
                        (Some (mkInstance (Returned manifest)))] [] in
     mapKeys agents = ["location-agent-001"] /\
     exists entry,
       mapGet agents "location-agent-001" = Some entry /\
       getProp entry "healthy" = Returned (JBool ok)) /\
  statusText (fst (LocationAgent.start (Returned tt) agent)) = "healthy" /\
  (forall e, LocationAgent.start (Thrown e) agent = (agent, Thrown e)) /\
  statusText (LocationAgent.stop agent) = "unhealthy".
Proof.
  cbv zeta.
  assert (Hs : statusIsHealthy (LocationAgent.getManifest inheritedProperty catalog agent) =
               isRunning agent && mcpReady agent).
  { unfold statusIsHealthy, LocationAgent.getManifest, statusText. cbn [ownProps lookupProp String.eqb].
    now destruct (isRunning agent && mcpReady agent). }
  split; [reflexivity|]. split; [reflexivity|]. split; [exact Hs|].
  split.
  { unfold Refresh.reportsHealthy, healthCheck, statusText. cbn [getProp lookupProp bind].
    now destruct (isRunning agent && mcpReady agent). }
  split.
  { intros fetchJson now cid cend. unfold Discovery.start, discoverAgents.
    cbn [fold_left]. unfold discoverStep, tryDiscover, fetchManifest.
    cbn [cfgInstance Discovery.getManifest bind].
    change (validateManifest (LocationAgent.getManifest inheritedProperty catalog agent))
      with (@Returned bool true).
    cbn [bind negb]. unfold LocationAgent.getManifest at 1. cbn [ownProps lookupProp String.eqb].
    cbn [mapSet mapKeys map fst mapGet]. split; [reflexivity|].
    eexists. split; [reflexivity|].
    destruct (makeEntry_owned now
                (mkAgentConfig cid cend
                   (Some (mkInstance (Returned (LocationAgent.getManifest inheritedProperty catalog agent)))))
                (LocationAgent.getManifest inheritedProperty catalog agent)) as [Hh _].
    now rewrite Hh, Hs. }
  split; [reflexivity|]. split; [reflexivity|].
  unfold statusText, LocationAgent.stop. reflexivity.
Qed.

End ManifestFacts.

(** ** Memory, manifest and planning of the location agent *)

Section AgentStateFacts.
Import Js A2A Mcp LocationAgent.
Variable fmt : NumberFormat.
Variable mcpServer : MCPServer.
Variable handlers : OtherHandlers.

Lemma processMessage_remembers (io : AgentIO) (agent : LocationAgentServer)
    (message : A2AMessage) :
  isRunning agent = true ->
  let agent' := fst (processMessage fmt mcpServer handlers io agent message) in
  isRunning agent' = true /\
  remembered agent' (msgSessionId message) =
    (fst (remembered agent (msgSessionId message)) ++ [message],
     snd (remembered agent (msgSessionId message)) ++ [msgContent message]) /\
  forall s, s <> msgSessionId message -> remembered agent' s = remembered agent s.
Proof.
  intros Hrun. cbv zeta. unfold processMessage, handleMessage. rewrite Hrun.
  cbn [negb fst isRunning conversations]. split; [reflexivity|].
  unfold remembered. cbn [conversations]. split.
  - rewrite mapGet_mapSet_eq. unfold updateConversationContext, getOrCreateMemory.
    cbn [messages queryHistory].
    now destruct (mapGet (conversations agent) (msgSessionId message)).
  - intros s Hs. now rewrite mapGet_mapSet_ne by congruence.
Qed.

(** X16.  The location agent remembers every message: after it has
    processed an inbox of messages of one session, its memory of that
    session holds the messages it held before followed by all the
    messages of the inbox, in order, and likewise the query texts;
    nothing is ever dropped (there is no bound as in the orchestrator),
    the memory of the other sessions is untouched, and the agent is
    still running. *)
Theorem memory_keeps_every_message (agent : LocationAgentServer)
    (inbox : list (AgentIO * A2AMessage)) (sessionId : string) :
  isRunning agent = true ->
  (forall turn, In turn inbox -> msgSessionId (snd turn) = sessionId) ->
  let agent' := deliver fmt mcpServer handlers agent inbox in
  isRunning agent' = true /\
  remembered agent' sessionId =
    (fst (remembered agent sessionId) ++ map snd inbox,
     snd (remembered agent sessionId) ++ map (fun turn => msgContent (snd turn)) inbox) /\
  (forall s, s <> sessionId -> remembered agent' s = remembered agent s).
Proof.
  intros Hrun Hsid. cbv zeta. revert agent Hrun.
  induction inbox as [|turn inbox IH]; intros agent Hrun.
  - cbn [deliver fold_left map]. rewrite !app_nil_r.
    split; [exact Hrun|]. split; [now destruct (remembered agent sessionId) | reflexivity].
  - change (deliver fmt mcpServer handlers agent (turn :: inbox))
      with (deliver fmt mcpServer handlers
              (fst (processMessage fmt mcpServer handlers (fst turn) agent (snd turn)))
              inbox).
    destruct (processMessage_remembers (fst turn) agent (snd turn) Hrun)
      as [Hrun' [Hmem Hother]].
    rewrite (Hsid turn) in Hmem, Hother by (now left).
    destruct (IH (fun t Ht => Hsid t (or_intror Ht)) _ Hrun') as [Hr [Hm Ho]].
    split; [exact Hr|]. split.
    + rewrite Hm, Hmem. cbn [fst snd map]. now rewrite <- !app_assoc.
    + intros s Hs. now rewrite (Ho s Hs), (Hother s Hs).
Qed.

Lemma processWarehouseQuery_text_only (io : AgentIO) (m1 m2 : A2AMessage) :
  msgContent m1 = msgContent m2 -> msgSessionId m1 = msgSessionId m2 ->
  processWarehouseQuery fmt mcpServer handlers io m1 =
  processWarehouseQuery fmt mcpServer handlers io m2.
Proof. intros Hc Hs. unfold processWarehouseQuery. now rewrite Hc, Hs. Qed.

(** X17.  The answer of the location agent depends on the text and the
    session id of the message only: neither what the agent remembers of
    the conversation, nor the classification and the context the
    orchestrator attaches to the message, nor the sender, the message id
    or its time, changes the response. *)
Theorem answer_ignores_memory_and_metadata (io : AgentIO)
    (agent1 agent2 : LocationAgentServer) (m1 m2 : A2AMessage) :
  isRunning agent1 = true -> isRunning agent2 = true ->
  msgContent m1 = msgContent m2 -> msgSessionId m1 = msgSessionId m2 ->
  snd (processMessage fmt mcpServer handlers io agent1 m1) =
  snd (processMessage fmt mcpServer handlers io agent2 m2).
Proof.
  intros H1 H2 Hc Hs. unfold processMessage, handleMessage. rewrite H1, H2.
  cbn [negb snd]. now rewrite (processWarehouseQuery_text_only io m1 m2 Hc Hs).
Qed.

(** X18.  The count handler and the explanation handler exclude each
    other's queries: a query whose lower-cased text holds both
    "explain" and "how many" is handled by neither of them, but by one
    of the six other handlers. *)
Theorem explain_how_many_is_neither (query : string) :
  includes (toLowerCase query) "explain" = true ->
  includes (toLowerCase query) "how many" = true ->
  let note := "🧠 Planning approach for: " +:+ dq +:+ query +:+ dq in
  let plan := planAndExecuteQuery fmt handlers query in
  plan = Reason note (handleRankingQuery handlers query) \/
  plan = Reason note (handleComparisonQuery handlers query) \/
  plan = Reason note (handleLocationQuery handlers query) \/
  plan = Reason note (handleAreaQuery handlers query) \/
  plan = Reason note (handleSummaryQuery fmt query) \/
  plan = Reason note (handleFlexibleQuery handlers query).
Proof.
  intros He Hh. cbv zeta. unfold planAndExecuteQuery. rewrite He, Hh.
  change (negb true) with false. rewrite !andb_false_r.
  repeat match goal with
         | |- context [if ?b then _ else _] => destruct b
         end; auto 10.
Qed.

End AgentStateFacts.

(** ** Product numbers in a query *)

Section MatchFacts.
Import Js LocationHandlers.

Lemma takeChars_leadingDigits (s : string) :
  s = takeChars (leadingDigits s) s +:+ dropChars (leadingDigits s) s /\
  allDigits (takeChars (leadingDigits s) s) = true /\
  String.length (takeChars (leadingDigits s) s) = leadingDigits s.
Proof.
  induction s as [|c s [H1 [H2 H3]]]; simpl; [now repeat split|].
  destruct (isDigit c) eqn:Hc; simpl; [|now repeat split].
  rewrite Hc, H2, H3. now rewrite <- H1.
Qed.

Lemma matchFrom_search (prevIsWord : bool) (s : string) :
  matchFrom prevIsWord s = None <-> searchFrom prevIsWord s = false.
Proof.
  revert prevIsWord. induction s as [|c s IH]; intros b; simpl; [tauto|].
  destruct (negb b && matchDigitsHere (String c s)); simpl; [split; discriminate | apply IH].
Qed.

Lemma matchFrom_head (prevIsWord : bool) (s : string) :
  matchFrom prevIsWord s = hd_error (matchAllFrom prevIsWord s).
Proof.
  revert prevIsWord. induction s as [|c s IH]; intros b; simpl; [reflexivity|].
  destruct (negb b && matchDigitsHere (String c s)); [reflexivity | apply IH].
Qed.

(** Every match is a run of at least six digits between word
    boundaries. *)
Lemma matchAllFrom_occurrence (prevIsWord : bool) (s ds : string) :
  In ds (matchAllFrom prevIsWord s) ->
  exists pre post,
    s = pre +:+ ds +:+ post /\
    allDigits ds = true /\ 6 <= String.length ds /\
    (if String.eqb pre "" then prevIsWord else endsWithWordChar pre) = false /\
    boundaryAfterWord post = true.
Proof.
  revert prevIsWord. induction s as [|c s IH]; intros b; [contradiction|].
  cbn [matchAllFrom].
  assert (Hlater : In ds (matchAllFrom (isWordChar c) s) ->
                   exists pre post,
                     String c s = pre +:+ ds +:+ post /\
                     allDigits ds = true /\ 6 <= String.length ds /\
                     (if String.eqb pre "" then b else endsWithWordChar pre) = false /\
                     boundaryAfterWord post = true).
  { intros Hin. destruct (IH _ Hin) as [pre [post [H [Hds [Hlen [Hpre Hpost]]]]]].
    exists (String c pre), post. simpl. rewrite H. repeat split; try assumption.
    destruct pre as [|d pre]; simpl in *; assumption. }
  destruct (negb b && matchDigitsHere (String c s)) eqn:E; [|exact Hlater].
  intros [<- | Hin]; [|now apply Hlater].
  apply andb_true_iff in E as [Hb Hm]. apply negb_true_iff in Hb.
  unfold matchDigitsHere in Hm. apply andb_true_iff in Hm as [Hn Hpost].
  apply Nat.leb_le in Hn.
  destruct (takeChars_leadingDigits (String c s)) as [H1 [H2 H3]].
  exists EmptyString, (dropChars (leadingDigits (String c s)) (String c s)).
  simpl String.eqb. repeat split; try assumption. lia.
Qed.

(** The first match is an occurrence of the pattern, and no occurrence
    starts before it. *)
Lemma matchFrom_leftmost (prevIsWord : bool) (s ds : string) :
  matchFrom prevIsWord s = Some ds ->
  exists pre post,
    s = pre +:+ ds +:+ post /\
    allDigits ds = true /\ 6 <= String.length ds /\
    (if String.eqb pre "" then prevIsWord else endsWithWordChar pre) = false /\
    boundaryAfterWord post = true /\
    forall pre' ds' post',
      s = pre' +:+ ds' +:+ post' ->
      allDigits ds' = true -> 6 <= String.length ds' ->
      (if String.eqb pre' "" then prevIsWord else endsWithWordChar pre') = false ->
      boundaryAfterWord post' = true ->
      String.length pre <= String.length pre'.
Proof.
  revert prevIsWord. induction s as [|c s IH]; intros b; [discriminate|].
  cbn [matchFrom]. destruct (negb b && matchDigitsHere (String c s)) eqn:E.
  - intros [= <-]. destruct (takeChars_leadingDigits (String c s)) as [H1 [H2 H3]].
    apply andb_true_iff in E as [Hb Hm]. apply negb_true_iff in Hb.
    unfold matchDigitsHere in Hm. apply andb_true_iff in Hm as [Hn Hpost].
    apply Nat.leb_le in Hn.
    exists EmptyString, (dropChars (leadingDigits (String c s)) (String c s)).
    split; [exact H1|]. split; [exact H2|].
    split; [change (6 <= String.length (takeChars (leadingDigits (String c s)) (String c s)));
            now rewrite H3|].
    split; [exact Hb|]. split; [exact Hpost|]. intros. simpl. lia.
  - intros Hm. destruct (IH _ Hm) as [pre [post [H [Hds [Hlen [Hpre [Hpost Hleft]]]]]]].
    exists (String c pre), post. split; [simpl; now rewrite H|].
    do 2 (split; [assumption|]).
    split; [destruct pre as [|d pre]; simpl in *; assumption|].
    split; [assumption|].
    intros pre' ds' post' H' Hds' Hlen' Hpre' Hpost'.
    destruct pre' as [|d pre']; simpl in H', Hpre'.
    + exfalso. subst b. simpl in E. unfold matchDigitsHere in E. rewrite H' in E.
      destruct (leadingDigits_app ds' post' Hds' Hpost') as [E1 E2].
      rewrite E1, E2, Hpost', andb_true_r in E. apply Nat.leb_gt in E. lia.
    + injection H' as <- H'. simpl. apply le_n_S.
      apply (Hleft pre' ds' post' H' Hds' Hlen'); [|exact Hpost'].
      destruct pre' as [|e pre']; simpl in *; assumption.
Qed.

(** The first match: the head of all matches, an occurrence of the
    pattern, and the leftmost one. *)
Lemma matchProductNumber_spec (s : string) :
  match matchProductNumber s with
  | None => testProductNumber s = false /\ matchAllProductNumbers s = []
  | Some ds =>
      testProductNumber s = true /\
      hd_error (matchAllProductNumbers s) = Some ds /\
      exists pre,
        ProductNumberAt s pre ds /\
        forall pre' ds', ProductNumberAt s pre' ds' ->
                         String.length pre <= String.length pre'
  end.
Proof.
  unfold matchProductNumber, testProductNumber, matchAllProductNumbers.
  pose proof (matchFrom_head false s) as Hh.
  pose proof (matchFrom_search false s) as Hs.
  pose proof (matchFrom_leftmost false s) as Hl.
  destruct (matchFrom false s) as [ds|].
  - split.
    { destruct (searchFrom false s); [reflexivity|].
      destruct Hs as [_ Hs]. specialize (Hs eq_refl). discriminate. }
    split; [now symmetry|].
    destruct (Hl ds eq_refl) as [pre [post [H [Hds [Hlen [Hpre [Hpost Hleft]]]]]]].
    assert (Hpre' : endsWithWordChar pre = false)
      by (destruct pre; simpl in *; [reflexivity | assumption]).
    exists pre. split; [now exists post|].
    intros pre' ds' [post' [H' [Hds' [Hlen' [Hpre'' Hpost']]]]].
    apply (Hleft pre' ds' post' H' Hds' Hlen'); [|exact Hpost'].
    destruct pre'; simpl in *; [reflexivity | assumption].
  - split; [now apply Hs|]. now destruct (matchAllFrom false s).
Qed.

End MatchFacts.

(** ** The handlers of the location agent *)

Section HandlerFacts.
Import Js A2A Mcp LocationAgent LocationHandlers.
Variable fmt : NumberFormat.
Variable stringToNumber : string -> option Q.
Variable mcpServer : MCPServer.

Lemma finish_run (text : Outcome string) :
  runScript mcpServer (finish text) =
  {| pushedReasoning := []; pushedToolCalls := []; completion := text |}.
Proof. now destruct text. Qed.

Lemma plan_location (handlers : OtherHandlers) (query : string) :
  isLocationQuery query = true ->
  planAndExecuteQuery fmt handlers query =
  Reason ("🧠 Planning approach for: " +:+ dq +:+ query +:+ dq)
         (LocationAgent.handleLocationQuery handlers query).
Proof.
  unfold isLocationQuery, planAndExecuteQuery. intros H.
  repeat (apply andb_true_iff in H as [H ?]).
  repeat match goal with
         | Hn : negb _ = true |- _ => apply negb_true_iff in Hn; rewrite Hn
         | Hp : _ = true |- _ => rewrite Hp
         end.
  reflexivity.
Qed.

(** X19.  The location handler looks up the first product number of
    the query as typed: a run of at least six digits between word
    boundaries, the leftmost one.  It makes exactly one call, of
    [find_product_locations] with that number, and records it once it
    has answered; a rejected call is thrown on with nothing recorded; an
    answer without products gives the "not found" text; an answer whose
    first product is an object gives the text of its fields.  Without a
    product number in the query no tool is called and the answer asks
    for one.  This is the handler the agent runs for a query that asks
    "where is", "find" or "locate" (and has no keyword of an earlier
    rule). *)
Theorem location_handler_looks_up_first_number (query : string) :
  let script := LocationHandlers.handleLocationQuery fmt stringToNumber query in
  let run := runScript mcpServer script in
  (forall ranking area,
     isLocationQuery query = true ->
     planAndExecuteQuery fmt (sourceHandlers fmt stringToNumber ranking area) query =
     Reason ("🧠 Planning approach for: " +:+ dq +:+ query +:+ dq) script) /\
  match matchProductNumber query with
  | None =>
      callsMade mcpServer script = [] /\
      pushedToolCalls run = [] /\
      completion run = Returned locationPrompt
  | Some productNumber =>
      (exists pre,
         ProductNumberAt query pre productNumber /\
         forall pre' ds', ProductNumberAt query pre' ds' ->
                          String.length pre <= String.length pre') /\
      callsMade mcpServer script =
        [("find_product_locations", locationParams productNumber)] /\
      let answer :=
        settledWith (callTool mcpServer "find_product_locations"
                              (locationParams productNumber)) in
      (forall e, answer = Thrown e ->
         completion run = Thrown e /\ pushedToolCalls run = []) /\
      (forall result, answer = Returned result ->
         pushedToolCalls run =
           [mkToolCall "find_product_locations" (locationParams productNumber) result] /\
         (forall products,
            getProp result "products" = Returned products ->
            hasProducts fmt stringToNumber products = false ->
            completion run = Returned (locationNotFound productNumber)) /\
         (forall props rest,
            getProp result "products" = Returned (JArr (JObj props :: rest)) ->
            completion run =
            Returned (
              "📍 **Product Location Found:**" +:+ nl +:+ nl +:+
              "🏷️ **Product**: " +:+ productNumber +:+ " - " +:+
                showOr fmt (lookupProp props "productDescription") "No description" +:+ nl +:+
              "📍 **Location**: Area " +:+ toStr fmt (lookupProp props "areaId") +:+
                ", Aisle " +:+ toStr fmt (lookupProp props "aisle") +:+
                ", Bay " +:+ toStr fmt (lookupProp props "bay") +:+
                ", Level " +:+ toStr fmt (lookupProp props "levelNumber") +:+ nl +:+
              "📦 **Quantity**: " +:+ toStr fmt (lookupProp props "qtyAvailUnits") +:+
                " units, " +:+ toStr fmt (lookupProp props "qtyAvailEaches") +:+
                " eaches" +:+ nl +:+
              "🏷️ **Pallet**: " +:+ toStr fmt (lookupProp props "palletId") +:+
                " (License: " +:+ toStr fmt (lookupProp props "licensePlate") +:+ ")" +:+ nl +:+
              "📅 **Expires**: " +:+
                showOr fmt (lookupProp props "expirationDate") "No expiration" +:+ nl +:+
              "📊 **Status**: " +:+ toStr fmt (lookupProp props "invyStatus") +:+
                " (Slot: " +:+ toStr fmt (lookupProp props "palletStatus") +:+ ")")))
  end.
Proof.
  cbv zeta. split.
  { intros ranking area Hq. now rewrite (plan_location _ _ Hq). }
  unfold LocationHandlers.handleLocationQuery.
  pose proof (matchProductNumber_spec query) as Hm.
  destruct (matchProductNumber query) as [n|]; [|now repeat split].
  destruct Hm as [_ [_ Hocc]]. split; [exact Hocc|].
  cbn [callsMade runScript].
  destruct (settledWith (callTool mcpServer "find_product_locations" (locationParams n)))
    as [result|e].
  - cbn [callsMade]. rewrite callsMade_finish. split; [reflexivity|].
    split; [discriminate|]. intros r [= <-].
    cbn [pushNote pushCall pushedToolCalls completion]. rewrite finish_run.
    cbn [pushedToolCalls completion]. split; [reflexivity|]. split.
    + intros products -> Hp. cbn [bind]. now rewrite Hp.
    + intros props rest ->. reflexivity.
  - split; [reflexivity|]. split; [|discriminate].
    intros e' [= <-]. now split.
Qed.

Lemma testDigits_no_match (prevIsWord : bool) (s : string) :
  testDigits s = false -> matchAllFrom prevIsWord s = [].
Proof.
  revert prevIsWord. induction s as [|c s IH]; intros b; [reflexivity|].
  cbn [testDigits matchAllFrom]. intros H. apply orb_false_iff in H as [Hc Hs].
  rewrite (IH _ Hs). unfold matchDigitsHere. cbn [leadingDigits]. rewrite Hc.
  now rewrite andb_false_r.
Qed.

(** The loop of the flexible handler: the calls are made in order up to
    the first one that rejects. *)
Lemma searchProducts_calls (numbers : list string) (results : list (string * JsVal))
    (next : list (string * JsVal) -> Script) :
  (forall rs, callsMade mcpServer (next rs) = []) ->
  let calls := map (fun n => ("find_product_locations", flexibleParams n)) numbers in
  (exists fewer, callsMade mcpServer (searchProducts numbers results next) =
                 firstn fewer calls) /\
  ((forall c, In c calls -> Answers mcpServer c) ->
   callsMade mcpServer (searchProducts numbers results next) = calls /\
   exists text,
     runScript mcpServer (searchProducts numbers results next) =
     fold_right (fun n run =>
                   pushCall (mkToolCall "find_product_locations" (flexibleParams n)
                               (resultOf mcpServer "find_product_locations"
                                         (flexibleParams n)))
                            run)
                {| pushedReasoning := pushedReasoning (runScript mcpServer (next text));
                   pushedToolCalls := pushedToolCalls (runScript mcpServer (next text));
                   completion := completion (runScript mcpServer (next text)) |}
                numbers).
Proof.
  intros Hnext. cbv zeta. revert results.
  induction numbers as [|n rest IH]; intros results.
  - cbn [searchProducts map]. split; [exists 0; now rewrite Hnext|].
    intros _. split; [apply Hnext|]. exists results. cbn [fold_right].
    now destruct (runScript mcpServer (next results)).
  - cbn [searchProducts map callsMade runScript]. unfold resultOf.
    cbn [fold_right].
    destruct (settledWith (callTool mcpServer "find_product_locations" (flexibleParams n)))
      as [result|e] eqn:E.
    + destruct (IH (results ++ [(n, result)])) as [[fewer Hf] Hall]. split.
      * exists (S fewer). cbn [firstn callsMade]. now rewrite Hf.
      * intros Hans. destruct Hall as [Hc [text Hr]];
          [intros c Hc; apply Hans; now right|].
        cbn [callsMade]. rewrite Hc. split; [reflexivity|].
        exists text. unfold resultOf in Hr. now rewrite Hr.
    + split; [now exists 1|]. intros Hans.
      destruct (Hans ("find_product_locations", flexibleParams n)) as [r Hr];
        [now left|]. cbn [fst snd] in Hr. congruence.
Qed.

(** The loop of the flexible handler when a call rejects: the calls
    before it are recorded, the calls after it are never made. *)
Lemma searchProducts_rejected (answered : list string) (n : string) (rest : list string)
    (e : JsThrown) (results : list (string * JsVal))
    (next : list (string * JsVal) -> Script) :
  (forall m, In m answered ->
             Answers mcpServer ("find_product_locations", flexibleParams m)) ->
  settledWith (callTool mcpServer "find_product_locations" (flexibleParams n)) = Thrown e ->
  callsMade mcpServer (searchProducts (answered ++ n :: rest) results next) =
    map (fun m => ("find_product_locations", flexibleParams m)) (answered ++ [n]) /\
  pushedToolCalls (runScript mcpServer (searchProducts (answered ++ n :: rest) results next)) =
    map (fun m => mkToolCall "find_product_locations" (flexibleParams m)
                    (resultOf mcpServer "find_product_locations" (flexibleParams m)))
        answered /\
  completion (runScript mcpServer (searchProducts (answered ++ n :: rest) results next)) =
    Thrown e.
Proof.
  intros Hans He. revert results.
  induction answered as [|m answered IH]; intros results.
  - cbn [app searchProducts callsMade runScript map]. rewrite He. now repeat split.
  - cbn [app searchProducts callsMade runScript map]. unfold resultOf.
    destruct (Hans m (or_introl eq_refl)) as [r Hr]. cbn [fst snd] in Hr. rewrite Hr.
    destruct (IH (fun m' Hm' => Hans m' (or_intror Hm')) (results ++ [(m, r)]))
      as [Hc [Hp Hd]].
    cbn [callsMade runScript pushCall pushedToolCalls completion].
    rewrite Hc, Hp, Hd. now repeat split.
Qed.

(** X20.  The flexible handler searches at most three product numbers:
    when the lower-cased query mentions "product" and the query as typed
    holds product numbers, it calls [find_product_locations] for the
    first three of them, one after the other in the order they occur.
    The calls are made in turn: when the calls for some of the numbers
    have answered and the call for the next number rejects, exactly the
    calls up to that one have been made, those that answered are
    recorded with their results, the handler throws the rejection, and
    the remaining numbers are never looked up.  When all the calls
    answer, each is recorded with its result.  In every other case the
    handler calls no tool and answers with the guidance text.  Every
    number it looks up is a run of at least six digits between word
    boundaries. *)
Theorem flexible_handler_searches_three_numbers (query : string) :
  let script := LocationHandlers.handleFlexibleQuery fmt stringToNumber query in
  let run := runScript mcpServer script in
  let numbers := matchAllProductNumbers query in
  let call n := ("find_product_locations", flexibleParams n) in
  let recorded n :=
    mkToolCall "find_product_locations" (flexibleParams n)
               (resultOf mcpServer "find_product_locations" (flexibleParams n)) in
  (forall n, In n numbers -> exists pre, ProductNumberAt query pre n) /\
  (includes (toLowerCase query) "product" = false \/ numbers = [] ->
   callsMade mcpServer script = [] /\
   pushedToolCalls run = [] /\
   completion run = Returned flexibleGuidance) /\
  (includes (toLowerCase query) "product" = true ->
   length (callsMade mcpServer script) <= 3 /\
   (forall answered n rest e,
      firstn 3 numbers = answered ++ n :: rest ->
      (forall m, In m answered -> Answers mcpServer (call m)) ->
      settledWith (callTool mcpServer "find_product_locations" (flexibleParams n)) =
        Thrown e ->
      callsMade mcpServer script = map call (answered ++ [n]) /\
      pushedToolCalls run = map recorded answered /\
      completion run = Thrown e) /\
   ((forall n, In n (firstn 3 numbers) -> Answers mcpServer (call n)) ->
    callsMade mcpServer script = map call (firstn 3 numbers) /\
    pushedToolCalls run = map recorded (firstn 3 numbers))).
Proof.
  cbv zeta. split.
  { intros n Hin. unfold matchAllProductNumbers in Hin.
    destruct (matchAllFrom_occurrence false query n Hin)
      as [pre [post [H [Hds [Hlen [Hpre Hpost]]]]]].
    exists pre, post. repeat split; try assumption.
    destruct pre; simpl in *; [reflexivity | assumption]. }
  unfold LocationHandlers.handleFlexibleQuery.
  assert (Hnone : matchAllProductNumbers query = [] ->
                  (if includes (toLowerCase query) "product" && testDigits query
                   then match matchAllProductNumbers query with
                        | [] => Finish flexibleGuidance
                        | _ :: _ =>
                            searchProducts (firstn 3 (matchAllProductNumbers query)) []
                              (fun results =>
                                 finish (fold_left
                                           (fun response entry =>
                                              bind response (fun r =>
                                                appendProduct fmt stringToNumber r entry))
                                           results (Returned flexibleHeader)))
                        end
                   else Finish flexibleGuidance) = Finish flexibleGuidance).
  { intros ->. now destruct (includes (toLowerCase query) "product" && testDigits query). }
  split.
  - intros [Hp | Hn].
    + rewrite Hp. now repeat split.
    + rewrite (Hnone Hn). now repeat split.
  - intros Hp. rewrite Hp. cbn [andb].
    destruct (matchAllProductNumbers query) as [|n0 l] eqn:En.
    { destruct (testDigits query); cbn; (split; [lia|]);
        (split; [intros [|? ?] ? ? ? H; discriminate H|]); intros _; now split. }
    assert (Hd : testDigits query = true).
    { destruct (testDigits query) eqn:Ed; [reflexivity|].
      unfold matchAllProductNumbers in En.
      now rewrite (testDigits_no_match false query Ed) in En. }
    rewrite Hd. cbn [callsMade runScript pushNote pushedToolCalls completion].
    match goal with |- context [searchProducts ?ns ?acc ?next] =>
      destruct (searchProducts_calls ns acc next) as [[fewer Hf] Hall];
        [intros rs; apply callsMade_finish|] end.
    split; [rewrite Hf, length_firstn, length_map, length_firstn; lia|].
    split.
    { intros answered n rest e Hsplit Hans He. rewrite Hsplit.
      now apply searchProducts_rejected. }
    intros Hans. destruct Hall as [Hc [text Hr]].
    { intros c Hc. apply in_map_iff in Hc as [n [<- Hn]]. now apply Hans. }
    split; [exact Hc|].
    rewrite Hr. rewrite finish_run. cbn [pushedReasoning pushedToolCalls completion].
    clear. induction (firstn 3 (n0 :: l)) as [|n rest IH]; [reflexivity|].
    cbn [fold_right map pushCall pushedToolCalls]. now rewrite IH.
Qed.

Lemma appendArea_section (response areaId : string) (result summary : JsVal) :
  getProp result "summary" = Returned summary ->
  appendArea fmt response (areaId, result) =
  Returned (response +:+ areaSection fmt (areaNameOf areaId) areaId summary).
Proof.
  intros H. unfold appendArea, areaSection. rewrite H. cbn [bind].
  now rewrite !append_assoc.
Qed.

(** X21.  The comparison handler asks for the three areas one after
    the other, F, D, then R, and records each call when it has answered,
    so that a call that rejects ends the run with the earlier calls
    recorded.  When the three calls answer, the text has a section per
    area in that order, in which a missing number, and every number of a
    result without [summary], is printed as 0. *)
Theorem comparison_handler_queries_areas_in_turn (query : string) :
  let script := LocationHandlers.handleComparisonQuery fmt query in
  let run := runScript mcpServer script in
  let call areaId := ("get_inventory_by_area", comparisonParams areaId) in
  let answer areaId :=
    settledWith (callTool mcpServer "get_inventory_by_area" (comparisonParams areaId)) in
  let recorded areaId result :=
    mkToolCall "get_inventory_by_area" (comparisonParams areaId) result in
  (forall e, answer "F" = Thrown e ->
     callsMade mcpServer script = [call "F"] /\
     pushedToolCalls run = [] /\ completion run = Thrown e) /\
  (forall f e, answer "F" = Returned f -> answer "D" = Thrown e ->
     callsMade mcpServer script = [call "F"; call "D"] /\
     pushedToolCalls run = [recorded "F" f] /\ completion run = Thrown e) /\
  (forall f d e, answer "F" = Returned f -> answer "D" = Returned d ->
     answer "R" = Thrown e ->
     callsMade mcpServer script = [call "F"; call "D"; call "R"] /\
     pushedToolCalls run = [recorded "F" f; recorded "D" d] /\
     completion run = Thrown e) /\
  (forall f d r, answer "F" = Returned f -> answer "D" = Returned d ->
     answer "R" = Returned r ->
     callsMade mcpServer script = [call "F"; call "D"; call "R"] /\
     pushedToolCalls run = [recorded "F" f; recorded "D" d; recorded "R" r] /\
     forall sf sd sr,
       getProp f "summary" = Returned sf -> getProp d "summary" = Returned sd ->
       getProp r "summary" = Returned sr ->
       completion run =
       Returned (comparisonHeader +:+
                 areaSection fmt "Frozen" "F" sf +:+
                 areaSection fmt "Dry" "D" sd +:+
                 areaSection fmt "Refrigerated" "R" sr)) /\
  (forall areaName areaId,
     areaSection fmt areaName areaId JUndefined =
     "📦 **" +:+ areaName +:+ " Area (" +:+ areaId +:+ "):**" +:+ nl +:+
     "   Products: " +:+ toStr fmt (JNum 0) +:+ nl +:+
     "   Total Units: " +:+ toStr fmt (JNum 0) +:+ nl +:+
     "   Space Utilization: " +:+ toStr fmt (JNum 0) +:+ "%" +:+ nl +:+ nl).
Proof.
  cbv zeta. unfold LocationHandlers.handleComparisonQuery.
  cbn [queryAreas callsMade runScript app].
  split; [intros e ->; now repeat split|].
  split; [intros f e -> ->; now repeat split|].
  split; [intros f d e -> -> ->; now repeat split|].
  split; [|reflexivity].
  intros f d r -> -> ->. rewrite callsMade_finish, finish_run.
  split; [reflexivity|]. split; [reflexivity|].
  intros sf sd sr Hf Hd Hr.
  cbn [pushNote pushCall completion fold_left bind].
  rewrite (appendArea_section _ _ _ _ Hf). cbn [bind].
  rewrite (appendArea_section _ _ _ _ Hd). cbn [bind].
  rewrite (appendArea_section _ _ _ _ Hr).
  now rewrite !append_assoc.
Qed.

(** X22.  The count handler calls a tool only for a query that
    mentions "locations": the inventory of area D for one that also
    mentions "dry" or "area d", the space analysis for one that does not
    mention "area" at all.  Every other query, a count of locations in
    another area included, gets the guidance text without any call.  It
    never makes more than one call.  A result without [summary] does not
    fail: the call is recorded and the answer is the guidance text, for
    area D, or the standing description of the warehouse. *)
Theorem count_handler_counts_locations_only (query : string) :
  let script := LocationHandlers.handleCountQuery fmt query in
  let run := runScript mcpServer script in
  let has := includes (toLowerCase query) in
  length (callsMade mcpServer script) <= 1 /\
  (has "locations" = false \/
   (has "area" = true /\ has "dry" = false /\ has "area d" = false) ->
   callsMade mcpServer script = [] /\
   pushedToolCalls run = [] /\ completion run = Returned countGuidance) /\
  (has "locations" = true -> has "dry" = true \/ has "area d" = true ->
   callsMade mcpServer script = [("get_inventory_by_area", dryCountParams)] /\
   forall result summary,
     settledWith (callTool mcpServer "get_inventory_by_area" dryCountParams) =
       Returned result ->
     getProp result "summary" = Returned summary ->
     pushedToolCalls run = [mkToolCall "get_inventory_by_area" dryCountParams result] /\
     completion run =
       Returned (if truthy summary then dryCountText fmt summary else countGuidance)) /\
  (has "locations" = true -> has "area" = false -> has "dry" = false ->
   callsMade mcpServer script = [("analyze_space_utilization", totalCountParams)] /\
   forall result summary,
     settledWith (callTool mcpServer "analyze_space_utilization" totalCountParams) =
       Returned result ->
     getProp result "summary" = Returned summary ->
     pushedToolCalls run =
       [mkToolCall "analyze_space_utilization" totalCountParams result] /\
     completion run =
       Returned (if truthy summary then totalCountText fmt summary
                 else totalCountFallback)).
Proof.
  cbv zeta. unfold LocationHandlers.handleCountQuery.
  set (has := includes (toLowerCase query)).
  assert (Harea : has "area d" = true -> has "area" = true).
  { unfold has. rewrite !includes_spec. intros [pre [post ->]].
    exists pre, (" d" +:+ post). reflexivity. }
  split.
  { destruct (has "locations" && (has "dry" || has "area d")).
    - cbn [callsMade]. destruct (settledWith _); cbn [callsMade length];
        rewrite ?callsMade_finish; simpl; lia.
    - destruct (has "locations" && negb (has "area")).
      + cbn [callsMade]. destruct (settledWith _); cbn [callsMade length];
          rewrite ?callsMade_finish; simpl; lia.
      + simpl. lia. }
  split.
  { intros [Hl | [Ha [Hd Had]]].
    - rewrite Hl. now repeat split.
    - rewrite Ha, Hd, Had, !andb_false_r. now repeat split. }
  split.
  { intros Hl Hd. rewrite Hl.
    assert (Hor : has "dry" || has "area d" = true)
      by (destruct Hd as [-> | ->]; [reflexivity | apply orb_true_r]).
    rewrite Hor. cbn [andb callsMade runScript].
    destruct (settledWith (callTool mcpServer "get_inventory_by_area" dryCountParams))
      as [result|e].
    - cbn [callsMade]. rewrite callsMade_finish. split; [reflexivity|].
      intros r summary [= <-] Hs. rewrite finish_run, Hs. now split.
    - split; [reflexivity | discriminate]. }
  intros Hl Ha Hd. rewrite Hl, Ha, Hd.
  assert (Had : has "area d" = false)
    by (destruct (has "area d"); [now rewrite Harea in Ha | reflexivity]).
  rewrite Had. cbn [andb orb negb callsMade runScript].
  destruct (settledWith (callTool mcpServer "analyze_space_utilization" totalCountParams))
    as [result|e].
  - cbn [callsMade]. rewrite callsMade_finish. split; [reflexivity|].
    intros r summary [= <-] Hs. rewrite finish_run, Hs. now split.
  - split; [reflexivity | discriminate].
Qed.

Lemma plan_flexible (handlers : OtherHandlers) (query : string) :
  isFlexibleQuery query = true ->
  planAndExecuteQuery fmt handlers query =
  Reason ("🧠 Planning approach for: " +:+ dq +:+ query +:+ dq)
         (LocationAgent.handleFlexibleQuery handlers query).
Proof.
  unfold isFlexibleQuery, planAndExecuteQuery. intros H.
  repeat (apply andb_true_iff in H as [H ?]).
  repeat match goal with
         | Hn : negb _ = true |- _ => apply negb_true_iff in Hn; rewrite Hn
         end.
  reflexivity.
Qed.

(** X23.  The fallback classifier and the agent do not read a product
    number in the same way.  A query whose lower-cased text holds a
    product number (the test of the classifier's digit rule) gets the
    intent [product_location_search] from the fallback classifier.  The
    agent does not look at the intent: if the query has none of the
    keywords of its first seven rules and does not mention "product", it
    makes no tool call and answers with the guidance text. *)
Theorem bare_product_number_gets_guidance (query : string)
    (registry : Registry.AgentRegistry) (ranking area : string -> Script) :
  testProductNumber (toLowerCase query) = true ->
  isFlexibleQuery query = true ->
  includes (toLowerCase query) "product" = false ->
  Router.intent (Router.fallbackClassification query registry) =
    "product_location_search" /\
  let script :=
    planAndExecuteQuery fmt (sourceHandlers fmt stringToNumber ranking area) query in
  callsMade mcpServer script = [] /\
  pushedToolCalls (runScript mcpServer script) = [] /\
  completion (runScript mcpServer script) = Returned flexibleGuidance.
Proof.
  intros Ht Hq Hp. split.
  - unfold Router.fallbackClassification, Router.fallbackIntent. cbn [Router.intent].
    now rewrite Ht, orb_true_r.
  - cbv zeta. rewrite (plan_flexible _ _ Hq).
    cbn [sourceHandlers LocationAgent.handleFlexibleQuery].
    unfold LocationHandlers.handleFlexibleQuery. rewrite Hp. now repeat split.
Qed.

End HandlerFacts.

(** * Concrete runs *)

Section ConcreteRuns.
Import Js Registry Router A2A Mcp.

(** C5 as stated fails: with the expiration check throwing and the two
    other calls succeeding, the summary response is an error with no
    recorded tool call and without the sections of the calls that
    succeeded. *)
Lemma summary_partial_failure_counterexample :
  let message := sampleMessage "Give me a warehouse summary" in
  let resp := LocationAgent.processWarehouseQuery sampleFormat failingTools
                sampleHandlers sampleAgentIO message in
  isSummaryQuery (msgContent message) = true /\
  map settledWith (summaryCalls failingTools) =
    [Returned spaceResult; Thrown (JsError "database is locked"); Returned quantityResult] /\
  respStatus resp = error /\
  respToolCalls resp = Some [] /\
  respContent resp =
    "I encountered an issue processing your warehouse query. database is locked" /\
  includes (respContent resp) "Space Utilization" = false /\
  includes (respContent resp) "Inventory Overview" = false.
Proof. vm_compute. repeat split. Qed.

(** C5 at concrete runs: with the expiration check rejecting, the three
    calls are made all the same; and when all three calls succeed and the
    expiration result has no summary, the response leaves that section
    out. *)
Lemma summary_batch_all_or_nothing_witness :
  isSummaryQuery (msgContent (sampleMessage "Give me a warehouse summary")) = true /\
  callsMade failingTools
    (LocationAgent.planAndExecuteQuery sampleFormat sampleHandlers
       (msgContent (sampleMessage "Give me a warehouse summary"))) =
    [ ("analyze_space_utilization", LocationAgent.spaceParams);
      ("check_expiration_dates", LocationAgent.expirationParams);
      ("quantity_analysis", LocationAgent.quantityParams) ] /\
  respStatus (LocationAgent.processWarehouseQuery sampleFormat workingTools
                sampleHandlers sampleAgentIO
                (sampleMessage "Give me a warehouse summary")) = success /\
  includes (respContent (LocationAgent.processWarehouseQuery sampleFormat workingTools
                sampleHandlers sampleAgentIO
                (sampleMessage "Give me a warehouse summary")))
           "Expiration Status" = false.
Proof.
  split; [reflexivity|].
  split; [exact (proj1 (summary_batch_all_or_nothing sampleFormat failingTools
                          sampleHandlers sampleAgentIO
                          (sampleMessage "Give me a warehouse summary") eq_refl))|].
  destruct (proj2 (proj2 (summary_batch_all_or_nothing sampleFormat workingTools
                     sampleHandlers
                     sampleAgentIO (sampleMessage "Give me a warehouse summary") eq_refl))
                  spaceResult expirationResult quantityResult
                  (lookupProp [("summary", JObj [("overallUtilization", JNum 71);
                                                 ("totalCube", JNum 9000);
                                                 ("usedCube", JNum 6390)])] "summary")
                  JUndefined
                  (lookupProp [("summary", JObj [("totalProducts", JNum 1520);
                                                 ("totalUnits", JNum 48211)])] "summary")
                  eq_refl eq_refl eq_refl eq_refl) as [Hstatus [_ Hcontent]].
  split; [exact Hstatus|]. rewrite Hcontent. vm_compute. reflexivity.
Defined.

(** C8 as stated fails: a stopped agent throws instead of returning a
    response. *)
Lemma processMessage_stopped_counterexample :
  LocationAgent.isRunning stoppedAgent = false /\
  snd (LocationAgent.processMessage sampleFormat workingTools sampleHandlers
         sampleAgentIO stoppedAgent (sampleMessage "Where is product 1263755?")) =
  Thrown (JsError "Location Agent is not running").
Proof. split; reflexivity. Qed.

(** C8 at a concrete run: the running agent answers a location query
    whose tool is missing with an error response. *)
Lemma processMessage_structured_witness :
  LocationAgent.isRunning runningAgent = true /\
  exists agent' resp,
    LocationAgent.processMessage sampleFormat workingTools sampleHandlers
      sampleAgentIO runningAgent (sampleMessage "Where is product 1263755?") =
    (agent', Returned resp) /\
    respStatus resp = error /\
    respContent resp =
      "I encountered an issue processing your warehouse query. " +:+
      "Tool find_product_locations not found".
Proof.
  split; [reflexivity|].
  destruct (processMessage_structured sampleFormat workingTools sampleHandlers
              sampleAgentIO runningAgent (sampleMessage "Where is product 1263755?")
              eq_refl)
    as [agent' [resp [Hrun [_ [_ [_ [_ [Hthrown _]]]]]]]].
  exists agent', resp. split; [exact Hrun|].
  destruct (Hthrown (JsError "Tool find_product_locations not found") eq_refl)
    as [Hstatus [Hcontent _]].
  split; [exact Hstatus | exact Hcontent].
Defined.

(** C9 at a concrete run: a session that holds 20 entries still holds 20
    after one more exchange. *)
Lemma history_window_preserved_witness :
  HistoryBounded fullState /\
  HistoryBounded
    (fst (Orchestrator.processQuery sampleParse sampleFormat workingTools sampleHandlers
            (sampleIO lowConfidenceAnswer) fullState
            "Give me a warehouse summary" "demo_1" None)) /\
  length (historyOf
    (fst (Orchestrator.processQuery sampleParse sampleFormat workingTools sampleHandlers
            (sampleIO lowConfidenceAnswer) fullState
            "Give me a warehouse summary" "demo_1" None)) "demo_1") = 20.
Proof.
  assert (H : HistoryBounded fullState).
  { intros s c. unfold fullState. cbn [Orchestrator.conversations mapGet].
    destruct (String.eqb "demo_1" s); [|discriminate].
    intros [= <-]. simpl. lia. }
  split; [exact H|].
  destruct (history_window_preserved sampleParse sampleFormat workingTools sampleHandlers
              (sampleIO lowConfidenceAnswer) fullState
              "Give me a warehouse summary" "demo_1" None H) as [Hinv _].
  split; [exact Hinv | vm_compute; reflexivity].
Defined.

(** C10 at a concrete run: a classification that targets the healthy,
    registered summarizer agent is not routed. *)
Lemma routing_only_location_agent_witness :
  getAgent sampleRegistry "summarizer-agent-001" =
    Some (sampleEntry "summarizer-agent-001" ["summary"; "findings"] true) /\
  forall ctx,
    Orchestrator.routeToAgent sampleFormat workingTools sampleHandlers
      (sampleIO lowConfidenceAnswer) fullState "Summarize the findings"
      summarizerClassification ctx =
    (fullState,
     Thrown (JsError "Agent routing not implemented for: summarizer-agent-001")).
Proof.
  split; [reflexivity|]. intros ctx.
  apply (routing_only_location_agent sampleFormat workingTools sampleHandlers
           (sampleIO lowConfidenceAnswer) fullState "Summarize the findings"
           summarizerClassification ctx
           (sampleEntry "summarizer-agent-001" ["summary"; "findings"] true)).
  - reflexivity.
  - reflexivity.
  - discriminate.
Defined.

(** C6 as stated fails: assigning [healthy = false] to the entry found in
    the array [getAllAgents] returned changes what the registry stores,
    and the next [getHealthyAgents] no longer lists the agent. *)
Lemma snapshot_entry_assignment_counterexample :
  let returned := RegistryHeap.getAllAgents oneAgent oneAgentStore in
  let after :=
    RegistryHeap.mutate
      (RegistryHeap.EntryAssign 1%positive (RegistryHeap.setHealthy false))
      (snd returned) in
  RegistryHeap.reachable (snd returned) (fst returned) 1%positive /\
  RegistryHeap.stored oneAgent after <> RegistryHeap.stored oneAgent (snd returned) /\
  RegistryHeap.readArray
    (snd (RegistryHeap.getHealthyAgents oneAgent (snd returned)))
    (fst (RegistryHeap.getHealthyAgents oneAgent (snd returned))) = [1%positive] /\
  RegistryHeap.readArray
    (snd (RegistryHeap.getHealthyAgents oneAgent after))
    (fst (RegistryHeap.getHealthyAgents oneAgent after)) = [].
Proof.
  cbv zeta. split; [|split; [|split]].
  - right. vm_compute. now left.
  - vm_compute. discriminate.
  - vm_compute. reflexivity.
  - vm_compute. reflexivity.
Qed.

(** A classification with confidence 30 is replaced by the fallback. *)
Example low_confidence_replaced :
  classifyQueryLLM sampleParse liveEnv "analyze space" lowConfidenceAnswer sampleRegistry =
  Returned {| intent := "space_analysis";
              confidence := 50%Q;
              targetAgent := "location-agent-001";
              parameters := JObj [("query", JStr "analyze space")];
              complexity := simple;
              reasoning := ["Rule-based fallback"; "Low confidence fallback"] |}.
Proof. vm_compute. reflexivity. Qed.

(** An answer that arrives after 10 s loses the race against the timer. *)
Example late_answer_times_out :
  classifyQueryLLM sampleParse liveEnv "Where is product 1263755?"
    (mkPromise (Some 10400%N) (Returned [mkBlock "text" "low"])) sampleRegistry =
  Returned (fallbackClassification "Where is product 1263755?" sampleRegistry) /\
  intent (fallbackClassification "Where is product 1263755?" sampleRegistry) =
    "product_location_search".
Proof. vm_compute. split; reflexivity. Qed.

(** The tag ["find"] matches the location agent's tag ["find"] and, by
    containment, the summarizer's tag ["findings"]: equal scores, registry
    order; with ["summary"] added the summarizer comes first. *)
Example ranking_by_tags :
  map (fun r => (agentId (agent r), score r))
      (findAgentsByIntentTags sampleRegistry ["find"]) =
    [("location-agent-001", 2%Z); ("summarizer-agent-001", 2%Z)] /\
  map (fun r => (agentId (agent r), score r))
      (findAgentsByIntentTags sampleRegistry ["find"; "Summary"]) =
    [("summarizer-agent-001", 4%Z); ("location-agent-001", 2%Z)] /\
  findAgentsByIntentTags sampleRegistry ["pallet"] = [].
Proof. vm_compute. repeat split. Qed.

Example discovery_skips_failures :
  mapKeys (Discovery.start (fun _ => Thrown (JsError "fetch failed")) 1700000000000
             sampleConfig []) = ["location-agent-001"] /\
  map (accepted (fun _ => Thrown (JsError "fetch failed"))) sampleConfig =
    [false; false; true].
Proof. vm_compute. split; reflexivity. Qed.

(** The rules of the fallback classifier on a few queries: the first
    rule that applies decides, the digit rule needs word boundaries, and
    the complexity looks at the query as typed. *)
Example fallback_on_queries :
  map (fun q => intent (fallbackClassification q sampleRegistry))
      [ "Where is product 1263755?"; "pallet 1263755";
        "How many of the most common items?"; "What expires the MOST?";
        "overview of space"; "free SPACE"; "will it expire"; "hello";
        "lot1263755x" ] =
    [ "product_location_search"; "product_location_search";
      "inventory_count_query"; "inventory_ranking_analysis";
      "comprehensive_summary"; "space_analysis"; "expiration_check";
      "general_warehouse_query"; "general_warehouse_query" ] /\
  map (fun q => complexity (fallbackClassification q sampleRegistry))
      [ "count frozen and dry"; "count frozen AND dry"; "compare then rank" ] =
    [ complex; simple; complex ] /\
  targetAgent (fallbackClassification "hello" sampleRegistry) = "location-agent-001".
Proof. vm_compute. repeat split. Qed.

(** Emptying the array [getAllAgents] returned changes nothing in the
    registry: the next call lists the agent again. *)
Example returned_array_is_a_copy :
  let returned := RegistryHeap.getAllAgents oneAgent oneAgentStore in
  let after := RegistryHeap.mutate (RegistryHeap.ArrayTruncate (fst returned) 0)
                                   (snd returned) in
  RegistryHeap.readArray after (fst returned) = [] /\
  RegistryHeap.stored oneAgent after = RegistryHeap.stored oneAgent oneAgentStore /\
  RegistryHeap.readArray (snd (RegistryHeap.getAllAgents oneAgent after))
                         (fst (RegistryHeap.getAllAgents oneAgent after)) = [1%positive].
Proof. vm_compute. repeat split. Qed.


(** C4 at concrete runs.  With the same registry and the environment of
    a test, the fallback is returned without a prompt context.  With the
    discovered registry the prompt context is built, and an answer that
    cannot be parsed is replaced by the fallback. *)
Example unparsable_answer_recovered :
  RawRouter.classifyQueryLLM sampleFormat sampleCharacters (fun _ => None)
    rawSampleParse (mkEnv (Some "test") None) "Where is product 1263755?"
    (answering "high") untaggedRegistry =
  Returned (RawRouter.fallbackClassification "Where is product 1263755?"
                                             untaggedRegistry) /\
  RawRouter.classifyQueryLLM sampleFormat sampleCharacters (fun _ => None)
    rawSampleParse liveEnv "Where is product 1263755?" (answering "{intent:")
    discoveredRegistry =
  Returned (RawRouter.fallbackClassification "Where is product 1263755?"
                                             discoveredRegistry) /\
  lookupProp (RawRouter.fallbackClassification "Where is product 1263755?"
                                               discoveredRegistry) "targetAgent" =
    JStr "location-agent-001".
Proof. vm_compute. repeat split. Qed.

End ConcreteRuns.

(** * Concrete runs of the further properties *)

Section FurtherRuns.
Import Js Registry Router A2A Mcp.

(** X6 at a concrete run: the location agent, registered healthy under
    the id of its manifest while configured as ["warehouse-agent"], is
    unhealthy after a refresh although its health check would answer
    [healthy]. *)
Lemma unreachable_agent_marked_unhealthy_witness :
  let entry := sampleEntry "location-agent-001" ["location"; "find"; "where"] true in
  let reg : AgentRegistry := [("location-agent-001", entry)] in
  resolvesHealthy reg "location-agent-001" = true /\
  resolvesHealthy
    (Refresh.refreshAgents [renamedAgentConfig]
       (fun _ => Returned (JObj [("status", JStr "healthy")]))
       (fun _ => Thrown (JsError "fetch failed"))
       (fun _ => 1700000030000%N) reg)
    "location-agent-001" = false.
Proof.
  cbv zeta. split; [reflexivity|].
  apply (unreachable_agent_marked_unhealthy [renamedAgentConfig]
           (fun _ => Returned (JObj [("status", JStr "healthy")]))
           (fun _ => Thrown (JsError "fetch failed"))
           (fun _ => 1700000030000%N)
           [("location-agent-001",
             sampleEntry "location-agent-001" ["location"; "find"; "where"] true)]
           "location-agent-001"
           (sampleEntry "location-agent-001" ["location"; "find"; "where"] true)).
  - reflexivity.
  - reflexivity.
  - intros a [<- | []] H. discriminate.
Defined.


(** X8 at a concrete run: with an empty registry the query fails with
    "Agent location-agent-001 not found". *)
Lemma no_healthy_agent_every_query_fails_witness :
  getHealthyAgents (Orchestrator.agentRegistry emptyRegistryState) = [] /\
  exists msg,
    snd (Orchestrator.processQuery sampleParse sampleFormat workingTools sampleHandlers
           (sampleIO lowConfidenceAnswer) emptyRegistryState
           "Give me a warehouse summary" "demo_1" None) = Thrown (JsError msg) /\
    RoutingError "location-agent-001" msg.
Proof.
  split; [reflexivity|].
  destruct (no_healthy_agent_every_query_fails sampleParse sampleFormat workingTools
              sampleHandlers (sampleIO lowConfidenceAnswer) emptyRegistryState
              "Give me a warehouse summary" "demo_1" None eq_refl)
    as [msg [Hout [Herr _]]].
  exists msg. now split.
Defined.

(** X13 at a concrete run: after [stopAgents] the endpoint answers 500
    with the routing error. *)
Lemma stopped_agents_are_not_found_witness :
  Orchestrator.bodyQuery summaryRequest = Some "Give me a warehouse summary" /\
  snd (Orchestrator.postQuery sampleParse sampleFormat workingTools sampleHandlers
         1700000000123 (sampleIO lowConfidenceAnswer)
         (Orchestrator.stopAgents fullState) summaryRequest) =
  (500, Orchestrator.ErrorBody "Failed to process query"
          (Some "Agent location-agent-001 not found")).
Proof.
  split; [reflexivity|].
  destruct (stopped_agents_are_not_found sampleParse sampleFormat workingTools
              sampleHandlers 1700000000123 (sampleIO lowConfidenceAnswer) fullState
              summaryRequest "Give me a warehouse summary" eq_refl)
    as [_ [_ [_ [_ [_ H]]]]]; [discriminate|].
  exact H.
Defined.

(** X16 at a concrete run: two messages of one session are both
    remembered, in order. *)
Lemma memory_keeps_every_message_witness :
  LocationAgent.isRunning runningAgent = true /\
  remembered (deliver sampleFormat workingTools sampleHandlers runningAgent sampleInbox)
             "demo_1" =
  (map snd sampleInbox,
   ["Where is product 1263755?"; "Give me a warehouse summary"]).
Proof.
  split; [reflexivity|].
  destruct (memory_keeps_every_message sampleFormat workingTools sampleHandlers
              runningAgent sampleInbox "demo_1" eq_refl) as [_ [H _]].
  - intros turn [<- | [<- | []]]; reflexivity.
  - exact H.
Defined.

(** X17 at a concrete run: the agent that has processed the inbox
    answers a classified message from another sender as the fresh agent
    answers the plain one. *)
Lemma answer_ignores_memory_and_metadata_witness :
  LocationAgent.isRunning
    (deliver sampleFormat workingTools sampleHandlers runningAgent sampleInbox) = true /\
  snd (LocationAgent.processMessage sampleFormat workingTools sampleHandlers sampleAgentIO
         runningAgent (sampleMessage "Give me a warehouse summary")) =
  snd (LocationAgent.processMessage sampleFormat workingTools sampleHandlers sampleAgentIO
         (deliver sampleFormat workingTools sampleHandlers runningAgent sampleInbox)
         (classifiedMessage "Give me a warehouse summary")).
Proof.
  split; [reflexivity|].
  apply (answer_ignores_memory_and_metadata sampleFormat workingTools sampleHandlers
           sampleAgentIO runningAgent
           (deliver sampleFormat workingTools sampleHandlers runningAgent sampleInbox)
           (sampleMessage "Give me a warehouse summary")
           (classifiedMessage "Give me a warehouse summary"));
    reflexivity.
Defined.

(** X18 at a concrete run: a query with "explain" and "how many" goes
    to the flexible handler. *)
Lemma explain_how_many_is_neither_witness :
  includes (toLowerCase "Explain how many pallets we hold") "explain" = true /\
  LocationAgent.planAndExecuteQuery sampleFormat sampleHandlers
    "Explain how many pallets we hold" =
  LocationAgent.Reason
    ("🧠 Planning approach for: " +:+ LocationAgent.dq +:+
     "Explain how many pallets we hold" +:+ LocationAgent.dq)
    (LocationAgent.handleFlexibleQuery sampleHandlers "Explain how many pallets we hold").
Proof.
  split; [reflexivity|].
  destruct (explain_how_many_is_neither sampleFormat sampleHandlers
              "Explain how many pallets we hold" eq_refl eq_refl)
    as [H | [H | [H | [H | [H | H]]]]]; [..| exact H]; reflexivity.
Defined.

(** X23 at a concrete run: a query that is just a product number. *)
Lemma bare_product_number_gets_guidance_witness :
  testProductNumber (toLowerCase "1263755") = true /\
  intent (fallbackClassification "1263755" sampleRegistry) = "product_location_search" /\
  LocationAgent.completion
    (LocationAgent.runScript workingTools
       (LocationAgent.planAndExecuteQuery sampleFormat
          (LocationHandlers.sourceHandlers sampleFormat (fun _ => None)
             (fun _ => quiet) (fun _ => quiet))
          "1263755")) =
  Returned LocationHandlers.flexibleGuidance.
Proof.
  split; [reflexivity|].
  destruct (bare_product_number_gets_guidance sampleFormat (fun _ => None) workingTools
              "1263755" sampleRegistry (fun _ => quiet) (fun _ => quiet)
              eq_refl eq_refl eq_refl) as [Hi [_ [_ Hc]]].
  split; [exact Hi | exact Hc].
Defined.

(** A classification without [reasoning]: the agent is called and the
    exchange is stored, then the query throws. *)
Example missing_reasoning_fails_after_answer :
  let out :=
    RawOrchestrator.processQuery sampleFormat sampleCharacters (fun _ => None) rawSampleParse
      workingTools sampleHandlers (rawSampleIO (answering "no reasoning")) freshState
      "Where is product 1263755?" "demo_1" None in
  snd out = Thrown (JsError "classification.reasoning is not iterable") /\
  length (RawOrchestrator.dispatched (fst out)) = 1 /\
  map Orchestrator.role (rawHistoryOf (fst out) "demo_1") =
    [Orchestrator.user; Orchestrator.agentRole].
Proof. vm_compute. repeat split. Qed.

(** A classification whose intent cannot be converted to text: the query
    throws in the log line, before routing. *)
Example unprintable_intent_fails_before_routing :
  let out :=
    RawOrchestrator.processQuery sampleFormat sampleCharacters (fun _ => None) rawSampleParse
      workingTools sampleHandlers (rawSampleIO (answering "odd intent")) freshState
      "Where is product 1263755?" "demo_1" None in
  snd out = Thrown (JsError "Cannot convert object to primitive value") /\
  RawOrchestrator.dispatched (fst out) = [] /\
  rawHistoryOf (fst out) "demo_1" = [].
Proof. vm_compute. repeat split. Qed.

End FurtherRuns.
